(** * MyExpoApp: remote command / recording coordination core

    A shallow embedding of the recording engine (app/services/AudioService.js),
    the command channel and dispatcher (app/services/CommandPollingService.js)
    and the device identifier derivation (app/services/RegistrationService.js).

    The JavaScript modules keep their state in module-level variables and
    talk to the platform (expo-av, AsyncStorage, fetch, timers, console)
    through awaited calls.  Here the module variables are fields of [State],
    the platform is a record of operations over an abstract world [W], and
    every function is a computation in a state-and-exception monad [M].
    Each awaited call runs to completion before the next statement, i.e. the
    embedding describes one invocation at a time on the single JavaScript
    task; interleavings at suspension points are outside of it.  When two
    poll cycles overlap is told by the polling timeline, which runs the
    same functions on a platform with a clock. *)

From Stdlib Require Import String Ascii List ZArith QArith Bool Lia DecimalString.
Import ListNotations.
Open Scope string_scope.
Open Scope Z_scope.

(** ** JavaScript values that the code manipulates *)

(** A thrown value.  The platform rejects with [Error] objects, of which the
    code only reads [error.message]. *)
Record JsError := mkError { message : string }.

(** Outcome of an awaited call: a value, or a thrown error. *)
Inductive Completion (A : Type) :=
| Ok (a : A)
| Throw (e : JsError).
Arguments Ok {A} a.
Arguments Throw {A} e.

(** [s || d] on strings: the empty string is falsy. *)
Definition strOr (s d : string) : string :=
  if String.eqb s "" then d else s.

(** Truthiness of a [string | null] value. *)
Definition truthyStr (o : option string) : bool :=
  match o with
  | Some s => negb (String.eqb s "")
  | None => false
  end.

(** An [Audio.Recording] object, identified by its allocation. *)
Definition Handle := nat.

(** What [getStatusAsync] resolves to; only these two fields are read. *)
Record RecordingStatus := mkStatus {
  isRecording : bool;
  durationMillis : Z
}.

Record PermissionResponse := mkPermission {
  status : string;
  granted : bool
}.

(** Coordinates are passed through untouched (micro-degrees here). *)
Record Coords := mkCoords { latitude : Z; longitude : Z }.

(** The object returned by [startRecording] and [triggerRecording]; a field
    that the object literal does not carry is [None]. *)
Record StartResult := mkResult {
  success : bool;
  alreadyRecording : option bool;
  resultMessage : option string;
  error : option string
}.

(** The fields of a device-info object that [generateDeviceId] reads, and the
    platform it was collected on; [None] is an absent or null field. *)
Record DeviceInfo := mkDeviceInfo {
  manufacturer : option string;
  modelName : option string;
  platform : string
}.

(** A [fetch] response: its status and what [response.text()] settles to. *)
Record Response := mkResponse {
  respStatus : Z;
  respText : Completion string
}.

(** The parsed command payload, [{hasCommand, action?, durationSeconds?}]
    as documented for GET /api/command/{deviceId}. [hasCommand] is kept by
    its truthiness; an absent or null field is [None]. *)
Record CommandData := mkData {
  hasCommand : bool;
  action : option string;
  durationSeconds : option Z
}.

(** What [JSON.parse] can return: [null] (on which any property read
    throws), an object, or another primitive (every property read gives
    [undefined]; [truthy] is the value's own truthiness). *)
Inductive Parsed :=
| ParsedNull
| ParsedObject (d : CommandData)
| ParsedPrimitive (truthy : bool).

(** ** Observable effects *)

Inductive Level := LLog | LWarn | LError.

(** One console call: its level and its text (pictographs and interpolated
    objects left out). *)
Definition LogEntry := (Level * string)%type.

(** Every call made to a platform collaborator, in the order made. *)
Inductive Call :=
| CRequestPermissions
| CSetAudioMode
| CNewRecording (h : Handle)
| CPrepareToRecord (h : Handle)
| CStart (h : Handle)
| CGetStatus (h : Handle)
| CStopAndUnload (h : Handle)
| CGetURI (h : Handle)
| CFetchLocation
| CSendRecordingEvent (eventType trigger mode : string)
| CUploadAudio (uri : string) (durationMs : Z)
| CStorageGet (key : string)
| CStorageSet (key value : string)
| CCollectDeviceInfo
| CFetch (url : string)
| CRandom
| CDateNow.

(** The closures handed to [setTimeout]. *)
Inductive TimerTask :=
| AutoStop (triggerType : string) (durationSeconds : Z).

Record Timer := mkTimer { task : TimerTask; delayMs : Z }.

(** ** The platform *)

(** The collaborators, as operations over the world [W].  An operation that
    can reject returns a [Completion]. *)
Record Platform (W : Type) := mkPlatform {
  (* expo-av *)
  Audio_requestPermissionsAsync : W -> Completion PermissionResponse * W;
  Audio_setAudioModeAsync : W -> Completion unit * W;
  Audio_Recording_new : W -> Handle * W;
  prepareToRecordAsync : Handle -> W -> Completion unit * W;
  startAsync : Handle -> W -> Completion unit * W;
  getStatusAsync : Handle -> W -> Completion (option RecordingStatus) * W;
  stopAndUnloadAsync : Handle -> W -> Completion unit * W;
  getURI : Handle -> W -> option string;
  (* LocationService, ApiService *)
  fetchLocation : W -> Completion Coords * W;
  sendRecordingEvent : string -> Coords -> W -> Completion unit * W;
  fetchLocationAndUploadAudio : string -> Z -> W -> Completion unit * W;
  (* AsyncStorage *)
  AsyncStorage_getItem : string -> W -> Completion (option string) * W;
  AsyncStorage_setItem : string -> string -> W -> Completion unit * W;
  (* RegistrationService.collectDeviceInfo, react-native Platform *)
  collectDeviceInfo : W -> Completion DeviceInfo * W;
  Platform_OS : string;
  (* globals *)
  fetch : string -> W -> Completion Response * W;
  JSON_parse : string -> option Parsed;
  encodeURIComponent : string -> string;
  Math_random : W -> Q * W;
  Date_now : W -> Z * W
}.

Arguments Audio_requestPermissionsAsync {W}.
Arguments Audio_setAudioModeAsync {W}.
Arguments Audio_Recording_new {W}.
Arguments prepareToRecordAsync {W}.
Arguments startAsync {W}.
Arguments getStatusAsync {W}.
Arguments stopAndUnloadAsync {W}.
Arguments getURI {W}.
Arguments fetchLocation {W}.
Arguments sendRecordingEvent {W}.
Arguments fetchLocationAndUploadAudio {W}.
Arguments AsyncStorage_getItem {W}.
Arguments AsyncStorage_setItem {W}.
Arguments collectDeviceInfo {W}.
Arguments Platform_OS {W}.
Arguments fetch {W}.
Arguments JSON_parse {W}.
Arguments encodeURIComponent {W}.
Arguments Math_random {W}.
Arguments Date_now {W}.

(** ** Module state *)

(** The module-level variables of AudioService.js ([recording]) and of
    CommandPollingService.js ([pollingInterval], [isPolling],
    [cachedDeviceId], [deviceIdLogged]), the timers registered and not yet
    fired, the console, the calls made so far and the world. *)
Record State (W : Type) := mkState {
  recording : option Handle;
  pollingInterval : option Z;
  isPolling : bool;
  cachedDeviceId : option string;
  deviceIdLogged : bool;
  timers : list Timer;
  console : list LogEntry;
  calls : list Call;
  world : W
}.

Arguments mkState {W}.
Arguments recording {W}.
Arguments pollingInterval {W}.
Arguments isPolling {W}.
Arguments cachedDeviceId {W}.
Arguments deviceIdLogged {W}.
Arguments timers {W}.
Arguments console {W}.
Arguments calls {W}.
Arguments world {W}.

(** A freshly loaded process over world [w]. *)
Definition initialState {W} (w : W) : State W :=
  mkState None None false None false [] [] [] w.

(** ** The monad *)

Definition M (W A : Type) : Type := State W -> Completion A * State W.

Definition ret {W A} (a : A) : M W A := fun s => (Ok a, s).

Definition throw {W A} (e : JsError) : M W A := fun s => (Throw e, s).

Definition bind {W A B} (m : M W A) (k : A -> M W B) : M W B :=
  fun s =>
    match m s with
    | (Ok a, s') => k a s'
    | (Throw e, s') => (Throw e, s')
    end.

(** [try { m } catch (e) { h e }] *)
Definition tryCatch {W A} (m : M W A) (h : JsError -> M W A) : M W A :=
  fun s =>
    match m s with
    | (Ok a, s') => (Ok a, s')
    | (Throw e, s') => h e s'
    end.

(** [promise.catch(h)] *)
Definition promiseCatch {W A} (m : M W A) (h : JsError -> A) : M W A :=
  tryCatch m (fun e => ret (h e)).

Declare Scope js_scope.
Delimit Scope js_scope with js.
Notation "x <- m ;; k" := (bind m (fun x => k))
  (at level 100, m at next level, right associativity) : js_scope.
Notation "m ;; k" := (bind m (fun _ => k))
  (at level 100, right associativity) : js_scope.
Open Scope js_scope.

Section Primitives.
Context {W : Type}.

Definition setRecording (r : option Handle) : M W unit := fun s =>
  (Ok tt, mkState r (pollingInterval s) (isPolling s) (cachedDeviceId s)
             (deviceIdLogged s) (timers s) (console s) (calls s) (world s)).

Definition setPollingInterval (p : option Z) : M W unit := fun s =>
  (Ok tt, mkState (recording s) p (isPolling s) (cachedDeviceId s)
             (deviceIdLogged s) (timers s) (console s) (calls s) (world s)).

Definition setIsPolling (b : bool) : M W unit := fun s =>
  (Ok tt, mkState (recording s) (pollingInterval s) b (cachedDeviceId s)
             (deviceIdLogged s) (timers s) (console s) (calls s) (world s)).

Definition setCachedDeviceId (c : option string) : M W unit := fun s =>
  (Ok tt, mkState (recording s) (pollingInterval s) (isPolling s) c
             (deviceIdLogged s) (timers s) (console s) (calls s) (world s)).

Definition setDeviceIdLogged (b : bool) : M W unit := fun s =>
  (Ok tt, mkState (recording s) (pollingInterval s) (isPolling s)
             (cachedDeviceId s) b (timers s) (console s) (calls s) (world s)).

(** [setTimeout(task, delay)] *)
Definition setTimeout (t : TimerTask) (delay : Z) : M W unit := fun s =>
  (Ok tt, mkState (recording s) (pollingInterval s) (isPolling s)
             (cachedDeviceId s) (deviceIdLogged s)
             (timers s ++ [mkTimer t delay]) (console s) (calls s) (world s)).

Definition consoleAt (l : Level) (text : string) : M W unit := fun s =>
  (Ok tt, mkState (recording s) (pollingInterval s) (isPolling s)
             (cachedDeviceId s) (deviceIdLogged s) (timers s)
             (console s ++ [(l, text)]) (calls s) (world s)).

Definition console_log := consoleAt LLog.
Definition console_warn := consoleAt LWarn.
Definition console_error := consoleAt LError.

(** The world after a platform call, with the call recorded. *)
Definition afterCall (c : Call) (w : W) (s : State W) : State W :=
  mkState (recording s) (pollingInterval s) (isPolling s) (cachedDeviceId s)
          (deviceIdLogged s) (timers s) (console s) (calls s ++ [c]) w.

(** An awaited platform operation. *)
Definition await {A} (c : Call) (op : W -> Completion A * W) : M W A := fun s =>
  let (r, w) := op (world s) in (r, afterCall c w s).

(** A platform operation that cannot reject. *)
Definition perform {A} (c : Call) (op : W -> A * W) : M W A := fun s =>
  let (a, w) := op (world s) in (Ok a, afterCall c w s).

Definition getState : M W (State W) := fun s => (Ok s, s).

(** Property read or method call on a value that is [null]. *)
Definition typeError {A} (what : string) : M W A :=
  throw (mkError ("TypeError: Cannot read property '" ++ what ++ "' of null")).
End Primitives.

(** ** app/services/AudioService.js *)

Section AudioService.
Context {W : Type} (P : Platform W).

(** [recording.method(...)] on the module variable: a [TypeError] when the
    variable is null at that point. *)
Definition onRecording {A} (method : string) (f : Handle -> M W A) : M W A :=
  s <- getState ;;
  match recording s with
  | Some h => f h
  | None => typeError method
  end.

(** [new Audio.Recording()] *)
Definition newRecording : M W Handle := fun s =>
  let (h, w) := Audio_Recording_new P (world s) in
  (Ok h, afterCall (CNewRecording h) w s).

(** [status?.isRecording] *)
Definition optIsRecording (st : option RecordingStatus) : bool :=
  match st with
  | Some x => isRecording x
  | None => false
  end.

(** [status.isRecording]: throws on a null status. *)
Definition readIsRecording (st : option RecordingStatus) : M W bool :=
  match st with
  | Some x => ret (isRecording x)
  | None => typeError "isRecording"
  end.

(** notifyRecordingStatus(eventType, extra), lines 12-22. *)
Definition notifyRecordingStatus (eventType trigger mode : string) : M W unit :=
  tryCatch
    (loc <- await CFetchLocation (fetchLocation P) ;;
     await (CSendRecordingEvent eventType trigger mode)
           (sendRecordingEvent P eventType loc))
    (fun error =>
       console_log ("Failed to send recording status: " ++ message error)).

(** The best-effort release of lines 40-44, 47-51 and 151-155. *)
Definition cleanupRecording (h : Handle) : M W unit :=
  tryCatch
    (await (CStopAndUnload h) (stopAndUnloadAsync P h))
    (fun cleanupError =>
       console_log ("Cleanup error (non-critical): " ++ message cleanupError)).

Definition alreadyRecordingResult : StartResult :=
  mkResult true (Some true) (Some "Recording already in progress") None.

Definition permissionError : string :=
  "Audio recording permission not granted".

Definition verificationError : string :=
  "Recording start command failed - status shows not recording".

(** Lines 27-54: the check of an existing handle.  [Some r] is the early
    [return r]; [None] falls through to line 56. *)
Definition inspectExisting : M W (option StartResult) :=
  s <- getState ;;
  match recording s with
  | Some h =>
      r <- tryCatch
             (st <- await (CGetStatus h) (getStatusAsync P h) ;;
              if optIsRecording st then
                console_log "Recording already in progress, reusing existing session" ;;
                ret (Some alreadyRecordingResult)
              else
                console_log "Cleaning up stale recording object" ;;
                cleanupRecording h ;;
                ret None)
             (fun statusError =>
                console_log ("Could not inspect existing recording status: "
                             ++ message statusError) ;;
                cleanupRecording h ;;
                ret None) ;;
      match r with
      | Some res => ret (Some res)
      | None => setRecording None ;; ret None
      end
  | None => ret None
  end.

(** Lines 56-129: permission, audio mode, allocation, prepare, start and
    the status re-query. *)
Definition startFresh : M W StartResult :=
  console_log "Requesting audio permissions..." ;;
  permissionResponse <- await CRequestPermissions (Audio_requestPermissionsAsync P) ;;
  console_log ("Permission status: " ++ status permissionResponse) ;;
  if negb (granted permissionResponse) then
    console_error permissionError ;;
    ret (mkResult false None None (Some permissionError))
  else
    console_log "Setting audio mode..." ;;
    await CSetAudioMode (Audio_setAudioModeAsync P) ;;
    console_log "Creating new Audio.Recording instance..." ;;
    h <- newRecording ;;
    setRecording (Some h) ;;
    console_log "Preparing to record with options" ;;
    onRecording "prepareToRecordAsync"
      (fun r => await (CPrepareToRecord r) (prepareToRecordAsync P r)) ;;
    console_log "Recording prepared successfully" ;;
    console_log "Starting recording..." ;;
    onRecording "startAsync" (fun r => await (CStart r) (startAsync P r)) ;;
    (* Verify recording actually started *)
    st <- onRecording "getStatusAsync"
            (fun r => await (CGetStatus r) (getStatusAsync P r)) ;;
    rec <- readIsRecording st ;;
    if negb rec then
      console_error verificationError ;;
      setRecording None ;;
      ret (mkResult false None None (Some verificationError))
    else
      console_log "Recording started successfully!" ;;
      console_log "Recording started with WhatsApp-quality AAC settings:" ;;
      console_log "   Sample Rate: 44.1kHz (CD Quality)" ;;
      console_log "   Bit Rate: 128 kbps (WhatsApp Quality)" ;;
      console_log "   Format: AAC (.m4a)" ;;
      console_log "   Channels: Mono (optimized for voice)" ;;
      console_log "   Status:" ;;
      ret (mkResult true None None None).

(** The [catch (error)] block of lines 130-136. *)
Definition startRecordingCatch (error : JsError) : M W StartResult :=
  console_error "Failed to start recording:" ;;
  console_error ("Error message: " ++ message error) ;;
  console_error "Error stack:" ;;
  (* Clear on error *)
  setRecording None ;;
  ret (mkResult false None None
         (Some (strOr (message error) "Unknown error starting recording"))).

(** startRecording(), lines 24-137. *)
Definition startRecording : M W StartResult :=
  tryCatch
    (early <- inspectExisting ;;
     match early with
     | Some res => ret res
     | None => startFresh
     end)
    startRecordingCatch.

(** stopRecording(), lines 139-189; the result is the file URI or null. *)
Definition stopRecording : M W (option string) :=
  s <- getState ;;
  match recording s with
  | None =>
      console_log "No recording to stop (recording object is null)" ;;
      ret None
  | Some _ =>
      tryCatch
        (st <- onRecording "getStatusAsync"
                 (fun r => await (CGetStatus r) (getStatusAsync P r)) ;;
         rec <- readIsRecording st ;;
         if negb rec then
           console_log "Recording object exists but is not currently recording" ;;
           tryCatch
             (onRecording "stopAndUnloadAsync"
                (fun r => await (CStopAndUnload r) (stopAndUnloadAsync P r)))
             (fun cleanupError =>
                console_log ("Cleanup error (non-critical): " ++ message cleanupError)) ;;
           setRecording None ;;
           ret None
         else
           console_log "Stopping recording..." ;;
           s1 <- getState ;;
           match recording s1 with
           | None => typeError "stopAndUnloadAsync"
           | Some currentRecording =>
               (* Clear recording reference first to prevent double stops *)
               setRecording None ;;
               await (CStopAndUnload currentRecording)
                     (stopAndUnloadAsync P currentRecording) ;;
               s2 <- getState ;;
               let uri := getURI P currentRecording (world s2) in
               finalStatus <- await (CGetStatus currentRecording)
                                    (getStatusAsync P currentRecording) ;;
               (* kept in milliseconds; the source divides by 1000 *)
               duration <- match finalStatus with
                           | Some f => ret (durationMillis f)
                           | None => typeError "durationMillis"
                           end ;;
               console_log "Recording stopped successfully!" ;;
               console_log ("   File URI: " ++ match uri with Some u => u | None => "null" end) ;;
               console_log "   Duration:" ;;
               console_log "   Final status:" ;;
               (if truthyStr uri then
                  console_log "Uploading recording with location..." ;;
                  await (CUploadAudio (match uri with Some u => u | None => "" end) duration)
                        (fetchLocationAndUploadAudio P
                           (match uri with Some u => u | None => "" end) duration)
                else
                  console_warn "No URI returned from recording - cannot upload") ;;
               ret uri
           end)
        (fun error =>
           console_error "Failed to stop recording:" ;;
           console_error ("Error message: " ++ message error) ;;
           console_error "Error stack:" ;;
           (* Make sure to clear reference even on error *)
           setRecording None ;;
           ret None)
  end.

(** The closure passed to [setTimeout] at lines 484-496. *)
Definition autoStopCallback (triggerType : string) (durationSeconds : Z) : M W unit :=
  s <- getState ;;
  match recording s with
  | Some h =>
      st <- promiseCatch (await (CGetStatus h) (getStatusAsync P h))
                         (fun _ => Some (mkStatus false 0)) ;;
      rec <- readIsRecording st ;;
      if rec then
        console_log ("Trigger recording auto-stopping: " ++ triggerType) ;;
        stopRecording ;;
        ret tt
      else
        console_log ("Recording already stopped when auto-stop triggered for " ++ triggerType)
  | None =>
      console_log ("Recording object is null when auto-stop triggered for " ++ triggerType)
  end.

(** [!durationSeconds || durationSeconds === null || durationSeconds === 0] *)
Definition isContinuous (durationSeconds : option Z) : bool :=
  match durationSeconds with
  | None => true
  | Some d => (d =? 0)
  end.

(** The numeric value of a [number | null] operand ([null * 1000] is 0). *)
Definition toNumber (d : option Z) : Z :=
  match d with
  | Some z => z
  | None => 0
  end.

Definition modeOf (continuous : bool) : string :=
  if continuous then "continuous" else "timed".

(** triggerRecording(triggerType, durationSeconds), lines 445-506. *)
Definition triggerRecording (triggerType : string) (durationSeconds : option Z)
  : M W StartResult :=
  tryCatch
    (let continuous := isContinuous durationSeconds in
     (if continuous then
        console_log ("Trigger recording activated: " ++ triggerType
                     ++ " (CONTINUOUS - no auto-stop)")
      else
        console_log ("Trigger recording activated: " ++ triggerType)) ;;
     result <- startRecording ;;
     if negb (success result) then
       let errorMsg := match error result with
                       | Some e => strOr e "Unknown error starting recording"
                       | None => "Unknown error starting recording"
                       end in
       console_error ("Failed to start recording for trigger " ++ triggerType
                      ++ ": " ++ errorMsg) ;;
       ret (mkResult false None None (Some errorMsg))
     else if match alreadyRecording result with Some b => b | None => false end then
       console_log ("Recording already in progress for trigger " ++ triggerType
                    ++ " (treated as success)") ;;
       notifyRecordingStatus "recording_already_active" triggerType (modeOf continuous) ;;
       ret (mkResult true (Some true) None None)
     else
       notifyRecordingStatus "recording_started" triggerType (modeOf continuous) ;;
       (if continuous then
          console_log ("Recording started successfully for trigger " ++ triggerType
                       ++ " in CONTINUOUS mode (stops only on manual command)")
        else
          console_log ("Recording started successfully for trigger " ++ triggerType
                       ++ ", will auto-stop") ;;
          (* Auto-stop after duration (only if duration specified) *)
          setTimeout (AutoStop triggerType (toNumber durationSeconds))
                     (toNumber durationSeconds * 1000)) ;;
       ret (mkResult true None None None))
    (fun error =>
       console_error ("Trigger recording error (" ++ triggerType ++ "):") ;;
       console_error ("Error message: " ++ message error) ;;
       console_error "Error stack:" ;;
       ret (mkResult false None None
              (Some (strOr (message error) "Unknown error in triggerRecording")))).

(** What firing a timer runs. *)
Definition runTimer (t : TimerTask) : M W unit :=
  match t with
  | AutoStop triggerType d => autoStopCallback triggerType d
  end.
End AudioService.

(** ** app/services/RegistrationService.js: generateDeviceId *)

(** A string is held as its UTF-8 encoding, the form in which a string
    literal of this file is read; a character is one to four bytes.

    The characters that the class [\s] of a regular expression and
    [trim()] treat as white space (WhiteSpace and LineTerminator of
    ECMAScript): tab, line feed, vertical tab, form feed, carriage return
    and space, of one byte; U+00A0, of two; U+1680, U+2000 to U+200A,
    U+2028, U+2029, U+202F, U+205F, U+3000 and U+FEFF, of three. *)
Definition byte (c : ascii) : nat := nat_of_ascii c.

Definition isSpace1 (a : ascii) : bool :=
  ((9 <=? byte a) && (byte a <=? 13) || (byte a =? 32))%nat.

Definition isSpace2 (a b : ascii) : bool :=
  ((byte a =? 194) && (byte b =? 160))%nat.                     (* U+00A0 *)

Definition isSpace3 (a b c : ascii) : bool :=
  ((byte a =? 225) && (byte b =? 154) && (byte c =? 128)        (* U+1680 *)
   || (byte a =? 226) && (byte b =? 128)
      && ((128 <=? byte c) && (byte c <=? 138)                  (* U+2000 to U+200A *)
          || (byte c =? 168) || (byte c =? 169)                 (* U+2028, U+2029 *)
          || (byte c =? 175))                                   (* U+202F *)
   || (byte a =? 226) && (byte b =? 129) && (byte c =? 159)     (* U+205F *)
   || (byte a =? 227) && (byte b =? 128) && (byte c =? 128)     (* U+3000 *)
   || (byte a =? 239) && (byte b =? 187) && (byte c =? 191))%nat. (* U+FEFF *)

(** The number of bytes of the white space character that [s] starts
    with; 0 when it starts with none. *)
Definition spaceWidth (s : string) : nat :=
  match s with
  | String a r =>
      if isSpace1 a then 1%nat
      else match r with
           | String b r' =>
               if isSpace2 a b then 2%nat
               else match r' with
                    | String c _ => if isSpace3 a b c then 3%nat else 0%nat
                    | EmptyString => 0%nat
                    end
           | EmptyString => 0%nat
           end
  | EmptyString => 0%nat
  end.

(** [s] without its first [n] bytes. *)
Fixpoint dropBytes (n : nat) (s : string) : string :=
  match n, s with
  | S k, String _ r => dropBytes k r
  | _, _ => s
  end.

(** [s.replace(/\s+/g, '')], read byte by byte; [skip] is the number of
    bytes still to drop of a white space character that has been
    recognised. *)
Fixpoint removeSpaces (skip : nat) (s : string) : string :=
  match s with
  | EmptyString => EmptyString
  | String c r =>
      match skip with
      | S k => removeSpaces k r
      | O =>
          match spaceWidth s with
          | S k => removeSpaces k r
          | O => String c (removeSpaces 0 r)
          end
      end
  end.

Definition removeWhitespace (s : string) : string := removeSpaces 0 s.

(** [s.replace(/\s+/g, '_')]: [inRun] holds while inside a run of white
    space whose underscore has been written. *)
Fixpoint underscoreRuns (inRun : bool) (skip : nat) (s : string) : string :=
  match s with
  | EmptyString => EmptyString
  | String c r =>
      match skip with
      | S k => underscoreRuns inRun k r
      | O =>
          match spaceWidth s with
          | S k =>
              if inRun then underscoreRuns true k r
              else String "_" (underscoreRuns true k r)
          | O => String c (underscoreRuns false 0 r)
          end
      end
  end.

Definition underscoreWhitespace (s : string) : string := underscoreRuns false 0 s.

(** [v || d] for a [string | null | undefined] value. *)
Definition orDefault (v : option string) (d : string) : string :=
  match v with
  | Some s => strOr s d
  | None => d
  end.

(** The identifier built at lines 259-261 of RegistrationService.js. *)
Definition deviceIdOf (deviceInfo : DeviceInfo) : string :=
  let manufacturer := removeWhitespace (orDefault (manufacturer deviceInfo) "Apple") in
  let model := underscoreWhitespace (orDefault (modelName deviceInfo) "Unknown") in
  manufacturer ++ "_" ++ model ++ "_iOS".

(** Decimal rendering of a number, as template literals do for integers. *)
Definition showZ (z : Z) : string := NilZero.string_of_int (Z.to_int z).

Section RegistrationService.
Context {W : Type} (P : Platform W).

(** generateDeviceId(deviceInfo), lines 256-270. *)
Definition generateDeviceId (deviceInfo : DeviceInfo) : M W string :=
  tryCatch
    (let deviceId := deviceIdOf deviceInfo in
     console_log ("Generated device ID: " ++ deviceId) ;;
     ret deviceId)
    (fun error =>
       console_error "Error generating device ID:" ;;
       now <- perform CDateNow (Date_now P) ;;
       ret ("Apple_Unknown_iOS_" ++ showZ now)).
End RegistrationService.

(** ** app/services/CommandPollingService.js *)

Definition BASE_URL : string := "http://105.114.25.157:5000".
Definition DEVICE_ID_KEY : string := "@registered_device_id".

(** [s.toLowerCase()], of which the code only reads whether the result
    starts with "<!doctype" or "<html": the letters of ASCII are mapped,
    and no other character has a lower case that contains a letter of
    these two words. *)
Definition lowerAscii (c : ascii) : ascii :=
  let n := nat_of_ascii c in
  if ((65 <=? n) && (n <=? 90))%nat then ascii_of_nat (n + 32) else c.

Fixpoint toLowerCase (s : string) : string :=
  match s with
  | EmptyString => EmptyString
  | String c r => String (lowerAscii c) (toLowerCase r)
  end.

(** The white space characters at the start dropped; [skip] as in
    [removeSpaces]. *)
Fixpoint dropSpaces (skip : nat) (s : string) : string :=
  match s with
  | EmptyString => EmptyString
  | String c r =>
      match skip with
      | S k => dropSpaces k r
      | O =>
          match spaceWidth s with
          | S k => dropSpaces k r
          | O => s
          end
      end
  end.

Definition trimStart (s : string) : string := dropSpaces 0 s.

(** Nothing but white space. *)
Definition isBlank (s : string) : bool := String.eqb (trimStart s) "".

(** The white space characters at the end dropped: the string ends where
    only white space is left. *)
Fixpoint trimEnd (s : string) : string :=
  match s with
  | EmptyString => EmptyString
  | String c r => if isBlank s then EmptyString else String c (trimEnd r)
  end.

(** [s.trim()] *)
Definition trim (s : string) : string := trimEnd (trimStart s).

(** Lines 147-148. *)
Definition isHtml (responseText : string) : bool :=
  String.prefix "<!doctype" (toLowerCase (trim responseText))
  || String.prefix "<html" (toLowerCase (trim responseText)).

(** [data.durationSeconds || 30], line 216. *)
Definition dispatchDuration (durationSeconds : option Z) : Z :=
  match durationSeconds with
  | Some d => if d =? 0 then 30 else d
  | None => 30
  end.

(** [r < p] on [Math.random()]. *)
Definition below (r p : Q) : bool := negb (Qle_bool p r).

Section CommandPollingService.
Context {W : Type} (P : Platform W).

(** getDeviceId(), lines 57-96. *)
Definition getDeviceId : M W string :=
  tryCatch
    (s <- getState ;;
     (* Return cached device ID if available *)
     if truthyStr (cachedDeviceId s) then
       ret (match cachedDeviceId s with Some c => c | None => "" end)
     else
       storedDeviceId <- await (CStorageGet DEVICE_ID_KEY)
                               (AsyncStorage_getItem P DEVICE_ID_KEY) ;;
       if truthyStr storedDeviceId then
         setCachedDeviceId storedDeviceId ;;
         s1 <- getState ;;
         (if negb (deviceIdLogged s1) then
            console_log ("Using stored device ID for command polling: "
                         ++ match storedDeviceId with Some c => c | None => "" end) ;;
            setDeviceIdLogged true
          else ret tt) ;;
         ret (match storedDeviceId with Some c => c | None => "" end)
       else
         s1 <- getState ;;
         (if negb (deviceIdLogged s1) then
            console_log "No stored device ID found, generating new one..." ;;
            setDeviceIdLogged true
          else ret tt) ;;
         deviceInfo <- await CCollectDeviceInfo (collectDeviceInfo P) ;;
         deviceId <- generateDeviceId P deviceInfo ;;
         (* Store it for future use *)
         await (CStorageSet DEVICE_ID_KEY deviceId)
               (AsyncStorage_setItem P DEVICE_ID_KEY deviceId) ;;
         setCachedDeviceId (Some deviceId) ;;
         console_log ("Generated and stored device ID: " ++ deviceId) ;;
         ret deviceId)
    (fun error =>
       console_warn ("Failed to get device ID, using fallback: " ++ message error) ;;
       now <- perform CDateNow (Date_now P) ;;
       let fallbackId := "Fallback_" ++ Platform_OS P ++ "_" ++ showZ now in
       setCachedDeviceId (Some fallbackId) ;;
       ret fallbackId).

(** storeDeviceId(deviceId), lines 101-110. *)
Definition storeDeviceId (deviceId : string) : M W unit :=
  tryCatch
    (await (CStorageSet DEVICE_ID_KEY deviceId)
           (AsyncStorage_setItem P DEVICE_ID_KEY deviceId) ;;
     setCachedDeviceId (Some deviceId) ;;
     setDeviceIdLogged false ;;
     console_log ("Stored device ID for command polling: " ++ deviceId))
    (fun error => console_error "Failed to store device ID:").

Definition when (b : bool) (m : M W unit) : M W unit :=
  if b then m else ret tt.

(** Lines 142-207: read and classify the body.  [None] is the early
    [return]; [Some data] continues at line 211. *)
Definition readCommandData (response : Response) (shouldLogPoll : bool)
  : M W (option Parsed) :=
  tryCatch
    (responseText <- (fun s => (respText response, s)) ;;
     if isHtml responseText then
       if respStatus response =? 404 then
         when shouldLogPoll
           (console_log "No command endpoint available (HTML 404 response) - this is normal if backend route not set up") ;;
         ret None
       else
         console_error ("Command poll error: Server returned HTML (status "
                        ++ showZ (respStatus response) ++ ")") ;;
         when shouldLogPoll (console_error "Response preview:") ;;
         ret None
     else if negb (String.eqb responseText "") then
       match JSON_parse P responseText with
       | Some data =>
           when shouldLogPoll (console_log "Command poll parsed data:") ;;
           ret (Some data)
       | None =>
           (* Not JSON and not HTML - unexpected format *)
           (if respStatus response =? 404 then
              when shouldLogPoll
                (console_log "No command found (404 with text response):")
            else
              console_error ("Command poll error: Failed to parse response (status "
                             ++ showZ (respStatus response) ++ ")") ;;
              when shouldLogPoll (console_error "Response:")) ;;
           ret None
       end
     else
       (* Empty response *)
       if respStatus response =? 404 then
         ret None
       else
         when (negb (respStatus response =? 200))
           (console_error ("Command poll error: " ++ showZ (respStatus response)
                           ++ " - Empty response")) ;;
         ret None)
    (fun textError =>
       console_error "Error reading response:" ;;
       when (negb (respStatus response =? 200) && negb (respStatus response =? 404))
         (console_error ("Command poll failed: " ++ showZ (respStatus response))) ;;
       ret None).

Definition isStartAction (a : string) : bool :=
  String.eqb a "start recording" || String.eqb a "start".

Definition isStopAction (a : string) : bool :=
  String.eqb a "stop recording" || String.eqb a "stop".

(** Lines 215-250: the dispatch on a received action. *)
Definition dispatchAction (a : string) (durationSeconds : option Z) : M W unit :=
  if isStartAction a then
    let duration := dispatchDuration durationSeconds in
    console_log ("Starting recording via dashboard command (" ++ showZ duration ++ "s)") ;;
    tryCatch
      (result <- triggerRecording P "dashboard" (Some duration) ;;
       if success result then
         console_log ("Recording started successfully via dashboard command ("
                      ++ showZ duration ++ "s)")
       else
         console_error ("Failed to start recording via dashboard command: "
                        ++ orDefault (error result) "Unknown error"))
      (fun recordError =>
         console_error "Exception while starting recording:" ;;
         console_error ("Error message: " ++ message recordError) ;;
         console_error "Error stack:")
  else if isStopAction a then
    console_log "Stopping recording via dashboard command" ;;
    tryCatch
      (result <- stopRecording P ;;
       if truthyStr result then
         console_log "Recording stopped successfully via dashboard command"
       else
         console_log "Stop recording returned null (may not have been recording)")
      (fun stopError =>
         console_error "Failed to stop recording:" ;;
         console_error ("Error message: " ++ message stopError) ;;
         console_error "Error stack:")
  else
    console_warn ("Unknown command action: " ++ a).

(** Lines 211-264: what is done with parsed data. *)
Definition processData (response : Response) (data : Parsed) : M W unit :=
  d <- match data with
       | ParsedNull => typeError "hasCommand"
       | ParsedObject d => ret d
       | ParsedPrimitive _ => ret (mkData false None None)
       end ;;
  if hasCommand d && truthyStr (action d) then
    console_log ("COMMAND RECEIVED: " ++ orDefault (action d) "") ;;
    dispatchAction (orDefault (action d) "") (durationSeconds d)
  else
    if (respStatus response =? 404)
       || (match data with ParsedPrimitive t => t | _ => true end
           && negb (hasCommand d)) then
      r <- perform CRandom (Math_random P) ;;
      when (below r (1 # 10))
        (console_log "No command pending" ;;
         console_log "Polling device ID:" ;;
         console_log "If dashboard shows different device ID, that's the mismatch!")
    else
      console_log "No command pending".

(** Lines 137-264: what is done with the response once [fetch] has
    resolved. *)
Definition handleResponse (response : Response) (shouldLogPoll : bool) : M W unit :=
  console_log ("Command poll response status: " ++ showZ (respStatus response)) ;;
  data <- readCommandData response shouldLogPoll ;;
  match data with
  | None => ret tt
  | Some data => processData response data
  end.

(** The [catch (fetchError)] block of lines 265-270. *)
Definition fetchCatch (fetchError : JsError) : M W unit :=
  console_error "Error checking for commands:" ;;
  console_error ("Error message: " ++ message fetchError) ;;
  console_error "Error stack:".

(** The [catch (error)] block of lines 271-275. *)
Definition checkCatch (error : JsError) : M W unit :=
  console_error "Error in checkForCommands:" ;;
  console_error ("Error message: " ++ message error) ;;
  console_error "Error stack:".

(** checkForCommands(), lines 115-276. *)
Definition checkForCommands : M W unit :=
  tryCatch
    (deviceId <- getDeviceId ;;
     let url := BASE_URL ++ "/api/command/" ++ encodeURIComponent P deviceId in
     r <- perform CRandom (Math_random P) ;;
     let shouldLogPoll := below r (5 # 100) in
     when shouldLogPoll
       (console_log ("Polling for commands with device ID: " ++ deviceId) ;;
        console_log ("Polling URL: " ++ url)) ;;
     tryCatch
       (response <- await (CFetch url) (fetch P url) ;;
        handleResponse response shouldLogPoll)
       fetchCatch)
    checkCatch.

(** startCommandPolling(), lines 14-37, over the [setInterval] of the
    runtime: [setInterval ms] is what the statement
    [pollingInterval = setInterval(callback, ms)] does; the callback is a
    call of [checkForCommands]. *)
Definition startCommandPollingWith (setInterval : Z -> M W unit) : M W unit :=
  s <- getState ;;
  if isPolling s then
    console_log "Command polling already active"
  else
    console_log "Starting command polling..." ;;
    deviceId <- getDeviceId ;;
    console_log ("Command polling will use device ID: " ++ deviceId) ;;
    setIsPolling true ;;
    (* Poll immediately *)
    checkForCommands ;;
    (* Then poll every 2 seconds *)
    setInterval 2000 ;;
    console_log "Command polling started - checking for commands every 2 seconds".

(** startCommandPolling() where the installed interval is recorded by its
    period, in [pollingInterval]. *)
Definition startCommandPolling : M W unit :=
  startCommandPollingWith (fun ms => setPollingInterval (Some ms)).

(** stopCommandPolling(), lines 42-49. *)
Definition stopCommandPolling : M W unit :=
  s <- getState ;;
  when (match pollingInterval s with Some _ => true | None => false end)
    (setPollingInterval None) ;;
  setIsPolling false ;;
  console_log "Command polling stopped".
End CommandPollingService.

(** ** Timers firing *)

Section Timers.
Context {W : Type} (P : Platform W).

Definition removeNth {A} (n : nat) (l : list A) : list A :=
  firstn n l ++ skipn (S n) l.

Definition setTimers (ts : list Timer) : M W unit := fun s =>
  (Ok tt, mkState (recording s) (pollingInterval s) (isPolling s)
             (cachedDeviceId s) (deviceIdLogged s) ts
             (console s) (calls s) (world s)).

(** The [n]-th pending timer expires: it leaves the pending list and its
    closure runs. *)
Definition fireTimer (n : nat) : M W unit :=
  s <- getState ;;
  match nth_error (timers s) n with
  | Some t => setTimers (removeNth n (timers s)) ;; runTimer P (task t)
  | None => ret tt
  end.

(** [n] start requests one after the other, each awaited. *)
Fixpoint startRepeatedly (n : nat) : M W (list StartResult) :=
  match n with
  | O => ret []
  | S k =>
      r <- startRecording P ;;
      rs <- startRepeatedly k ;;
      ret (r :: rs)
  end.
End Timers.

(** How many handles a run allocated, and how many stop-and-release calls
    it made. *)
Definition isNewRecording (c : Call) : bool :=
  match c with CNewRecording _ => true | _ => false end.

Definition isStopAndUnload (c : Call) : bool :=
  match c with CStopAndUnload _ => true | _ => false end.

Definition allocations (cs : list Call) : nat := length (filter isNewRecording cs).

Definition releases (cs : list Call) : nat := length (filter isStopAndUnload cs).

(** Console entries that report an anomaly. *)
Definition isAnomaly (e : LogEntry) : bool :=
  match fst e with
  | LLog => false
  | LWarn | LError => true
  end.

Definition anomalies (l : list LogEntry) : list LogEntry := filter isAnomaly l.

(** What the device answers to the calls of a fresh start (lines 57-113),
    from world [w]: the handle and the world after the status re-query when
    permission is granted, nothing rejects and the re-query reports
    recording. *)
Definition deviceStarts {W} (P : Platform W) (w : W) : option (Handle * W) :=
  match Audio_requestPermissionsAsync P w with
  | (Ok p, w1) =>
      if granted p then
        match Audio_setAudioModeAsync P w1 with
        | (Ok _, w2) =>
            let (h, w3) := Audio_Recording_new P w2 in
            match prepareToRecordAsync P h w3 with
            | (Ok _, w4) =>
                match startAsync P h w4 with
                | (Ok _, w5) =>
                    match getStatusAsync P h w5 with
                    | (Ok (Some st), w6) =>
                        if isRecording st then Some (h, w6) else None
                    | _ => None
                    end
                | _ => None
                end
            | _ => None
            end
        | _ => None
        end
      else None
  | _ => None
  end.

(** The next [n] status queries on [h], one after the other from world [w],
    all report recording. *)
Fixpoint staysRecording {W} (P : Platform W) (h : Handle) (n : nat) (w : W) : bool :=
  match n with
  | O => true
  | S k =>
      match getStatusAsync P h w with
      | (Ok (Some st), w') => isRecording st && staysRecording P h k w'
      | _ => false
      end
  end.

(** ** The polling timeline

    Time is added to the platform: a clock, in milliseconds, which every
    awaited operation of the platform advances by the time that the
    operation takes, [cost w] from device state [w]; synchronous
    operations and the statements of the modules take no time.  The
    runtime's [setInterval] notes the clock at which it is called, and its
    callback, a call of [checkForCommands], starts at every period from
    then on, whether or not the previous call has settled: [setInterval]
    does not wait for the promise that the callback returns. *)

Record Clocked (W : Type) := mkClocked {
  clock : Z;
  intervalInstalls : list Z;   (* the times of the calls of [setInterval] *)
  device : W
}.

Arguments mkClocked {W}.
Arguments clock {W}.
Arguments intervalInstalls {W}.
Arguments device {W}.

Definition pollPeriod : Z := 2000.

Section PollingTimeline.
Context {W : Type} (P : Platform W) (cost : W -> Z).

Definition awaited {A} (op : W -> Completion A * W) (c : Clocked W)
  : Completion A * Clocked W :=
  let (r, w) := op (device c) in
  (r, mkClocked (clock c + cost (device c)) (intervalInstalls c) w).

Definition instant {A} (op : W -> A * W) (c : Clocked W) : A * Clocked W :=
  let (a, w) := op (device c) in
  (a, mkClocked (clock c) (intervalInstalls c) w).

(** [P] with the clock. *)
Definition clockedPlatform : Platform (Clocked W) :=
  mkPlatform (Clocked W)
    (awaited (Audio_requestPermissionsAsync P))
    (awaited (Audio_setAudioModeAsync P))
    (instant (Audio_Recording_new P))
    (fun h => awaited (prepareToRecordAsync P h))
    (fun h => awaited (startAsync P h))
    (fun h => awaited (getStatusAsync P h))
    (fun h => awaited (stopAndUnloadAsync P h))
    (fun h c => getURI P h (device c))
    (awaited (fetchLocation P))
    (fun e l => awaited (sendRecordingEvent P e l))
    (fun u d => awaited (fetchLocationAndUploadAudio P u d))
    (fun k => awaited (AsyncStorage_getItem P k))
    (fun k v => awaited (AsyncStorage_setItem P k v))
    (awaited (collectDeviceInfo P))
    (Platform_OS P)
    (fun url => awaited (fetch P url))
    (JSON_parse P)
    (encodeURIComponent P)
    (instant (Math_random P))
    (instant (Date_now P)).

(** [pollingInterval = setInterval(callback, ms)] on the clocked runtime. *)
Definition setIntervalClocked (ms : Z) : M (Clocked W) unit := fun s =>
  (Ok tt,
   mkState (recording s) (Some ms) (isPolling s) (cachedDeviceId s)
           (deviceIdLogged s) (timers s) (console s) (calls s)
           (mkClocked (clock (world s))
                      (intervalInstalls (world s) ++ [clock (world s)])
                      (device (world s)))).

(** [startCommandPolling()] with the clock. *)
Definition activation : M (Clocked W) unit :=
  startCommandPollingWith clockedPlatform setIntervalClocked.

(** When the interval of state [s] was installed, and its period. *)
Definition installedAt (s : State (Clocked W)) : Z :=
  last (intervalInstalls (world s)) 0.

Definition periodOf (s : State (Clocked W)) : Z :=
  match pollingInterval s with
  | Some ms => ms
  | None => 0
  end.

(** The time of the [k]-th tick of that interval. *)
Definition tickTime (s : State (Clocked W)) (k : nat) : Z :=
  installedAt s + Z.of_nat k * periodOf s.

(** The process at time [t], having been idle since state [s]. *)
Definition atTime (t : Z) (s : State (Clocked W)) : State (Clocked W) :=
  mkState (recording s) (pollingInterval s) (isPolling s) (cachedDeviceId s)
          (deviceIdLogged s) (timers s) (console s) (calls s)
          (mkClocked t (intervalInstalls (world s)) (device (world s))).

(** The process after the cycles of the first [k] ticks, from the state
    [sA] in which the activation left it: the callback begins at the time
    of its tick, in the state that the previous cycle left.  (When the
    previous cycle has not settled by then, its effects are taken as made
    already; the timeline only uses the time at which each cycle ends.) *)
Fixpoint afterCycles (sA : State (Clocked W)) (k : nat) : State (Clocked W) :=
  match k with
  | O => sA
  | S j =>
      snd (checkForCommands clockedPlatform
             (atTime (tickTime sA (S j)) (afterCycles sA j)))
  end.

(** Cycle 0 is the activation called in state [s0], which contains the
    immediate poll; cycle [k] is the callback of tick [k]. *)
Definition cycleStart (s0 : State (Clocked W)) (k : nat) : Z :=
  match k with
  | O => clock (world s0)
  | S _ => tickTime (snd (activation s0)) k
  end.

Definition cycleEnd (s0 : State (Clocked W)) (k : nat) : Z :=
  clock (world (afterCycles (snd (activation s0)) k)).

Definition inFlightAt (s0 : State (Clocked W)) (t : Z) (k : nat) : bool :=
  (cycleStart s0 k <=? t) && (t <? cycleEnd s0 k).

(** Among the cycles 0 to [n - 1], those in flight at time [t]. *)
Definition inFlight (s0 : State (Clocked W)) (n : nat) (t : Z) : list nat :=
  filter (inFlightAt s0 t) (seq 0 n).
End PollingTimeline.

(** ** The identifier format as the specification words it *)

Definition isAlphanumeric (c : ascii) : bool :=
  let n := nat_of_ascii c in
  ((48 <=? n) && (n <=? 57) || (65 <=? n) && (n <=? 90) || (97 <=? n) && (n <=? 122))%nat.

(** Runs of non-alphanumeric characters normalized to underscores. *)
Fixpoint normalizeRuns (inRun : bool) (s : string) : string :=
  match s with
  | EmptyString => EmptyString
  | String c r =>
      if isAlphanumeric c then String c (normalizeRuns false r)
      else if inRun then normalizeRuns true r
      else String "_" (normalizeRuns true r)
  end.

(** "{manufacturer}_{model}_{platformTag}", the tag being the running
    platform. *)
Definition specDeviceId (deviceInfo : DeviceInfo) : string :=
  normalizeRuns false (orDefault (manufacturer deviceInfo) "Apple")
  ++ "_" ++ normalizeRuns false (orDefault (modelName deviceInfo) "Unknown")
  ++ "_" ++ platform deviceInfo.

(** [durationSeconds ?? 30], as the specification words the dispatcher. *)
Definition specDuration (durationSeconds : option Z) : Z :=
  match durationSeconds with
  | Some d => d
  | None => 30
  end.

(** ** A simulated device

    A concrete platform on which the functions can be run.  It behaves as
    expo-av documents: one recorder can be prepared at a time, a status
    query reports recording for the handle that was started, and
    [stopAndUnloadAsync] rejects for a recorder that is not prepared. *)

Record Sim := mkSim {
  simGranted : bool;            (* the microphone permission *)
  simStartTakesEffect : bool;   (* false: startAsync resolves and does nothing *)
  simNextHandle : nat;
  simPrepared : list Handle;    (* recorders prepared and not unloaded *)
  simActive : list Handle;      (* recorders recording *)
  simStorage : list (string * string);
  simDeviceInfo : DeviceInfo;
  simInbox : list Response;     (* what the next polls will receive *)
  simClock : Z
}.

Definition memHandle (h : Handle) (l : list Handle) : bool :=
  existsb (Nat.eqb h) l.

Definition dropHandle (h : Handle) (l : list Handle) : list Handle :=
  filter (fun x => negb (Nat.eqb h x)) l.

Fixpoint lookupStr {A} (k : string) (l : list (string * A)) : option A :=
  match l with
  | [] => None
  | (k', v) :: r => if String.eqb k k' then Some v else lookupStr k r
  end.

Definition simRequestPermissions (w : Sim) : Completion PermissionResponse * Sim :=
  (Ok (mkPermission (if simGranted w then "granted" else "denied") (simGranted w)), w).

Definition simNew (w : Sim) : Handle * Sim :=
  (simNextHandle w,
   mkSim (simGranted w) (simStartTakesEffect w) (S (simNextHandle w)) (simPrepared w)
         (simActive w) (simStorage w) (simDeviceInfo w) (simInbox w) (simClock w)).

Definition simPrepare (h : Handle) (w : Sim) : Completion unit * Sim :=
  match simPrepared w with
  | [] =>
      (Ok tt,
       mkSim (simGranted w) (simStartTakesEffect w) (simNextHandle w) [h]
             (simActive w) (simStorage w) (simDeviceInfo w) (simInbox w) (simClock w))
  | _ :: _ =>
      (Throw (mkError "Only one Recording object can be prepared at a given time."), w)
  end.

Definition simStart (h : Handle) (w : Sim) : Completion unit * Sim :=
  if simStartTakesEffect w then
    (Ok tt,
     mkSim (simGranted w) (simStartTakesEffect w) (simNextHandle w) (simPrepared w)
           (h :: simActive w) (simStorage w) (simDeviceInfo w) (simInbox w) (simClock w))
  else (Ok tt, w).

Definition simGetStatus (h : Handle) (w : Sim)
  : Completion (option RecordingStatus) * Sim :=
  (Ok (Some (mkStatus (memHandle h (simActive w)) (simClock w))), w).

Definition simStopAndUnload (h : Handle) (w : Sim) : Completion unit * Sim :=
  if memHandle h (simPrepared w) then
    (Ok tt,
     mkSim (simGranted w) (simStartTakesEffect w) (simNextHandle w)
           (dropHandle h (simPrepared w)) (dropHandle h (simActive w))
           (simStorage w) (simDeviceInfo w) (simInbox w) (simClock w))
  else
    (Throw (mkError "Cannot unload a Recording that has not been prepared."), w).

Definition simGetItem (k : string) (w : Sim) : Completion (option string) * Sim :=
  (Ok (lookupStr k (simStorage w)), w).

Definition simSetItem (k v : string) (w : Sim) : Completion unit * Sim :=
  (Ok tt,
   mkSim (simGranted w) (simStartTakesEffect w) (simNextHandle w) (simPrepared w)
         (simActive w) ((k, v) :: simStorage w) (simDeviceInfo w) (simInbox w)
         (simClock w)).

Definition simFetch (url : string) (w : Sim) : Completion Response * Sim :=
  match simInbox w with
  | r :: rest =>
      (Ok r,
       mkSim (simGranted w) (simStartTakesEffect w) (simNextHandle w) (simPrepared w)
             (simActive w) (simStorage w) (simDeviceInfo w) rest (simClock w))
  | [] => (Throw (mkError "Network request failed"), w)
  end.

(** The simulated platform; [json] lists the bodies that its [JSON.parse]
    accepts, with what they parse to. *)
Definition simPlatform (json : list (string * Parsed)) : Platform Sim :=
  mkPlatform Sim
    simRequestPermissions
    (fun w => (Ok tt, w))
    simNew
    simPrepare
    simStart
    simGetStatus
    simStopAndUnload
    (fun h w => Some "file:///recording.m4a")
    (fun w => (Ok (mkCoords 0 0), w))
    (fun _ _ w => (Ok tt, w))
    (fun _ _ w => (Ok tt, w))
    simGetItem
    simSetItem
    (fun w => (Ok (simDeviceInfo w), w))
    "ios"
    simFetch
    (fun body => lookupStr body json)
    (fun s => s)
    (fun w => (1 # 2, w))
    (fun w => (simClock w, w)).

Definition acmeInfo : DeviceInfo := mkDeviceInfo (Some "Acme") (Some "Model1") "ios".

(** A device with the microphone granted and nothing recorded or stored. *)
Definition idleDevice : Sim :=
  mkSim true true 0 [] [] [] acmeInfo [] 1700000000000.

(** The same device with the permission refused. *)
Definition deniedDevice : Sim :=
  mkSim false true 0 [] [] [] acmeInfo [] 1700000000000.

(** A device whose [startAsync] resolves without starting anything. *)
Definition mutedDevice : Sim :=
  mkSim true false 0 [] [] [] acmeInfo [] 1700000000000.

(** A device holding recorder 0, prepared and no longer recording. *)
Definition staleDevice : Sim :=
  mkSim true true 1 [0%nat] [] [] acmeInfo [] 1700000000000.

Definition quote : string := String (ascii_of_nat 34) EmptyString.

(** The body [{"hasCommand":true,"action":"start","durationSeconds":n}]. *)
Definition startBody (n : Z) : string :=
  "{" ++ quote ++ "hasCommand" ++ quote ++ ":true,"
      ++ quote ++ "action" ++ quote ++ ":" ++ quote ++ "start" ++ quote ++ ","
      ++ quote ++ "durationSeconds" ++ quote ++ ":" ++ showZ n ++ "}".

(** The body [{"hasCommand":false}]. *)
Definition noCommandBody : string :=
  "{" ++ quote ++ "hasCommand" ++ quote ++ ":false}".

Definition simJson : list (string * Parsed) :=
  [ (startBody 0, ParsedObject (mkData true (Some "start") (Some 0)));
    (startBody 5, ParsedObject (mkData true (Some "start") (Some 5)));
    (noCommandBody, ParsedObject (mkData false None None)) ].

Definition sim : Platform Sim := simPlatform simJson.

(** The device with one response waiting for the next poll. *)
Definition deviceReceiving (r : Response) : Sim :=
  mkSim true true 0 [] [] [] acmeInfo [r] 1700000000000.

(** ** States described by what was done to them *)

Definition withRecording {W} (r : option Handle) (s : State W) : State W :=
  mkState r (pollingInterval s) (isPolling s) (cachedDeviceId s)
          (deviceIdLogged s) (timers s) (console s) (calls s) (world s).

Definition logged {W} (es : list LogEntry) (s : State W) : State W :=
  mkState (recording s) (pollingInterval s) (isPolling s) (cachedDeviceId s)
          (deviceIdLogged s) (timers s) (console s ++ es) (calls s) (world s).

Definition called {W} (cs : list Call) (w : W) (s : State W) : State W :=
  mkState (recording s) (pollingInterval s) (isPolling s) (cachedDeviceId s)
          (deviceIdLogged s) (timers s) (console s) (calls s ++ cs) w.

(** The calls of a fresh start that reaches the status re-query. *)
Definition startCalls (h : Handle) : list Call :=
  [CRequestPermissions; CSetAudioMode; CNewRecording h;
   CPrepareToRecord h; CStart h; CGetStatus h].

(** [{ success: true }] *)
Definition startedResult : StartResult := mkResult true None None None.

(** The state in which lines 38-53 leave a stale handle [h] whose status
    query moved the world to [w1]: the release has been attempted, its
    failure (if any) logged, and the module variable cleared. *)
Definition afterRelease {W} (P : Platform W) (h : Handle) (w1 : W) (s : State W)
  : State W :=
  withRecording None
    (called [CGetStatus h; CStopAndUnload h] (snd (stopAndUnloadAsync P h w1))
       (logged
          ((LLog, "Cleaning up stale recording object")
           :: match fst (stopAndUnloadAsync P h w1) with
              | Ok _ => []
              | Throw e => [(LLog, "Cleanup error (non-critical): " ++ message e)]
              end)
          s)).

(** A process whose module variable holds the stale recorder 0. *)
Definition staleState : State Sim :=
  withRecording (Some 0%nat) (initialState staleDevice).

(** [m] leaves the component [f] of the state as it found it. *)
Definition preserves {W A B} (f : State W -> B) (m : M W A) : Prop :=
  forall s, f (snd (m s)) = f s.

(** [m] completes normally from every state. *)
Definition neverThrows {W A} (m : M W A) : Prop :=
  forall s, exists a s', m s = (Ok a, s').

(** The simulated process after a dashboard-style timed start of 5 s. *)
Definition timedSession : State Sim :=
  snd (triggerRecording sim "dashboard" (Some 5) (initialState idleDevice)).

(** ... after a stop and a new, continuous start. *)
Definition restartedSession : State Sim :=
  snd ((stopRecording sim ;; triggerRecording sim "manual" None) timedSession).

(** ** The documented classification of a poll response *)

(** The kinds of body a poll can receive: unreadable ([response.text()]
    rejects), a markup document, empty, text that is not JSON, or JSON. *)
Inductive BodyClass :=
| BodyUnreadable
| BodyHtml
| BodyEmpty
| BodyMalformed
| BodyJson (data : Parsed).

Definition classifyResponse {W} (P : Platform W) (response : Response) : BodyClass :=
  match respText response with
  | Throw _ => BodyUnreadable
  | Ok text =>
      if isHtml text then BodyHtml
      else if String.eqb text "" then BodyEmpty
      else match JSON_parse P text with
           | Some data => BodyJson data
           | None => BodyMalformed
           end
  end.

(** What a poll cycle resolves to. *)
Inductive PollOutcome :=
| SilentNoCommand
| AnomalyNoCommand
| Dispatch (a : string) (durationSeconds : option Z).

(** The outcome table: a status and a kind of body give an outcome. *)
Definition documentedOutcome (httpStatus : Z) (body : BodyClass) : PollOutcome :=
  match body with
  | BodyUnreadable => AnomalyNoCommand
  | BodyHtml => if httpStatus =? 404 then SilentNoCommand else AnomalyNoCommand
  | BodyEmpty =>
      if (httpStatus =? 404) || (httpStatus =? 200) then SilentNoCommand
      else AnomalyNoCommand
  | BodyMalformed => if httpStatus =? 404 then SilentNoCommand else AnomalyNoCommand
  | BodyJson ParsedNull => AnomalyNoCommand
  | BodyJson (ParsedPrimitive _) => SilentNoCommand
  | BodyJson (ParsedObject d) =>
      if hasCommand d && truthyStr (action d)
      then Dispatch (orDefault (action d) "") (durationSeconds d)
      else SilentNoCommand
  end.

(** No command: the recording handle and the timers are as before and
    nothing was called except, possibly, [Math.random]. *)
Definition noCommand {W} (s s' : State W) : Prop :=
  recording s' = recording s
  /\ timers s' = timers s
  /\ (calls s' = calls s \/ calls s' = (calls s ++ [CRandom])%list)
  /\ (world s' = world s \/ calls s' = (calls s ++ [CRandom])%list).

(** What the dispatch of action [a] from state [s0] comes to, in terms of
    the recording engine.  A start action ("start", "start recording") runs
    [triggerRecording] for the dashboard with the duration
    [durationSeconds || 30], a stop action ("stop", "stop recording") runs
    [stopRecording]; each returns a result rather than throwing, on which
    one console entry follows.  Any other action only adds a warning. *)
Definition dispatched {W} (P : Platform W) (a : string) (ds : option Z)
    (s0 : State W) (out : Completion unit * State W) : Prop :=
  if isStartAction a then
    exists result s1,
      triggerRecording P "dashboard" (Some (dispatchDuration ds))
        (logged [(LLog, "Starting recording via dashboard command ("
                        ++ showZ (dispatchDuration ds) ++ "s)")] s0)
        = (Ok result, s1)
      /\ out
         = (Ok tt,
            logged [if success result
                    then (LLog, "Recording started successfully via dashboard command ("
                                ++ showZ (dispatchDuration ds) ++ "s)")
                    else (LError, "Failed to start recording via dashboard command: "
                                  ++ orDefault (error result) "Unknown error")]
                   s1)
  else if isStopAction a then
    exists result s1,
      stopRecording P (logged [(LLog, "Stopping recording via dashboard command")] s0)
        = (Ok result, s1)
      /\ out
         = (Ok tt,
            logged [(LLog,
                     if truthyStr result
                     then "Recording stopped successfully via dashboard command"
                     else "Stop recording returned null (may not have been recording)")]
                   s1)
  else
    out = (Ok tt, logged [(LWarn, "Unknown command action: " ++ a)] s0).

(** What it means for the run [out] of the response handling from state
    [s] to resolve to outcome [o]. *)
Definition resolvesTo {W} (P : Platform W) (o : PollOutcome) (s : State W)
    (out : Completion unit * State W) : Prop :=
  match o with
  | SilentNoCommand =>
      fst out = Ok tt /\ noCommand s (snd out)
      /\ anomalies (console (snd out)) = anomalies (console s)
  | AnomalyNoCommand =>
      fst out = Ok tt /\ noCommand s (snd out)
      /\ exists e es,
           anomalies (console (snd out)) = (anomalies (console s) ++ e :: es)%list
  | Dispatch a ds =>
      exists es,
        anomalies es = [] /\ dispatched P a ds (logged es s) out
  end.

(** The [catch (fetchError)] block run on the state [s]. *)
Definition networkFailure {W} (e : JsError) (s : State W) : State W :=
  logged [(LError, "Error checking for commands:");
          (LError, "Error message: " ++ message e);
          (LError, "Error stack:")] s.

(** ** Scenarios for the device identifier *)

Definition otherInfo : DeviceInfo :=
  mkDeviceInfo (Some "Other Corp") (Some "Model 2") "ios".

(** The device reporting other metadata, everything else unchanged. *)
Definition withDeviceInfo (i : DeviceInfo) (w : Sim) : Sim :=
  mkSim (simGranted w) (simStartTakesEffect w) (simNextHandle w) (simPrepared w)
        (simActive w) (simStorage w) i (simInbox w) (simClock w).

(** The process after its first [getDeviceId]. *)
Definition resolvedOnce : State Sim :=
  snd (getDeviceId sim (initialState idleDevice)).

(** Later in the same process, the device now reporting other metadata. *)
Definition resolvedLater : State Sim :=
  called [] (withDeviceInfo otherInfo (world resolvedOnce)) resolvedOnce.

(** A new process on that device: module variables reset, storage kept. *)
Definition restarted : State Sim :=
  initialState (withDeviceInfo otherInfo (world resolvedOnce)).

(** ** Scenarios for the polling timeline and the identifier format *)

(** Every awaited operation takes 100 ms. *)
Definition quickCost (w : Sim) : Z := 100.

(** The same, except that the request answered with status 503 takes 5 s. *)
Definition slowCost (w : Sim) : Z :=
  match simInbox w with
  | r :: _ => if respStatus r =? 503 then 5000 else 100
  | [] => 100
  end.

(** A process at time 0 on a device to which the server will answer "no
    command", then 503, then "no command". *)
Definition pollingDevice : State (Clocked Sim) :=
  initialState
    (mkClocked 0 []
       (mkSim true true 0 [] [] [] acmeInfo
          [mkResponse 200 (Ok noCommandBody); mkResponse 503 (Ok "");
           mkResponse 200 (Ok noCommandBody)]
          1700000000000)).

Definition acmeCorpInfo : DeviceInfo :=
  mkDeviceInfo (Some "Acme Corp") (Some "Model-1  X") "android".

(** ** Components of the state that whole groups of operations ignore *)

(** [f] does not depend on the recording handle, the timers, the console,
    the calls or the world. *)
Definition ignoresEngine {W B} (f : State W -> B) : Prop :=
  forall r pi ip cd dl tm co ca w r' tm' co' ca' w',
    f (mkState r pi ip cd dl tm co ca w) = f (mkState r' pi ip cd dl tm' co' ca' w').

(** [f] does not depend on the cached identifier nor on its logged flag. *)
Definition ignoresCache {W B} (f : State W -> B) : Prop :=
  forall r pi ip cd dl tm co ca w cd' dl',
    f (mkState r pi ip cd dl tm co ca w) = f (mkState r pi ip cd' dl' tm co ca w).

Definition isFetchCall (c : Call) : bool :=
  match c with CFetch _ => true | _ => false end.

(** The requests that the functions of CommandPollingService.js have sent
    themselves: the [fetch] calls of the trace.  What the event and upload
    services send when the engine calls them is inside the platform
    operations [sendRecordingEvent] and [fetchLocationAndUploadAudio], and
    is not in the trace. *)
Definition ownFetches {W} (s : State W) : list Call := filter isFetchCall (calls s).

(** The two module variables of the polling loop. *)
Definition pollingFlags {W} (s : State W) : option Z * bool :=
  (pollingInterval s, isPolling s).

(** ** ApiService (app/services/CommandPollingService.js from line 384):
    resolvePhoneId, lines 390-414 *)

Section ApiService.
Context {W : Type} (P : Platform W).

(** resolvePhoneId(): the identifier under which events and files are
    uploaded. *)
Definition resolvePhoneId : M W string :=
  tryCatch
    (storedDeviceId <- await (CStorageGet DEVICE_ID_KEY)
                             (AsyncStorage_getItem P DEVICE_ID_KEY) ;;
     if truthyStr storedDeviceId then
       console_log ("Using stored device ID for upload: "
                    ++ match storedDeviceId with Some c => c | None => "" end) ;;
       ret (match storedDeviceId with Some c => c | None => "" end)
     else
       (* Fallback: generate if not stored *)
       console_log "No stored device ID found, generating new one..." ;;
       deviceInfo <- await CCollectDeviceInfo (collectDeviceInfo P) ;;
       deviceId <- generateDeviceId P deviceInfo ;;
       (* Store it for future use *)
       await (CStorageSet DEVICE_ID_KEY deviceId)
             (AsyncStorage_setItem P DEVICE_ID_KEY deviceId) ;;
       console_log ("Generated and stored device ID: " ++ deviceId) ;;
       ret deviceId)
    (fun err =>
       console_error "Error resolving phone ID:" ;;
       (* Last resort fallback *)
       now <- perform CDateNow (Date_now P) ;;
       ret ("Unknown_Device_" ++ showZ now)).
End ApiService.

(** What the resolution of the identifier comes to from world [w] with
    nothing cached: the identifier that is stored or, with nothing
    stored, derived from the metadata and written; or, when the storage
    read, the metadata collection or the storage write rejects, the
    reading of the clock that the fallback then takes. *)
Inductive Resolution :=
| Resolved (id : string)
| Rejected (now : Z).

Definition resolution {W} (P : Platform W) (w : W) : Resolution :=
  match AsyncStorage_getItem P DEVICE_ID_KEY w with
  | (Ok stored, w1) =>
      if truthyStr stored then
        Resolved (match stored with Some c => c | None => "" end)
      else
        match collectDeviceInfo P w1 with
        | (Ok deviceInfo, w2) =>
            match AsyncStorage_setItem P DEVICE_ID_KEY (deviceIdOf deviceInfo) w2 with
            | (Ok _, _) => Resolved (deviceIdOf deviceInfo)
            | (Throw _, w3) => Rejected (fst (Date_now P w3))
            end
        | (Throw _, w2) => Rejected (fst (Date_now P w2))
        end
  | (Throw _, w1) => Rejected (fst (Date_now P w1))
  end.

(** ** app/services/CommandPollingService.js: testBackendConnectivity *)

(** The [{success, error, ...}] object that the diagnostic returns. *)
Record ConnectivityResult := mkConnectivity {
  connected : bool;
  connectivityError : option string
}.

(** [response.ok]: a status from 200 to 299. *)
Definition respOk (response : Response) : bool :=
  (200 <=? respStatus response) && (respStatus response <=? 299).

Definition healthUrl : string := BASE_URL ++ "/api/health".

Section Connectivity.
Context {W : Type} (P : Platform W).

Definition testUrl : string :=
  BASE_URL ++ "/api/command/" ++ encodeURIComponent P "Test_Device_Connectivity".

(** [await response.json()]: the body read and parsed; rejects when either
    fails. *)
Definition responseJson (response : Response) : M W Parsed :=
  text <- (fun s => (respText response, s)) ;;
  match JSON_parse P text with
  | Some data => ret data
  | None => throw (mkError "SyntaxError: JSON Parse error")
  end.

(** Test 1, lines 297-309; [Some r] is the early [return r]. *)
Definition testHealth : M W (option ConnectivityResult) :=
  tryCatch
    (healthResponse <- await (CFetch healthUrl) (fetch P healthUrl) ;;
     if respOk healthResponse then
       responseJson healthResponse ;;
       console_log "Backend health check passed:" ;;
       ret None
     else
       console_error "Backend health check failed:" ;;
       ret (Some (mkConnectivity false
                    (Some ("Backend not reachable (status: "
                           ++ showZ (respStatus healthResponse) ++ ")")))))
    (fun healthError =>
       console_error "Backend health check error:" ;;
       ret (Some (mkConnectivity false
                    (Some ("Cannot reach backend: " ++ message healthError))))).

(** Test 2, lines 311-368. *)
Definition testCommandEndpoint : M W ConnectivityResult :=
  console_log "Test 2: Command endpoint..." ;;
  console_log ("Testing URL: " ++ testUrl) ;;
  tryCatch
    (commandResponse <- await (CFetch testUrl) (fetch P testUrl) ;;
     responseText <- (fun s => (respText commandResponse, s)) ;;
     console_log ("Response status: " ++ showZ (respStatus commandResponse)) ;;
     console_log "Response is HTML:" ;;
     if isHtml responseText then
       console_error "========================================" ;;
       console_error "CRITICAL: Command endpoint returned HTML 404" ;;
       console_error "This means the backend route /api/command/<device_id> is NOT registered" ;;
       console_error "========================================" ;;
       console_error "SOLUTION:" ;;
       console_error "   1. Check that backend server is running" ;;
       console_error "   2. Check that BUAS/app/routes.py is loaded" ;;
       console_error "   3. Verify routes blueprint is registered in app/__init__.py" ;;
       console_error "   4. Check backend logs for route registration errors" ;;
       ret (mkConnectivity false
              (Some "Command endpoint not found - backend route not registered"))
     else if respStatus commandResponse =? 200 then
       console_log "Command endpoint is accessible and returns JSON" ;;
       match JSON_parse P responseText with
       | Some commandData =>
           console_log "Command endpoint returns valid JSON:" ;;
           console_log "========================================" ;;
           console_log "BACKEND CONNECTIVITY TEST PASSED" ;;
           console_log "========================================" ;;
           ret (mkConnectivity true None)
       | None =>
           console_warn "Command endpoint response is not JSON:" ;;
           ret (mkConnectivity false
                  (Some "Command endpoint returned non-JSON response"))
       end
     else
       console_warn "Command endpoint returned status:" ;;
       ret (mkConnectivity false
              (Some ("Command endpoint returned status: "
                     ++ showZ (respStatus commandResponse)))))
    (fun commandError =>
       console_error "Command endpoint test error:" ;;
       ret (mkConnectivity false
              (Some ("Command endpoint error: " ++ message commandError)))).

(** testBackendConnectivity(), lines 289-373. *)
Definition testBackendConnectivity : M W ConnectivityResult :=
  tryCatch
    (console_log "========================================" ;;
     console_log "TESTING BACKEND CONNECTIVITY" ;;
     console_log "========================================" ;;
     console_log "Test 1: Health endpoint..." ;;
     early <- testHealth ;;
     match early with
     | Some r => ret r
     | None => testCommandEndpoint
     end)
    (fun error =>
       console_error "Backend connectivity test error:" ;;
       ret (mkConnectivity false (Some (message error)))).

(** Whether a readable body parses as JSON. *)
Definition parses (body : Completion string) : bool :=
  match body with
  | Ok text => match JSON_parse P text with Some _ => true | None => false end
  | Throw _ => false
  end.

(** What the two endpoints answer from world [w]: the health endpoint
    with a 2xx status and a JSON body, then the command endpoint with
    status 200 and a JSON body that is not an HTML page. *)
Definition backendAnswers (w : W) : bool :=
  match fetch P healthUrl w with
  | (Ok health, w1) =>
      respOk health && parses (respText health)
      && match fetch P testUrl w1 with
         | (Ok command, _) =>
             match respText command with
             | Ok text =>
                 negb (isHtml text) && (respStatus command =? 200)
                 && parses (respText command)
             | Throw _ => false
             end
         | (Throw _, _) => false
         end
  | (Throw _, _) => false
  end.
End Connectivity.

(** ** app/services/AudioService.js: interval recording *)

(** An interval installed by [setInterval]: its period and the recording
    duration that its callback has captured. *)
Record IntervalTimer := mkIntervalTimer {
  periodMs : Z;
  recordSeconds : Z
}.

(** The module with its two interval variables, and the stop timeouts that
    [setTimeout] holds (by their delays); [engine] is the rest of the
    module's state. *)
Record IntervalState (W : Type) := mkIntervalState {
  intervalRecordingTimer : option IntervalTimer;
  isIntervalRecordingActive : bool;
  stopTimeouts : list Z;
  engine : State W
}.

Arguments mkIntervalState {W}.
Arguments intervalRecordingTimer {W}.
Arguments isIntervalRecordingActive {W}.
Arguments stopTimeouts {W}.
Arguments engine {W}.

Definition MI (W A : Type) : Type :=
  IntervalState W -> Completion A * IntervalState W.

Definition retI {W A} (a : A) : MI W A := fun v => (Ok a, v).

Definition bindI {W A B} (m : MI W A) (k : A -> MI W B) : MI W B :=
  fun v =>
    match m v with
    | (Ok a, v') => k a v'
    | (Throw e, v') => (Throw e, v')
    end.

Definition tryCatchI {W A} (m : MI W A) (h : JsError -> MI W A) : MI W A :=
  fun v =>
    match m v with
    | (Ok a, v') => (Ok a, v')
    | (Throw e, v') => h e v'
    end.

(** A function of the engine, run on the engine's part of the state. *)
Definition liftI {W A} (m : M W A) : MI W A := fun v =>
  let (r, s) := m (engine v) in
  (r, mkIntervalState (intervalRecordingTimer v) (isIntervalRecordingActive v)
        (stopTimeouts v) s).

Definition getIntervalState {W} : MI W (IntervalState W) := fun v => (Ok v, v).

Definition setIsIntervalRecordingActive {W} (b : bool) : MI W unit := fun v =>
  (Ok tt, mkIntervalState (intervalRecordingTimer v) b (stopTimeouts v) (engine v)).

Definition setIntervalRecordingTimer {W} (t : option IntervalTimer) : MI W unit :=
  fun v =>
    (Ok tt, mkIntervalState t (isIntervalRecordingActive v) (stopTimeouts v) (engine v)).

(** [setTimeout(stopCallback, delay)], lines 213-218. *)
Definition setStopTimeout {W} (delay : Z) : MI W unit := fun v =>
  (Ok tt, mkIntervalState (intervalRecordingTimer v) (isIntervalRecordingActive v)
            (stopTimeouts v ++ [delay]) (engine v)).

Declare Scope interval_scope.
Delimit Scope interval_scope with interval.
Notation "x <- m ;; k" := (bindI m (fun x => k))
  (at level 100, m at next level, right associativity) : interval_scope.
Notation "m ;; k" := (bindI m (fun _ => k))
  (at level 100, right associativity) : interval_scope.

(** Truthiness of an object-or-null value. *)
Definition nonNull {A} (o : option A) : bool :=
  match o with
  | Some _ => true
  | None => false
  end.

(** [getIntervalRecordingStatus()]'s object. *)
Record IntervalStatus := mkIntervalStatus {
  isActive : bool;
  hasTimer : bool;
  isCurrentlyRecording : bool
}.

Section IntervalRecording.
Context {W : Type} (P : Platform W).

(** [recordingFunction], lines 203-223. *)
Definition recordingFunction (durationSeconds : Z) : MI W unit :=
  (v <- getIntervalState ;;
   if negb (isIntervalRecordingActive v) then retI tt
   else if nonNull (recording (engine v)) then
     liftI (console_log "Skipping interval recording - already recording")
   else
     tryCatchI
       (liftI (console_log "Starting automatic recording...") ;;
        liftI (startRecording P) ;;
        (* Record for specified duration *)
        setStopTimeout (durationSeconds * 1000))
       (fun error => liftI (console_error "Interval recording error:")))%interval.

(** The callback of that timeout, lines 213-218. *)
Definition stopTimeoutCallback : MI W unit :=
  (v <- getIntervalState ;;
   if nonNull (recording (engine v)) && isIntervalRecordingActive v then
     liftI (console_log "Stopping automatic recording...") ;;
     liftI (stopRecording P) ;;
     retI tt
   else retI tt)%interval.

(** startIntervalRecording(intervalMinutes, durationSeconds), lines
    193-233. *)
Definition startIntervalRecording (intervalMinutes durationSeconds : Z)
  : MI W unit :=
  (v <- getIntervalState ;;
   if isIntervalRecordingActive v then
     liftI (console_log "Interval recording already active")
   else
     liftI (console_log ("Starting interval recording: every "
                         ++ showZ intervalMinutes ++ " minutes for "
                         ++ showZ durationSeconds ++ " seconds")) ;;
     setIsIntervalRecordingActive true ;;
     (* Start first recording immediately *)
     recordingFunction durationSeconds ;;
     (* Set up interval for subsequent recordings *)
     setIntervalRecordingTimer
       (Some (mkIntervalTimer (intervalMinutes * 60 * 1000) durationSeconds)))%interval.

(** stopIntervalRecording(), lines 235-249. *)
Definition stopIntervalRecording : MI W unit :=
  (liftI (console_log "Stopping interval recording") ;;
   setIsIntervalRecordingActive false ;;
   v <- getIntervalState ;;
   (if nonNull (intervalRecordingTimer v)
    then setIntervalRecordingTimer None
    else retI tt) ;;
   (* Stop current recording if active *)
   v <- getIntervalState ;;
   if nonNull (recording (engine v)) then
     liftI (console_log "Stopping current recording due to interval recording stop") ;;
     liftI (stopRecording P) ;;
     retI tt
   else retI tt)%interval.

(** getIntervalRecordingStatus(), lines 251-257. *)
Definition getIntervalRecordingStatus (v : IntervalState W) : IntervalStatus :=
  mkIntervalStatus (isIntervalRecordingActive v)
                   (nonNull (intervalRecordingTimer v))
                   (nonNull (recording (engine v))).
End IntervalRecording.

(** ** app/services/RegistrationService.js: collectIosUuid *)

(** The [expo-application] module as lines 23-30 see it: absent, present
    without the method, or present with it. *)
Inductive ApplicationModule (W : Type) :=
| NoApplication
| ApplicationWithout
| ApplicationWith (getIosIdForVendorAsync : W -> Completion (option string) * W).

Arguments NoApplication {W}.
Arguments ApplicationWithout {W}.
Arguments ApplicationWith {W}.

(** What the retry loop does to the outside: a query of the identifier,
    or a wait of so many milliseconds. *)
Inductive UuidEvent :=
| UuidQuery
| UuidWait (ms : Z).

(** The world of the loop: the device, and the loop's queries and waits
    in the order in which they happened. *)
Record Vendor (W : Type) := mkVendor {
  vendorEvents : list UuidEvent;
  vendorDevice : W
}.

Arguments mkVendor {W}.
Arguments vendorEvents {W}.
Arguments vendorDevice {W}.

Definition withWorld {W V} (w : V) (s : State W) : State V :=
  mkState (recording s) (pollingInterval s) (isPolling s) (cachedDeviceId s)
          (deviceIdLogged s) (timers s) (console s) (calls s) w.

(** [await Application.getIosIdForVendorAsync()] *)
Definition queryVendorId {W} (op : W -> Completion (option string) * W)
  : M (Vendor W) (option string) := fun s =>
  let (r, w) := op (vendorDevice (world s)) in
  (r, withWorld (mkVendor (vendorEvents (world s) ++ [UuidQuery]) w) s).

(** [await new Promise(resolve => setTimeout(resolve, ms))] *)
Definition sleep {W} (ms : Z) : M (Vendor W) unit := fun s =>
  (Ok tt,
   withWorld (mkVendor (vendorEvents (world s) ++ [UuidWait ms])
                       (vendorDevice (world s))) s).

(** Line 39: the value when it is a string that is not empty, not blank
    and not the placeholder. *)
Definition validated (uuid : option string) : option string :=
  match uuid with
  | Some u =>
      if truthyStr uuid && (0 <? Z.of_nat (String.length (trim u)))
         && negb (String.eqb u "Unknown iOS UUID")
      then Some u else None
  | None => None
  end.

(** A value in a template literal. *)
Definition showNullable (o : option string) : string :=
  match o with
  | Some u => u
  | None => "null"
  end.

(** How one turn of the loop ends: with the function's [return], or on to
    the next turn with the loop's [lastError]. *)
Inductive LoopExit :=
| Returned (uuid : string)
| Continue (lastError : option JsError).

Section IosUuid.
Context {W : Type} (getIosIdForVendorAsync : W -> Completion (option string) * W).

(** Wait before retry (except on last attempt). *)
Definition waitBeforeRetry (attempt maxRetries retryDelay : Z) : M (Vendor W) unit :=
  if attempt <? maxRetries then
    console_log ("Waiting " ++ showZ retryDelay ++ "ms before retry...") ;;
    sleep retryDelay
  else ret tt.

(** The body of the [for] loop, lines 33-60. *)
Definition attemptOnce (attempt maxRetries retryDelay : Z) : M (Vendor W) LoopExit :=
  tryCatch
    (console_log ("UUID collection attempt " ++ showZ attempt ++ "/"
                  ++ showZ maxRetries ++ "...") ;;
     uuid <- queryVendorId getIosIdForVendorAsync ;;
     match validated uuid with
     | Some u =>
         console_log ("iPhone UUID collected successfully on attempt "
                      ++ showZ attempt ++ ": " ++ u) ;;
         ret (Returned u)
     | None =>
         console_warn ("UUID validation failed on attempt " ++ showZ attempt
                       ++ ": " ++ showNullable uuid) ;;
         waitBeforeRetry attempt maxRetries retryDelay ;;
         ret (Continue (Some (mkError ("Invalid UUID returned: "
                                       ++ showNullable uuid))))
     end)
    (fun error =>
       console_error ("Error on UUID collection attempt " ++ showZ attempt ++ ":") ;;
       waitBeforeRetry attempt maxRetries retryDelay ;;
       ret (Continue (Some error))).

(** [for (let attempt = ...; attempt <= maxRetries; attempt++)], with
    [remaining] turns to go. *)
Fixpoint attemptsFrom (remaining : nat) (attempt maxRetries retryDelay : Z)
    (lastError : option JsError) : M (Vendor W) LoopExit :=
  match remaining with
  | O => ret (Continue lastError)
  | S k =>
      exit <- attemptOnce attempt maxRetries retryDelay ;;
      match exit with
      | Returned u => ret (Returned u)
      | Continue e => attemptsFrom k (attempt + 1) maxRetries retryDelay e
      end
  end.
End IosUuid.

(** collectIosUuid(maxRetries, retryDelay), lines 19-67. *)
Definition collectIosUuid {W} (Application : ApplicationModule W)
    (maxRetries retryDelay : Z) : M (Vendor W) string :=
  match Application with
  | NoApplication => throw (mkError "expo-application module not available")
  | ApplicationWithout => throw (mkError "getIosIdForVendorAsync method not available")
  | ApplicationWith getIosIdForVendorAsync =>
      exit <- attemptsFrom getIosIdForVendorAsync (Z.to_nat maxRetries) 1
                maxRetries retryDelay None ;;
      match exit with
      | Returned u => ret u
      | Continue lastError =>
          (* All retries failed *)
          console_error ("Failed to collect iOS UUID after " ++ showZ maxRetries
                         ++ " attempts") ;;
          throw (match lastError with
                 | Some e => e
                 | None => mkError "Failed to collect iOS UUID - all retries exhausted"
                 end)
      end
  end.

(** [k] queries with a wait of [d] ms between one and the next. *)
Fixpoint queriesAndWaits (k : nat) (d : Z) : list UuidEvent :=
  match k with
  | O => []
  | S j =>
      UuidQuery :: match j with
                   | O => []
                   | S _ => UuidWait d :: queriesAndWaits j d
                   end
  end.

(** ** Scenarios for the engine, the identifier store and the intervals *)

(** The simulated process after a successful [startRecording]. *)
Definition recordingSession : State Sim :=
  snd (startRecording sim (initialState idleDevice)).

(** [P] with other storage operations. *)
Definition withStorage {W}
    (getItem : string -> W -> Completion (option string) * W)
    (setItem : string -> string -> W -> Completion unit * W)
    (P : Platform W) : Platform W :=
  mkPlatform W
    (Audio_requestPermissionsAsync P) (Audio_setAudioModeAsync P)
    (Audio_Recording_new P) (prepareToRecordAsync P) (startAsync P)
    (getStatusAsync P) (stopAndUnloadAsync P) (getURI P)
    (fetchLocation P) (sendRecordingEvent P) (fetchLocationAndUploadAudio P)
    getItem setItem
    (collectDeviceInfo P) (Platform_OS P)
    (fetch P) (JSON_parse P) (encodeURIComponent P) (Math_random P) (Date_now P).

(** The simulated device with a storage that rejects every write. *)
Definition fullStorage : Platform Sim :=
  withStorage simGetItem
    (fun _ _ w => (Throw (mkError "Failed to write to storage"), w)) sim.

(** The simulated device with a storage that rejects every read. *)
Definition lockedStorage : Platform Sim :=
  withStorage (fun _ w => (Throw (mkError "Failed to read from storage"), w))
    simSetItem sim.

(** The module as loaded, lines 8-10. *)
Definition initialIntervalState {W} (w : W) : IntervalState W :=
  mkIntervalState None false [] (initialState w).

(** ** Characters beyond ASCII, in UTF-8 *)

Definition utf8 (bytes : list nat) : string :=
  string_of_list_ascii (map ascii_of_nat bytes).

(** U+00A0, U+3000 and U+FEFF are white space; U+200B is not. *)
Definition noBreakSpace : string := utf8 [194; 160]%nat.
Definition ideographicSpace : string := utf8 [227; 128; 128]%nat.
Definition byteOrderMark : string := utf8 [239; 187; 191]%nat.
Definition zeroWidthSpace : string := utf8 [226; 128; 139]%nat.

(** ** What a process does between two resolutions of the identifier *)

(** A call of a function of the modules, or a change made outside of them
    (to the device metadata, the storage, the network). *)
Inductive ModuleCall (W : Type) :=
| CallGetDeviceId
| CallCheckForCommands
| CallStartCommandPolling
| CallStopCommandPolling
| CallStartRecording
| CallStopRecording
| CallTriggerRecording (triggerType : string) (durationSeconds : option Z)
| CallFireTimer (n : nat)
| CallResolvePhoneId
| CallTestBackendConnectivity
| CallStoreDeviceId (deviceId : string)
| Outside (change : W -> W).

Arguments CallGetDeviceId {W}.
Arguments CallCheckForCommands {W}.
Arguments CallStartCommandPolling {W}.
Arguments CallStopCommandPolling {W}.
Arguments CallStartRecording {W}.
Arguments CallStopRecording {W}.
Arguments CallTriggerRecording {W}.
Arguments CallFireTimer {W}.
Arguments CallResolvePhoneId {W}.
Arguments CallTestBackendConnectivity {W}.
Arguments CallStoreDeviceId {W}.
Arguments Outside {W}.

(** The state in which the call leaves the process. *)
Definition runCall {W} (P : Platform W) (c : ModuleCall W) (s : State W) : State W :=
  match c with
  | CallGetDeviceId => snd (getDeviceId P s)
  | CallCheckForCommands => snd (checkForCommands P s)
  | CallStartCommandPolling => snd (startCommandPolling P s)
  | CallStopCommandPolling => snd (stopCommandPolling s)
  | CallStartRecording => snd (startRecording P s)
  | CallStopRecording => snd (stopRecording P s)
  | CallTriggerRecording t d => snd (triggerRecording P t d s)
  | CallFireTimer n => snd (fireTimer P n s)
  | CallResolvePhoneId => snd (resolvePhoneId P s)
  | CallTestBackendConnectivity => snd (testBackendConnectivity P s)
  | CallStoreDeviceId deviceId => snd (storeDeviceId P deviceId s)
  | Outside change => withWorld (change (world s)) s
  end.

Definition runCalls {W} (P : Platform W) (cs : list (ModuleCall W)) (s : State W)
  : State W :=
  fold_left (fun s c => runCall P c s) cs s.

Definition isStoreDeviceId {W} (c : ModuleCall W) : bool :=
  match c with
  | CallStoreDeviceId _ => true
  | _ => false
  end.

(** What the simulated process does after its first resolution: the
    device reports other metadata, and the process polls, records and
    resolves the identifier for an upload. *)
Definition busyProcess : list (ModuleCall Sim) :=
  [Outside (withDeviceInfo otherInfo); CallStartCommandPolling;
   CallTriggerRecording "manual" (Some 5); CallCheckForCommands;
   CallResolvePhoneId; CallFireTimer 0; CallStopCommandPolling].

(** The registration flow of the interface after that change: the
    identifier is derived again from the metadata and stored. *)
Definition registeredAgain : list (ModuleCall Sim) :=
  [Outside (withDeviceInfo otherInfo); CallStoreDeviceId (deviceIdOf otherInfo)].

(** ** Whole characters *)

(** The bytes that continue a character of two to four bytes. *)
Definition isContinuation (c : ascii) : bool :=
  ((128 <=? byte c) && (byte c <=? 191))%nat.

(** The number of bytes of the character that the byte [c] starts; 0 when
    no character starts with [c]. *)
Definition charWidth (c : ascii) : nat :=
  if (byte c <? 128)%nat then 1%nat
  else if ((194 <=? byte c) && (byte c <=? 223))%nat then 2%nat
  else if ((224 <=? byte c) && (byte c <=? 239))%nat then 3%nat
  else if ((240 <=? byte c) && (byte c <=? 244))%nat then 4%nat
  else 0%nat.

(** [s] is made of whole characters, once the [pending] bytes that
    continue a character already begun have been read. *)
Fixpoint wellFormedFrom (pending : nat) (s : string) : bool :=
  match s with
  | EmptyString => (pending =? 0)%nat
  | String c r =>
      match pending with
      | S k => isContinuation c && wellFormedFrom k r
      | O =>
          match charWidth c with
          | O => false
          | S k => wellFormedFrom k r
          end
      end
  end.

Definition wellFormed (s : string) : bool := wellFormedFrom 0 s.

(** At no position of [s] does a white space character start. *)
Fixpoint spaceFree (s : string) : bool :=
  match s with
  | EmptyString => true
  | String c r => (spaceWidth s =? 0)%nat && spaceFree r
  end.

(** * Proofs *)

(** Evaluation of the monad's primitives on a state given by its fields. *)
Ltac ev :=
  cbv [bind ret throw tryCatch promiseCatch await perform getState typeError
       setRecording setPollingInterval setIsPolling setCachedDeviceId
       setDeviceIdLogged setTimeout setTimers consoleAt console_log console_warn
       console_error afterCall withRecording logged called when
       recording pollingInterval isPolling cachedDeviceId deviceIdLogged
       timers console calls world fst snd negb andb orb].

(** Uses what is known of the platform's answers. *)
Ltac answer :=
  match goal with
  | H : ?op = _ |- context [?op] => rewrite H
  end.

Ltac run := repeat (ev; try answer).

Ltac inner_destruct :=
  match goal with
  | |- context [match ?x with _ => _ end] =>
      lazymatch x with
      | context [match _ with _ => _ end] => fail
      | _ => destruct x eqn:?
      end
  end.

Ltac tidy := repeat rewrite <- app_assoc; cbn [app]; try reflexivity.

Section MonadFacts.
Context {W : Type}.

(** A [try] whose handler completes normally completes normally. *)
Lemma tryCatch_total {A} (m : M W A) (h : JsError -> M W A) :
  (forall e s, exists a s', h e s = (Ok a, s')) ->
  forall s, exists a s', tryCatch m h s = (Ok a, s').
Proof.
  intros Hh s. unfold tryCatch.
  destruct (m s) as [[a | e] s1]; eauto.
Qed.
Lemma ret_total {A} (a : A) : neverThrows (@ret W A a).
Proof. intros s. unfold ret. eauto. Qed.

Lemma consoleAt_total l t : neverThrows (@consoleAt W l t).
Proof. intros s. unfold consoleAt. eauto. Qed.

Lemma bind_total {A B} (m : M W A) (k : A -> M W B) :
  neverThrows m -> (forall a, neverThrows (k a)) -> neverThrows (bind m k).
Proof.
  intros Hm Hk s. unfold bind.
  destruct (Hm s) as [a [s1 E]]. rewrite E. apply Hk.
Qed.

Lemma tryCatch_neverThrows {A} (m : M W A) (h : JsError -> M W A) :
  (forall e, neverThrows (h e)) -> neverThrows (tryCatch m h).
Proof. intros Hh s. apply tryCatch_total. exact Hh. Qed.

Lemma perform_total {A} c (op : W -> A * W) : neverThrows (perform c op).
Proof. intros s. unfold perform. destruct (op (world s)). eauto. Qed.

Lemma setCachedDeviceId_total c : neverThrows (@setCachedDeviceId W c).
Proof. intros s. unfold setCachedDeviceId. eauto. Qed.
End MonadFacts.

(** Decomposes a goal that a computation made of handlers and console
    calls never throws. *)
Ltac total_step :=
  lazymatch goal with
  | |- neverThrows (tryCatch _ _) => apply tryCatch_neverThrows; intros ?
  | |- neverThrows (bind _ _) => apply bind_total; [| intros ?]
  | |- neverThrows (ret _) => apply ret_total
  | |- neverThrows (consoleAt _ _) => apply consoleAt_total
  | |- neverThrows (perform _ _) => apply perform_total
  | |- neverThrows (setCachedDeviceId _) => apply setCachedDeviceId_total
  end.

Ltac total := repeat total_step.

Section StartRecordingFacts.
Context {W : Type} (P : Platform W).

Lemma cleanupRecording_runs h s :
  cleanupRecording P h s =
    (Ok tt,
     called [CStopAndUnload h] (snd (stopAndUnloadAsync P h (world s)))
       (logged match fst (stopAndUnloadAsync P h (world s)) with
               | Ok _ => []
               | Throw e => [(LLog, "Cleanup error (non-critical): " ++ message e)]
               end s)).
Proof.
  destruct s. unfold cleanupRecording. ev.
  destruct (stopAndUnloadAsync P h world0) as [[[] | e] w]; ev;
    rewrite ?app_nil_r; reflexivity.
Qed.

Lemma inspectExisting_none s :
  recording s = None -> inspectExisting P s = (Ok None, s).
Proof.
  destruct s; cbn [recording]; intros ->. reflexivity.
Qed.

(** A handle whose status query reports recording: the early return. *)
Lemma inspectExisting_recording s h st w :
  recording s = Some h ->
  getStatusAsync P h (world s) = (Ok st, w) ->
  optIsRecording st = true ->
  inspectExisting P s =
    (Ok (Some alreadyRecordingResult),
     called [CGetStatus h] w
       (logged [(LLog, "Recording already in progress, reusing existing session")] s)).
Proof.
  destruct s; cbn [recording world]; intros -> Hq Hr.
  unfold inspectExisting. run. reflexivity.
Qed.

(** A handle whose status query reports not recording: released, cleared. *)
Lemma inspectExisting_stale s h st w1 :
  recording s = Some h ->
  getStatusAsync P h (world s) = (Ok st, w1) ->
  optIsRecording st = false ->
  inspectExisting P s = (Ok None, afterRelease P h w1 s).
Proof.
  destruct s; cbn [recording world]; intros -> Hq Hr.
  unfold inspectExisting, afterRelease, cleanupRecording. run.
  destruct (stopAndUnloadAsync P h w1) as [[[] | e] w2]; run; tidy.
Qed.

(** Whatever the handle and the device do, the check either returns the
    already-recording result and keeps the handle, or clears the handle. *)
Lemma inspectExisting_cases s :
  exists s',
    (inspectExisting P s = (Ok (Some alreadyRecordingResult), s')
     /\ recording s' = recording s /\ recording s <> None)
    \/ (inspectExisting P s = (Ok None, s') /\ recording s' = None).
Proof.
  destruct s as [[h |] pi ip cd dl tm co ca w].
  - unfold inspectExisting, cleanupRecording. ev.
    destruct (getStatusAsync P h w) as [[st | e] w1].
    + destruct (optIsRecording st); ev.
      * eexists; left; repeat split; congruence.
      * destruct (stopAndUnloadAsync P h w1) as [[[] | e] w2]; ev;
          eexists; right; split; reflexivity.
    + ev. destruct (stopAndUnloadAsync P h w1) as [[[] | e'] w2]; ev;
        eexists; right; split; reflexivity.
  - eexists; right; split; reflexivity.
Qed.

(** The fresh start: a failure result leaves no handle. *)
Lemma startFresh_failure s :
  recording s = None ->
  match startFresh P s with
  | (Ok r, s') => success r = false -> recording s' = None
  | (Throw _, _) => True
  end.
Proof.
  destruct s as [r pi ip cd dl tm co ca w]. cbn [recording]. intros ->.
  unfold startFresh, onRecording, newRecording, readIsRecording.
  repeat (ev; try inner_destruct); cbn; auto; try discriminate.
Qed.

Lemma startRecordingCatch_runs e (s : State W) :
  exists s',
    startRecordingCatch e s =
      (Ok (mkResult false None None
             (Some (strOr (message e) "Unknown error starting recording"))), s')
    /\ recording s' = None.
Proof.
  destruct s. unfold startRecordingCatch. ev. eexists; split; reflexivity.
Qed.

(** [startRecording] never throws. *)
Lemma startRecording_total s :
  exists r s', startRecording P s = (Ok r, s').
Proof.
  unfold startRecording. apply tryCatch_total.
  intros e s0. destruct (startRecordingCatch_runs e s0) as [s' [H _]]. eauto.
Qed.

(** The fresh start on a device that grants, accepts and confirms. *)
Lemma startFresh_started s h w' :
  deviceStarts P (world s) = Some (h, w') ->
  exists s',
    startFresh P s = (Ok startedResult, s')
    /\ recording s' = Some h
    /\ calls s' = (calls s ++ startCalls h)%list
    /\ world s' = w'
    /\ timers s' = timers s
    /\ filter isAnomaly (console s') = filter isAnomaly (console s).
Proof.
  destruct s as [r pi ip cd dl tm co ca w]. cbn [world calls timers console].
  unfold deviceStarts. intros H.
  destruct (Audio_requestPermissionsAsync P w) as [[p |] w1] eqn:E1; try discriminate.
  destruct (granted p) eqn:Eg; try discriminate.
  destruct (Audio_setAudioModeAsync P w1) as [[[] |] w2] eqn:E2; try discriminate.
  destruct (Audio_Recording_new P w2) as [h0 w3] eqn:E3.
  destruct (prepareToRecordAsync P h0 w3) as [[[] |] w4] eqn:E4; try discriminate.
  destruct (startAsync P h0 w4) as [[[] |] w5] eqn:E5; try discriminate.
  destruct (getStatusAsync P h0 w5) as [[[st |] |] w6] eqn:E6; try discriminate.
  destruct (isRecording st) eqn:Er; try discriminate.
  inversion H; subst h0 w6; clear H.
  unfold startFresh, onRecording, newRecording, readIsRecording.
  run.
  eexists; split; [reflexivity |].
  cbn [recording calls world timers console]. unfold startCalls.
  repeat split; tidy.
  repeat rewrite filter_app; cbn; rewrite ?app_nil_r; reflexivity.
Qed.
(** The fresh start on a device that does not: a failure result, the
    handle null. *)
Lemma startFresh_refused s :
  recording s = None ->
  deviceStarts P (world s) = None ->
  exists r s',
    tryCatch (startFresh P) startRecordingCatch s = (Ok r, s')
    /\ success r = false
    /\ recording s' = None.
Proof.
  destruct s as [r pi ip cd dl tm co ca w]. cbn [recording world]. intros ->.
  unfold deviceStarts, startFresh, startRecordingCatch, onRecording, newRecording,
    readIsRecording, console_log, console_error.
  repeat (ev; try inner_destruct); intros; try discriminate;
    do 2 eexists; repeat split.
Qed.
End StartRecordingFacts.

Section RecordingEngine.
Context {W : Type} (P : Platform W).

(** A start request while the handle is verified recording returns the
    existing session and allocates nothing. *)
Lemma startRecording_while_recording s h st w :
  recording s = Some h ->
  getStatusAsync P h (world s) = (Ok (Some st), w) ->
  isRecording st = true ->
  startRecording P s =
    (Ok alreadyRecordingResult,
     called [CGetStatus h] w
       (logged [(LLog, "Recording already in progress, reusing existing session")] s)).
Proof.
  intros Hr Hq Hs. unfold startRecording, tryCatch, bind.
  rewrite (inspectExisting_recording P s h (Some st) w Hr Hq Hs). reflexivity.
Qed.

Lemma startRepeatedly_while_recording h n :
  forall s,
    recording s = Some h ->
    staysRecording P h n (world s) = true ->
    exists s',
      startRepeatedly P n s = (Ok (repeat alreadyRecordingResult n), s')
      /\ recording s' = Some h
      /\ calls s' = (calls s ++ repeat (CGetStatus h) n)%list.
Proof.
  induction n as [| n IH]; intros s Hr Hs.
  - exists s. cbn. rewrite app_nil_r. auto.
  - cbn [staysRecording] in Hs.
    destruct (getStatusAsync P h (world s)) as [[[st |] | e] w] eqn:Hq;
      try discriminate.
    apply andb_prop in Hs. destruct Hs as [Hst Hs].
    pose proof (startRecording_while_recording s h st w Hr Hq Hst) as H1.
    destruct (IH (called [CGetStatus h] w
                    (logged [(LLog, "Recording already in progress, reusing existing session")] s)))
      as [s' [H2 [H3 H4]]].
    + destruct s; exact Hr.
    + destruct s; exact Hs.
    + exists s'. cbn [startRepeatedly]. unfold bind at 1. rewrite H1.
      unfold bind at 1. rewrite H2. unfold ret. repeat split; auto.
      rewrite H4. destruct s; cbn [calls called logged]. tidy.
Qed.

Lemma allocations_app (l1 l2 : list Call) :
  allocations (l1 ++ l2) = (allocations l1 + allocations l2)%nat.
Proof. unfold allocations. rewrite filter_app, length_app. reflexivity. Qed.

Lemma allocations_status_queries h n :
  allocations (repeat (CGetStatus h) n) = 0%nat.
Proof. induction n; cbn; auto. Qed.


(** C4. Stale handle recovery: a handle exists and its status query
    reports not recording.  [startRecording] attempts the release of the
    stale handle right after the status query (a rejection of the release
    only adds a console entry, at log level), clears the module variable,
    and goes on to create a fresh session from the state that this leaves.
    On a device that grants, accepts and confirms the new start the call
    returns [{success: true}] and holds the new handle, having made the
    status query, the release and then the calls of a fresh start, and
    having logged no warning or error; on a device that does not, it
    returns a failure result and holds no handle.  It never throws. *)
Theorem stale_handle_recovery (s : State W) (h : Handle)
    (st : option RecordingStatus) (w1 : W) :
  recording s = Some h ->
  getStatusAsync P h (world s) = (Ok st, w1) ->
  optIsRecording st = false ->
  exists r s',
    startRecording P s = (Ok r, s')
    /\ (Ok r, s')
       = tryCatch (startFresh P) startRecordingCatch (afterRelease P h w1 s)
    /\ recording (afterRelease P h w1 s) = None
    /\ calls (afterRelease P h w1 s)
       = (calls s ++ [CGetStatus h; CStopAndUnload h])%list
    /\ world (afterRelease P h w1 s) = snd (stopAndUnloadAsync P h w1)
    /\ anomalies (console (afterRelease P h w1 s)) = anomalies (console s)
    /\ match deviceStarts P (snd (stopAndUnloadAsync P h w1)) with
       | Some (h', w') =>
           r = startedResult
           /\ recording s' = Some h'
           /\ calls s'
              = (calls s ++ [CGetStatus h; CStopAndUnload h] ++ startCalls h')%list
           /\ world s' = w'
           /\ anomalies (console s') = anomalies (console s)
       | None => success r = false /\ recording s' = None
       end.
Proof.
  intros Hr Hq Hs.
  assert (E : startRecording P s
              = tryCatch (startFresh P) startRecordingCatch (afterRelease P h w1 s)).
  { unfold startRecording, tryCatch, bind.
    rewrite (inspectExisting_stale P s h st w1 Hr Hq Hs). reflexivity. }
  assert (Hn : recording (afterRelease P h w1 s) = None) by reflexivity.
  assert (Hc : calls (afterRelease P h w1 s)
               = (calls s ++ [CGetStatus h; CStopAndUnload h])%list) by reflexivity.
  assert (Hw : world (afterRelease P h w1 s) = snd (stopAndUnloadAsync P h w1))
    by reflexivity.
  assert (Ha : anomalies (console (afterRelease P h w1 s)) = anomalies (console s)).
  { destruct s; cbn [console afterRelease withRecording called logged].
    unfold anomalies. rewrite filter_app.
    destruct (fst (stopAndUnloadAsync P h w1)); cbn; apply app_nil_r. }
  destruct (deviceStarts P (snd (stopAndUnloadAsync P h w1))) as [[h' w'] |] eqn:Hd.
  - destruct (startFresh_started P (afterRelease P h w1 s) h' w')
      as [s' [H1 [H2 [H3 [H4 [_ H6]]]]]]; [rewrite Hw; exact Hd |].
    exists startedResult, s'. rewrite E. unfold tryCatch at 1 2. rewrite H1.
    repeat split; auto.
    + rewrite H3, Hc, <- app_assoc. reflexivity.
    + unfold anomalies in *. rewrite H6. exact Ha.
  - destruct (startFresh_refused P (afterRelease P h w1 s) Hn)
      as [r [s' [H1 [H2 H3]]]]; [rewrite Hw; exact Hd |].
    exists r, s'. rewrite E, H1. repeat split; auto.
Qed.

(** C10. Start-failure atomicity: whenever [startRecording] returns a
    result with [success: false] (permission denied, verification failed,
    or a step threw), the module's recording handle is null on return. *)
Theorem start_failure_clears_handle (s : State W) (r : StartResult) (s' : State W) :
  startRecording P s = (Ok r, s') ->
  success r = false ->
  recording s' = None.
Proof.
  unfold startRecording, tryCatch, bind. intros H Hf.
  destruct (inspectExisting_cases P s) as [s1 [[HI _] | [HI Hn]]];
    rewrite HI in H.
  - inversion H; subst. discriminate.
  - pose proof (startFresh_failure P s1 Hn) as HF.
    destruct (startFresh P s1) as [[r1 | e] s2].
    + inversion H; subst. auto.
    + destruct (startRecordingCatch_runs e s2) as [s3 [H3 H4]].
      rewrite H3 in H. inversion H; subst. exact H4.
Qed.
End RecordingEngine.

(** ** The recording engine on the simulated device *)


Lemma stale_handle_recovery_witness :
  recording staleState = Some 0%nat
  /\ getStatusAsync sim 0%nat (world staleState)
     = (Ok (Some (mkStatus false 1700000000000)), staleDevice)
  /\ deviceStarts sim (snd (stopAndUnloadAsync sim 0%nat staleDevice))
     = Some (1%nat, mkSim true true 2 [1%nat] [1%nat] [] acmeInfo [] 1700000000000)
  /\ exists r s',
       startRecording sim staleState = (Ok r, s')
       /\ (Ok r, s')
          = tryCatch (startFresh sim) startRecordingCatch
              (afterRelease sim 0%nat staleDevice staleState)
       /\ recording (afterRelease sim 0%nat staleDevice staleState) = None
       /\ calls (afterRelease sim 0%nat staleDevice staleState)
          = (calls staleState ++ [CGetStatus 0%nat; CStopAndUnload 0%nat])%list
       /\ world (afterRelease sim 0%nat staleDevice staleState)
          = snd (stopAndUnloadAsync sim 0%nat staleDevice)
       /\ anomalies (console (afterRelease sim 0%nat staleDevice staleState))
          = anomalies (console staleState)
       /\ r = startedResult
       /\ recording s' = Some 1%nat
       /\ calls s'
          = (calls staleState ++ [CGetStatus 0%nat; CStopAndUnload 0%nat]
             ++ startCalls 1%nat)%list
       /\ world s' = mkSim true true 2 [1%nat] [1%nat] [] acmeInfo [] 1700000000000
       /\ anomalies (console s') = anomalies (console staleState).
Proof.
  split; [reflexivity |]. split; [reflexivity |]. split; [reflexivity |].
  exact (stale_handle_recovery sim staleState 0%nat
           (Some (mkStatus false 1700000000000)) staleDevice
           eq_refl eq_refl eq_refl).
Defined.

Lemma start_failure_clears_handle_witness :
  startRecording sim (initialState deniedDevice)
    = (Ok (mkResult false None None (Some permissionError)),
       called [CRequestPermissions] deniedDevice
         (logged [(LLog, "Requesting audio permissions...");
                  (LLog, "Permission status: denied");
                  (LError, permissionError)]
            (initialState deniedDevice)))
  /\ recording
       (called [CRequestPermissions] deniedDevice
          (logged [(LLog, "Requesting audio permissions...");
                   (LLog, "Permission status: denied");
                   (LError, permissionError)]
             (initialState deniedDevice))) = None.
Proof.
  split; [vm_compute; reflexivity |].
  eapply (start_failure_clears_handle sim (initialState deniedDevice));
    [vm_compute; reflexivity | reflexivity].
Defined.

(** C3 (the code at the failing input). [startAsync] resolves but the
    status re-query reports not recording: [startRecording] returns the
    verification failure and clears the module variable, and makes no
    [stopAndUnloadAsync] call; the recorder it prepared stays prepared on
    the device. *)
Theorem verification_failure_skips_release :
  fst (startRecording sim (initialState mutedDevice))
    = Ok (mkResult false None None (Some verificationError))
  /\ recording (snd (startRecording sim (initialState mutedDevice))) = None
  /\ calls (snd (startRecording sim (initialState mutedDevice))) = startCalls 0%nat
  /\ releases (calls (snd (startRecording sim (initialState mutedDevice)))) = 0%nat
  /\ simPrepared (world (snd (startRecording sim (initialState mutedDevice)))) = [0%nat].
Proof. vm_compute. repeat split. Qed.

(** The stale-handle path and [stopRecording] do release a recorder that
    reports not recording. *)
Lemma sibling_paths_release :
  releases (calls (snd (startRecording sim staleState))) = 1%nat
  /\ releases (calls (snd (stopRecording sim staleState))) = 1%nat
  /\ simPrepared (world (snd (stopRecording sim staleState))) = [].
Proof. vm_compute. repeat split. Qed.

(** After the verification failure the next start request fails too: the
    recorder left prepared blocks the new one. *)
Lemma verification_failure_blocks_next_start :
  fst ((startRecording sim ;; startRecording sim) (initialState mutedDevice))
    = Ok (mkResult false None None
            (Some "Only one Recording object can be prepared at a given time.")).
Proof. vm_compute. reflexivity. Qed.


(** ** Frame facts: what the functions leave alone *)

Section Frames.
Context {W : Type} (P : Platform W).

Lemma preserves_ret {A B} (f : State W -> B) (a : A) : preserves f (ret a).
Proof. intros s. reflexivity. Qed.

Lemma preserves_throw {A B} (f : State W -> B) e : preserves f (@throw W A e).
Proof. intros s. reflexivity. Qed.

Lemma preserves_getState {B} (f : State W -> B) : preserves f getState.
Proof. intros s. reflexivity. Qed.

Lemma preserves_bind {A B C} (f : State W -> C) (m : M W A) (k : A -> M W B) :
  preserves f m -> (forall a, preserves f (k a)) -> preserves f (bind m k).
Proof.
  intros Hm Hk s. unfold bind. specialize (Hm s).
  destruct (m s) as [[a | e] s1]; cbn [snd] in *.
  - rewrite (Hk a s1). exact Hm.
  - exact Hm.
Qed.

Lemma preserves_tryCatch {A C} (f : State W -> C) (m : M W A) h :
  preserves f m -> (forall e, preserves f (h e)) -> preserves f (tryCatch m h).
Proof.
  intros Hm Hh s. unfold tryCatch. specialize (Hm s).
  destruct (m s) as [[a | e] s1]; cbn [snd] in *.
  - exact Hm.
  - rewrite (Hh e s1). exact Hm.
Qed.

Lemma await_timers {A} c (op : W -> Completion A * W) : preserves timers (await c op).
Proof. intros s. unfold await. destruct (op (world s)). reflexivity. Qed.

Lemma perform_timers {A} c (op : W -> A * W) : preserves timers (perform c op).
Proof. intros s. unfold perform. destruct (op (world s)). reflexivity. Qed.

Lemma consoleAt_timers l t : preserves timers (@consoleAt W l t).
Proof. intros s. reflexivity. Qed.

Lemma setRecording_timers r : preserves timers (@setRecording W r).
Proof. intros s. reflexivity. Qed.

Lemma setCachedDeviceId_timers c : preserves timers (@setCachedDeviceId W c).
Proof. intros s. reflexivity. Qed.

Lemma setDeviceIdLogged_timers b : preserves timers (@setDeviceIdLogged W b).
Proof. intros s. reflexivity. Qed.

Lemma newRecording_timers : preserves timers (newRecording P).
Proof.
  intros s. unfold newRecording. destruct (Audio_Recording_new P (world s)).
  reflexivity.
Qed.

Lemma await_recording {A} c (op : W -> Completion A * W) :
  preserves recording (await c op).
Proof. intros s. unfold await. destruct (op (world s)). reflexivity. Qed.

Lemma perform_recording {A} c (op : W -> A * W) : preserves recording (perform c op).
Proof. intros s. unfold perform. destruct (op (world s)). reflexivity. Qed.

Lemma consoleAt_recording l t : preserves recording (@consoleAt W l t).
Proof. intros s. reflexivity. Qed.

Lemma setCachedDeviceId_recording c : preserves recording (@setCachedDeviceId W c).
Proof. intros s. reflexivity. Qed.

Lemma setDeviceIdLogged_recording b : preserves recording (@setDeviceIdLogged W b).
Proof. intros s. reflexivity. Qed.
End Frames.

(** Decomposes a frame goal along the structure of the computation. *)
Ltac frame_step :=
  lazymatch goal with
  | |- preserves _ (bind _ _) => apply preserves_bind; [| intros ?]
  | |- preserves _ (tryCatch _ _) => apply preserves_tryCatch; [| intros ?]
  | |- preserves _ (ret _) => apply preserves_ret
  | |- preserves _ (throw _) => apply preserves_throw
  | |- preserves _ getState => apply preserves_getState
  | |- preserves timers (await _ _) => apply await_timers
  | |- preserves timers (perform _ _) => apply perform_timers
  | |- preserves timers (consoleAt _ _) => apply consoleAt_timers
  | |- preserves timers (setRecording _) => apply setRecording_timers
  | |- preserves timers (setCachedDeviceId _) => apply setCachedDeviceId_timers
  | |- preserves timers (setDeviceIdLogged _) => apply setDeviceIdLogged_timers
  | |- preserves timers (newRecording _) => apply newRecording_timers
  | |- preserves recording (await _ _) => apply await_recording
  | |- preserves recording (perform _ _) => apply perform_recording
  | |- preserves recording (consoleAt _ _) => apply consoleAt_recording
  | |- preserves recording (setCachedDeviceId _) => apply setCachedDeviceId_recording
  | |- preserves recording (setDeviceIdLogged _) => apply setDeviceIdLogged_recording
  | |- preserves _ (match ?x with _ => _ end) => destruct x
  end.

Ltac frame := repeat frame_step.

Section TimerFrames.
Context {W : Type} (P : Platform W).

Lemma startRecording_timers : preserves timers (startRecording P).
Proof.
  unfold startRecording, startRecordingCatch, inspectExisting, startFresh,
    cleanupRecording, onRecording, readIsRecording, typeError,
    console_log, console_error.
  frame.
Qed.

Lemma notifyRecordingStatus_timers e t m :
  preserves timers (notifyRecordingStatus P e t m).
Proof. unfold notifyRecordingStatus, console_log. frame. Qed.

Lemma notifyRecordingStatus_recording e t m :
  preserves recording (notifyRecordingStatus P e t m).
Proof. unfold notifyRecordingStatus, console_log. frame. Qed.

Lemma notifyRecordingStatus_total e t m : neverThrows (notifyRecordingStatus P e t m).
Proof.
  unfold notifyRecordingStatus, console_log. total.
Qed.

(** [stopRecording] completes normally, always with the module variable
    null, and registers no timer. *)
Lemma stopRecording_clears s :
  match stopRecording P s with
  | (Ok _, s') => recording s' = None /\ timers s' = timers s
  | (Throw _, _) => False
  end.
Proof.
  destruct s as [r pi ip cd dl tm co ca w].
  unfold stopRecording, onRecording, readIsRecording.
  repeat (ev; try inner_destruct); cbn; auto; try discriminate.
Qed.
End TimerFrames.

(** ** The deferred auto-stop *)

Section AutoStopFacts.
Context {W : Type} (P : Platform W).

Lemma autoStopCallback_no_handle t d (s : State W) :
  recording s = None ->
  autoStopCallback P t d s
    = (Ok tt,
       logged [(LLog, "Recording object is null when auto-stop triggered for " ++ t)] s).
Proof.
  destruct s; cbn [recording]; intros ->. reflexivity.
Qed.

(** A handle that is there but reports not recording: the callback only
    queries the status. *)
Lemma autoStopCallback_not_recording t d (s : State W) h st w :
  recording s = Some h ->
  getStatusAsync P h (world s) = (Ok (Some st), w) ->
  isRecording st = false ->
  autoStopCallback P t d s
    = (Ok tt,
       logged [(LLog, "Recording already stopped when auto-stop triggered for " ++ t)]
         (called [CGetStatus h] w s)).
Proof.
  destruct s; cbn [recording world]; intros -> Hq Hr.
  unfold autoStopCallback, readIsRecording. run. reflexivity.
Qed.

(** The same when the status query rejects. *)
Lemma autoStopCallback_status_rejects t d (s : State W) h e w :
  recording s = Some h ->
  getStatusAsync P h (world s) = (Throw e, w) ->
  autoStopCallback P t d s
    = (Ok tt,
       logged [(LLog, "Recording already stopped when auto-stop triggered for " ++ t)]
         (called [CGetStatus h] w s)).
Proof.
  destruct s; cbn [recording world]; intros -> Hq.
  unfold autoStopCallback, readIsRecording. run. reflexivity.
Qed.

(** C6, as amended. A stop request completes, always normally and with
    the handle cleared; when the auto-stop timer then fires with the module
    variable still as that stop left it (no start request in between), the
    callback finds no handle, logs that, makes no call to the recorder (so
    no second stop) and raises nothing. *)
Theorem auto_stop_after_stop (s s2 : State W) (t : string) (d : Z) :
  recording s2 = recording (snd (stopRecording P s)) ->
  (exists uri, fst (stopRecording P s) = Ok uri)
  /\ recording s2 = None
  /\ autoStopCallback P t d s2
     = (Ok tt,
        logged [(LLog, "Recording object is null when auto-stop triggered for " ++ t)] s2)
  /\ calls (snd (autoStopCallback P t d s2)) = calls s2.
Proof.
  intros H. pose proof (stopRecording_clears P s) as Hs.
  destruct (stopRecording P s) as [[uri | e] s1]; [| contradiction].
  destruct Hs as [Hn _]. cbn [snd fst] in *. rewrite Hn in H.
  split; [eauto |]. split; [exact H |].
  rewrite (autoStopCallback_no_handle t d s2 H).
  split; [reflexivity |]. destruct s2; reflexivity.
Qed.

(** Firing the timer runs that callback and removes the timer. *)
Lemma fireTimer_after_stop (s2 : State W) n t d ms :
  nth_error (timers s2) n = Some (mkTimer (AutoStop t d) ms) ->
  recording s2 = None ->
  exists s3,
    fireTimer P n s2 = (Ok tt, s3)
    /\ timers s3 = removeNth n (timers s2)
    /\ calls s3 = calls s2
    /\ recording s3 = None.
Proof.
  destruct s2; cbn [recording timers calls]; intros Hn ->.
  unfold fireTimer, runTimer. ev. rewrite Hn. cbn [task]. ev.
  eexists; repeat split.
Qed.
End AutoStopFacts.

Lemma auto_stop_after_stop_witness :
  recording (snd (stopRecording sim timedSession))
    = recording (snd (stopRecording sim timedSession))
  /\ timers (snd (stopRecording sim timedSession))
     = [mkTimer (AutoStop "dashboard" 5) 5000]
  /\ (exists uri, fst (stopRecording sim timedSession) = Ok uri)
  /\ recording (snd (stopRecording sim timedSession)) = None
  /\ autoStopCallback sim "dashboard" 5 (snd (stopRecording sim timedSession))
     = (Ok tt,
        logged [(LLog, "Recording object is null when auto-stop triggered for "
                       ++ "dashboard")]
          (snd (stopRecording sim timedSession)))
  /\ calls (snd (autoStopCallback sim "dashboard" 5 (snd (stopRecording sim timedSession))))
     = calls (snd (stopRecording sim timedSession)).
Proof.
  split; [reflexivity |]. split; [vm_compute; reflexivity |].
  apply (auto_stop_after_stop sim timedSession
           (snd (stopRecording sim timedSession)) "dashboard" 5).
  reflexivity.
Defined.

(** C6 as stated fails: a timed start (5 s) schedules the auto-stop, a
    stop completes, a new continuous recording is started, and then the
    timer of the first start fires.  The callback finds a handle (that of
    the new session) reporting recording, and stops it. *)
Lemma auto_stop_stops_later_session :
  timers timedSession = [mkTimer (AutoStop "dashboard" 5) 5000]
  /\ recording (snd (stopRecording sim timedSession)) = None
  /\ recording restartedSession = Some 1%nat
  /\ timers restartedSession = [mkTimer (AutoStop "dashboard" 5) 5000]
  /\ fst (fireTimer sim 0 restartedSession) = Ok tt
  /\ recording (snd (fireTimer sim 0 restartedSession)) = None
  /\ calls (snd (fireTimer sim 0 restartedSession))
     = (calls restartedSession
        ++ [CGetStatus 1%nat; CGetStatus 1%nat; CStopAndUnload 1%nat;
            CGetStatus 1%nat; CUploadAudio "file:///recording.m4a" 1700000000000])%list
  /\ releases (calls (snd (fireTimer sim 0 restartedSession)))
     = S (releases (calls restartedSession)).
Proof. vm_compute. repeat split. Qed.

(** ** Continuous and timed triggers *)

Section TriggerFacts.
Context {W : Type} (P : Platform W).

Lemma startRecording_started (s : State W) h w' :
  recording s = None ->
  deviceStarts P (world s) = Some (h, w') ->
  exists s',
    startRecording P s = (Ok startedResult, s')
    /\ recording s' = Some h
    /\ timers s' = timers s
    /\ calls s' = (calls s ++ startCalls h)%list.
Proof.
  intros Hr Hd.
  destruct (startFresh_started P s h w' Hd) as [s1 [H1 [H2 [H3 [_ [H5 _]]]]]].
  exists s1. unfold startRecording, tryCatch, bind.
  rewrite (inspectExisting_none P s Hr), H1. auto.
Qed.

(** A trigger on a device that accepts the start: the recording begins,
    and an auto-stop is registered exactly when the duration is neither
    null nor 0. *)
Lemma triggerRecording_started t ds (s : State W) h w' :
  recording s = None ->
  deviceStarts P (world s) = Some (h, w') ->
  exists s',
    triggerRecording P t ds s = (Ok startedResult, s')
    /\ recording s' = Some h
    /\ timers s'
       = (timers s
          ++ if isContinuous ds then []
             else [mkTimer (AutoStop t (toNumber ds)) (toNumber ds * 1000)])%list.
Proof.
  destruct s as [r pi ip cd dl tm co ca w]; cbn [recording world timers].
  intros -> Hd. unfold triggerRecording.
  destruct (isContinuous ds) eqn:Hc; ev;
    match goal with
    | |- context [startRecording P ?s0] =>
        destruct (startRecording_started s0 h w' eq_refl Hd)
          as [s1 [E1 [R1 [T1 _]]]]; rewrite E1
    end;
    cbn [success alreadyRecording startedResult negb]; ev;
    match goal with
    | |- context [notifyRecordingStatus P ?e ?tr ?m ?sx] =>
        destruct (notifyRecordingStatus_total P e tr m sx) as [[] [s2 E2]];
        pose proof (notifyRecordingStatus_timers P e tr m sx) as T2;
        pose proof (notifyRecordingStatus_recording P e tr m sx) as R2;
        rewrite E2 in T2, R2 |- *; cbn [snd] in T2, R2
    end;
    destruct s2; cbn [recording timers] in *; ev;
    eexists; (split; [reflexivity |]); cbn [recording timers];
    subst; split; rewrite ?app_nil_r; congruence.
Qed.

(** A continuous trigger registers no timer, whatever the device does. *)
Lemma triggerRecording_continuous_timers t ds :
  isContinuous ds = true ->
  preserves timers (triggerRecording P t ds).
Proof.
  intros Hc. unfold triggerRecording.
  assert (Hds : ds = None \/ ds = Some 0).
  { destruct ds as [[| p | p] |]; cbn in Hc; auto; discriminate. }
  destruct Hds as [-> | ->];
    cbv beta iota zeta delta [isContinuous Z.eqb modeOf]; unfold console_log, console_error;
    repeat first [ frame_step
                 | apply startRecording_timers
                 | apply notifyRecordingStatus_timers ].
Qed.

(** [dispatchAction] never throws. *)
Lemma dispatchAction_total a ds : neverThrows (dispatchAction P a ds).
Proof.
  unfold dispatchAction, console_log, console_warn, console_error.
  destruct (isStartAction a); [| destruct (isStopAction a)]; total.
Qed.

Lemma dispatchDuration_falsy :
  dispatchDuration None = 30 /\ dispatchDuration (Some 0) = 30.
Proof. split; reflexivity. Qed.

Lemma dispatchDuration_nonzero d : d <> 0 -> dispatchDuration (Some d) = d.
Proof.
  intros Hd. unfold dispatchDuration.
  destruct (Z.eqb_spec d 0); congruence.
Qed.

Lemma dispatchDuration_timed ds : isContinuous (Some (dispatchDuration ds)) = false.
Proof.
  unfold dispatchDuration, isContinuous.
  destruct ds as [d |]; [| reflexivity].
  destruct (Z.eqb_spec d 0) as [-> | Hd]; [reflexivity |].
  apply Z.eqb_neq. exact Hd.
Qed.

(** C2, as amended. The dispatcher computes [durationSeconds || 30]: 30
    when the field is absent, null or 0, the field's value otherwise; the
    result is never 0.  So a dashboard start command, also one carrying
    [durationSeconds = 0], starts a timed recording: on a device that
    accepts the start, one auto-stop is registered, after that duration.
    A trigger invoked directly with duration null or 0 begins a continuous
    recording and registers no auto-stop (on any device, no timer is
    registered). *)
Theorem dashboard_start_duration (s : State W) (a : string) (ds : option Z)
    (h : Handle) (w' : W) :
  isStartAction a = true ->
  recording s = None ->
  deviceStarts P (world s) = Some (h, w') ->
  dispatchDuration None = 30
  /\ dispatchDuration (Some 0) = 30
  /\ (forall d, d <> 0 -> dispatchDuration (Some d) = d)
  /\ dispatchDuration ds <> 0
  /\ fst (dispatchAction P a ds s) = Ok tt
  /\ recording (snd (dispatchAction P a ds s)) = Some h
  /\ timers (snd (dispatchAction P a ds s))
     = (timers s ++ [mkTimer (AutoStop "dashboard" (dispatchDuration ds))
                             (dispatchDuration ds * 1000)])%list
  /\ (forall t,
        exists s1 s2,
          triggerRecording P t None s = (Ok startedResult, s1)
          /\ recording s1 = Some h /\ timers s1 = timers s
          /\ triggerRecording P t (Some 0) s = (Ok startedResult, s2)
          /\ recording s2 = Some h /\ timers s2 = timers s)
  /\ (forall t s0,
        timers (snd (triggerRecording P t None s0)) = timers s0
        /\ timers (snd (triggerRecording P t (Some 0) s0)) = timers s0).
Proof.
  intros Ha Hr Hd.
  split; [reflexivity |]. split; [reflexivity |].
  split; [exact dispatchDuration_nonzero |].
  pose proof (dispatchDuration_timed ds) as Ht.
  split.
  { intros H0. rewrite H0 in Ht. discriminate. }
  assert (Hrun : exists s',
             dispatchAction P a ds s = (Ok tt, s')
             /\ recording s' = Some h
             /\ timers s'
                = (timers s ++ [mkTimer (AutoStop "dashboard" (dispatchDuration ds))
                                        (dispatchDuration ds * 1000)])%list).
  { unfold dispatchAction. rewrite Ha.
    destruct s as [r pi ip cd dl tm co ca w]; cbn [recording world timers] in *.
    subst r. unfold console_log at 1. ev.
    match goal with
    | |- context [triggerRecording P ?t ?d ?s0] =>
        destruct (triggerRecording_started t d s0 h w' eq_refl Hd)
          as [s1 [E1 [R1 T1]]]; rewrite E1
    end.
    rewrite Ht in T1. cbn [toNumber timers] in T1.
    destruct s1; cbn [recording timers] in *. subst.
    cbn [success startedResult]. unfold console_log. ev.
    eexists; repeat split. }
  destruct Hrun as [s' [E [R T]]]. rewrite E. cbn [fst snd].
  split; [reflexivity |]. split; [exact R |]. split; [exact T |].
  split.
  - intros t.
    destruct (triggerRecording_started t None s h w' Hr Hd) as [s1 [E1 [R1 T1]]].
    destruct (triggerRecording_started t (Some 0) s h w' Hr Hd) as [s2 [E2 [R2 T2]]].
    cbn [isContinuous Z.eqb] in T1, T2. rewrite app_nil_r in T1, T2.
    exists s1, s2. auto 10.
  - intros t s0. split.
    + apply (triggerRecording_continuous_timers t None eq_refl s0).
    + apply (triggerRecording_continuous_timers t (Some 0) eq_refl s0).
Qed.
End TriggerFacts.

Lemma dashboard_start_duration_witness :
  isStartAction "start" = true
  /\ recording (initialState idleDevice) = None
  /\ dispatchDuration None = 30
  /\ dispatchDuration (Some 0) = 30
  /\ (forall d, d <> 0 -> dispatchDuration (Some d) = d)
  /\ dispatchDuration (Some 0) <> 0
  /\ fst (dispatchAction sim "start" (Some 0) (initialState idleDevice)) = Ok tt
  /\ recording (snd (dispatchAction sim "start" (Some 0) (initialState idleDevice)))
     = Some 0%nat
  /\ timers (snd (dispatchAction sim "start" (Some 0) (initialState idleDevice)))
     = (timers (initialState idleDevice)
        ++ [mkTimer (AutoStop "dashboard" (dispatchDuration (Some 0)))
                    (dispatchDuration (Some 0) * 1000)])%list
  /\ (forall t,
        exists s1 s2,
          triggerRecording sim t None (initialState idleDevice) = (Ok startedResult, s1)
          /\ recording s1 = Some 0%nat /\ timers s1 = timers (initialState idleDevice)
          /\ triggerRecording sim t (Some 0) (initialState idleDevice)
             = (Ok startedResult, s2)
          /\ recording s2 = Some 0%nat /\ timers s2 = timers (initialState idleDevice))
  /\ (forall t s0,
        timers (snd (triggerRecording sim t None s0)) = timers s0
        /\ timers (snd (triggerRecording sim t (Some 0) s0)) = timers s0).
Proof.
  split; [reflexivity |]. split; [reflexivity |].
  eapply (dashboard_start_duration sim (initialState idleDevice) "start" (Some 0) 0%nat);
    [reflexivity | reflexivity | vm_compute; reflexivity].
Defined.

(** C2 as stated fails: with [durationSeconds = 0] the specification's
    [durationSeconds ?? 30] is 0 (continuous), the dispatcher's duration is
    30, and the poll that receives the command leaves a 30-second auto-stop
    registered. *)
Lemma zero_duration_command_is_timed :
  specDuration (Some 0) = 0
  /\ dispatchDuration (Some 0) = 30
  /\ fst (checkForCommands sim
            (initialState (deviceReceiving (mkResponse 200 (Ok (startBody 0)))))) = Ok tt
  /\ recording
       (snd (checkForCommands sim
               (initialState (deviceReceiving (mkResponse 200 (Ok (startBody 0)))))))
     = Some 0%nat
  /\ timers
       (snd (checkForCommands sim
               (initialState (deviceReceiving (mkResponse 200 (Ok (startBody 0)))))))
     = [mkTimer (AutoStop "dashboard" 30) 30000].
Proof. vm_compute. repeat split. Qed.

(** ** The device identifier *)

Lemma append_nonempty (a b : string) (c : ascii) :
  String.eqb (a ++ String c b) "" = false.
Proof. destruct a; reflexivity. Qed.

Lemma deviceIdOf_nonempty info : String.eqb (deviceIdOf info) "" = false.
Proof. unfold deviceIdOf. apply append_nonempty. Qed.

Section DeviceIdentity.
Context {W : Type} (P : Platform W).

Lemma generateDeviceId_runs info (s : State W) :
  generateDeviceId P info s
    = (Ok (deviceIdOf info),
       logged [(LLog, "Generated device ID: " ++ deviceIdOf info)] s).
Proof. destruct s. reflexivity. Qed.

(** With a cached identifier, [getDeviceId] returns it and touches nothing. *)
Lemma getDeviceId_cached (s : State W) id :
  cachedDeviceId s = Some id ->
  String.eqb id "" = false ->
  getDeviceId P s = (Ok id, s).
Proof.
  destruct s; cbn [cachedDeviceId]; intros -> Hid.
  unfold getDeviceId. ev. unfold truthyStr. rewrite Hid. reflexivity.
Qed.

(** With no cached identifier and one in storage, [getDeviceId] returns the
    stored one after a single storage read. *)
Lemma getDeviceId_stored (s : State W) id w :
  truthyStr (cachedDeviceId s) = false ->
  AsyncStorage_getItem P DEVICE_ID_KEY (world s) = (Ok (Some id), w) ->
  String.eqb id "" = false ->
  exists s',
    getDeviceId P s = (Ok id, s')
    /\ calls s' = (calls s ++ [CStorageGet DEVICE_ID_KEY])%list
    /\ cachedDeviceId s' = Some id
    /\ world s' = w.
Proof.
  destruct s as [r pi ip cd dl tm co ca w0]; cbn [cachedDeviceId world calls].
  intros Hc Hg Hid.
  assert (Ht : truthyStr (Some id) = true) by (cbn; rewrite Hid; reflexivity).
  unfold getDeviceId. run.
  destruct dl; ev; eexists; repeat split.
Qed.

Lemma getDeviceId_uncached (s : State W) :
  truthyStr (cachedDeviceId s) = false ->
  exists id s1,
    getDeviceId P s = (Ok id, s1)
    /\ cachedDeviceId s1 = Some id
    /\ String.eqb id "" = false
    /\ recording s1 = recording s
    /\ timers s1 = timers s.
Proof.
  destruct s as [r pi ip cd dl tm co ca w0]; cbn [cachedDeviceId]; intros Hc.
  unfold getDeviceId. ev. rewrite Hc. ev.
  destruct (AsyncStorage_getItem P DEVICE_ID_KEY w0) as [[stored | e] w1]; ev.
  - destruct (truthyStr stored) eqn:Hs; ev.
    + destruct stored as [st |]; [| discriminate].
      cbn in Hs. apply negb_true_iff in Hs.
      destruct dl; ev; do 2 eexists; repeat split; exact Hs.
    + destruct dl; ev;
        (destruct (collectDeviceInfo P w1) as [[info | e] w2]; ev;
         [ rewrite generateDeviceId_runs; ev;
           match goal with
           | |- context [AsyncStorage_setItem P ?k ?v ?w] =>
               destruct (AsyncStorage_setItem P k v w) as [[[] | e] w3]; ev
           end;
           [ do 2 eexists; repeat split; apply deviceIdOf_nonempty | ]
         | ]);
        match goal with
        | |- context [Date_now P ?w] => destruct (Date_now P w) as [now w9]; ev
        end; do 2 eexists; repeat split.
  - destruct (Date_now P w1) as [now w9]; ev. do 2 eexists; repeat split.
Qed.

(** Every call of [getDeviceId] returns a non-empty identifier and leaves
    it in the cache. *)
Lemma getDeviceId_result (s : State W) :
  exists id s1,
    getDeviceId P s = (Ok id, s1)
    /\ cachedDeviceId s1 = Some id
    /\ String.eqb id "" = false
    /\ recording s1 = recording s
    /\ timers s1 = timers s.
Proof.
  destruct (truthyStr (cachedDeviceId s)) eqn:Hc.
  - destruct (cachedDeviceId s) as [c |] eqn:Hs; [| discriminate].
    cbn in Hc. apply negb_true_iff in Hc.
    exists c, s. split; [apply getDeviceId_cached; assumption |]. auto.
  - apply getDeviceId_uncached. exact Hc.
Qed.

End DeviceIdentity.

(** ** The command channel *)

(** Closes a goal stating that a run resolved to "no command". *)
Ltac nocmd :=
  cbn [resolvesTo fst snd]; unfold noCommand, anomalies;
  cbn [recording timers calls console world];
  repeat rewrite <- app_assoc; cbn [app];
  repeat rewrite filter_app; cbn [filter isAnomaly fst app];
  rewrite ?app_nil_r;
  repeat split; eauto.

Section CommandChannel.
Context {W : Type} (P : Platform W).

Lemma fetchCatch_runs e (s : State W) :
  fetchCatch e s = (Ok tt, networkFailure e s).
Proof.
  destruct s. unfold fetchCatch, networkFailure, console_error. ev. tidy.
Qed.

Lemma fetchCatch_total e : neverThrows (@fetchCatch W e).
Proof. unfold fetchCatch, console_error. total. Qed.

(** [checkForCommands] never throws. *)
Lemma checkForCommands_total : neverThrows (checkForCommands P).
Proof.
  unfold checkForCommands. apply tryCatch_neverThrows. intros e.
  unfold checkCatch, console_error. total.
Qed.

(** A body that is not a command: nothing is dispatched. *)
Lemma handleResponse_no_dispatch (response : Response) (b : bool) (s : State W) :
  match classifyResponse P response with
  | BodyJson (ParsedObject d) => hasCommand d && truthyStr (action d) = false
  | _ => True
  end ->
  resolvesTo P (documentedOutcome (respStatus response) (classifyResponse P response))
    s (tryCatch (handleResponse P response b) fetchCatch s).
Proof.
  destruct s as [r pi ip cd dl tm co ca w0].
  destruct response as [st body].
  unfold classifyResponse, handleResponse, readCommandData, processData,
    fetchCatch, console_log, console_error, console_warn.
  cbn [respText respStatus].
  destruct body as [text | e].
  - destruct (isHtml text) eqn:Hh.
    + intros _. cbn [documentedOutcome].
      destruct (st =? 404) eqn:H4; destruct b; run; nocmd.
    + destruct (String.eqb text "") eqn:He.
      * intros _. cbn [documentedOutcome].
        destruct (st =? 404) eqn:H4; [| destruct (st =? 200) eqn:H2];
          cbn [orb]; run; nocmd.
      * destruct (JSON_parse P text) as [[| d | t] |] eqn:Hp;
          cbn [documentedOutcome].
        -- intros _. destruct b; run; nocmd.
        -- intros Hd. rewrite Hd.
           destruct (st =? 404) eqn:H4; destruct (hasCommand d) eqn:Hc;
             cbn [andb] in Hd; destruct b; run;
             cbn [orb andb negb];
             try (destruct (Math_random P w0) as [rnd w1];
                  destruct (below rnd (1 # 10)));
             ev; nocmd.
        -- intros _.
           destruct (st =? 404) eqn:H4; destruct t; destruct b; run;
             cbn [orb andb negb hasCommand action truthyStr];
             try (destruct (Math_random P w0) as [rnd w1];
                  destruct (below rnd (1 # 10)));
             ev; nocmd.
        -- intros _. destruct (st =? 404) eqn:H4; destruct b; run; nocmd.
  - intros _. cbn [documentedOutcome].
    destruct (st =? 200) eqn:H2; destruct (st =? 404) eqn:H4; run; nocmd.
Qed.
(** [triggerRecording] never throws. *)
Lemma triggerRecording_total t ds : neverThrows (triggerRecording P t ds).
Proof. unfold triggerRecording, console_error. total. Qed.

(** The dispatch runs the engine: a start action triggers a recording, a
    stop action stops it, and neither throws. *)
Lemma dispatchAction_dispatched a ds (s0 : State W) out :
  out = dispatchAction P a ds s0 -> dispatched P a ds s0 out.
Proof.
  intros ->. destruct s0 as [r pi ip cd dl tm co ca w].
  unfold dispatched, dispatchAction, console_log, console_warn, console_error.
  destruct (isStartAction a); [| destruct (isStopAction a)]; ev.
  - match goal with
    | |- context [triggerRecording P ?t ?d ?sx] =>
        destruct (triggerRecording_total t d sx) as [res [s1 E]]; rewrite E
    end.
    exists res, s1. split; [reflexivity |].
    destruct s1 as [r1 pi1 ip1 cd1 dl1 tm1 co1 ca1 w1].
    destruct (success res); ev; reflexivity.
  - match goal with
    | |- context [stopRecording P ?sx] =>
        pose proof (stopRecording_clears P sx) as H;
        destruct (stopRecording P sx) as [[u | e] s1]; [| contradiction]
    end.
    exists u, s1. split; [reflexivity |].
    destruct s1 as [r1 pi1 ip1 cd1 dl1 tm1 co1 ca1 w1].
    destruct (truthyStr u); ev; reflexivity.
  - reflexivity.
Qed.

(** A command: the action is dispatched, after console entries that
    report no anomaly. *)
Lemma handleResponse_dispatch (response : Response) (b : bool) (s : State W) d :
  classifyResponse P response = BodyJson (ParsedObject d) ->
  hasCommand d && truthyStr (action d) = true ->
  resolvesTo P (Dispatch (orDefault (action d) "") (durationSeconds d))
    s (tryCatch (handleResponse P response b) fetchCatch s).
Proof.
  destruct s as [r pi ip cd dl tm co ca w0].
  destruct response as [st body].
  unfold classifyResponse, handleResponse, readCommandData, processData,
    console_log, console_error, console_warn.
  cbn [respText respStatus].
  destruct body as [text | e]; [| discriminate].
  destruct (isHtml text) eqn:Hh; [discriminate |].
  destruct (String.eqb text "") eqn:He; [discriminate |].
  destruct (JSON_parse P text) as [data |] eqn:Hp; [| discriminate].
  intros Hd Hc. inversion Hd; subst data; clear Hd.
  apply andb_prop in Hc. destruct Hc as [Hc1 Hc2].
  cbn [resolvesTo].
  destruct b; run; repeat rewrite <- app_assoc; cbn [app];
    match goal with
    | |- context [dispatchAction P ?a ?ds ?s0] =>
        destruct (dispatchAction_total P a ds s0) as [[] [s' E]]; rewrite E
    end;
    eexists; (split; [| apply dispatchAction_dispatched; rewrite <- E; reflexivity]);
    reflexivity.
Qed.

(** A poll cycle is: the identifier and [Math.random], then [fetch], then
    either the response handling under its [catch], or that [catch] alone
    when [fetch] rejects. *)
Lemma checkForCommands_cycle (s : State W) :
  exists url b s1,
    recording s1 = recording s
    /\ timers s1 = timers s
    /\ checkForCommands P s
       = match fetch P url (world s1) with
         | (Ok response, w) =>
             tryCatch (handleResponse P response b) fetchCatch (called [CFetch url] w s1)
         | (Throw e, w) => (Ok tt, networkFailure e (called [CFetch url] w s1))
         end.
Proof.
  destruct (getDeviceId_result P s) as [id [s1 [E [_ [_ [R T]]]]]].
  unfold checkForCommands. unfold tryCatch at 1. unfold bind at 1. rewrite E.
  destruct s1 as [r pi ip cd dl tm co ca w0]. cbn [recording timers] in R, T.
  unfold bind at 1, perform. cbn [world].
  destruct (Math_random P w0) as [rnd w1].
  set (url := BASE_URL ++ "/api/command/" ++ encodeURIComponent P id).
  exists url, (below rnd (5 # 100)),
    (mkState r pi ip cd dl tm
       (co ++ if below rnd (5 # 100)
              then [(LLog, "Polling for commands with device ID: " ++ id);
                    (LLog, "Polling URL: " ++ url)]
              else [])
       (ca ++ [CRandom]) w1).
  split; [exact R |]. split; [exact T |].
  subst url.
  destruct (below rnd (5 # 100));
    unfold console_log; ev; rewrite ?app_nil_r;
    (destruct (fetch P _ w1) as [[response | e] w2]; ev;
     repeat rewrite <- app_assoc; cbn [app]; unfold LogEntry;
     [ match goal with
       | |- context [handleResponse P ?rs ?bb ?s0] =>
           destruct (handleResponse P rs bb s0) as [[[] | e] s3]
       end; [reflexivity | rewrite fetchCatch_runs; reflexivity]
     | unfold fetchCatch, networkFailure, console_error; ev; tidy ]).
Qed.

End CommandChannel.


(** The table on the simulated device's parser. *)
Lemma classification_examples :
  classifyResponse sim (mkResponse 404 (Ok "")) = BodyEmpty
  /\ classifyResponse sim (mkResponse 404 (Ok "  <!DOCTYPE html><title>404</title>"))
     = BodyHtml
  /\ classifyResponse sim (mkResponse 200 (Ok "not json")) = BodyMalformed
  /\ classifyResponse sim (mkResponse 200 (Ok noCommandBody))
     = BodyJson (ParsedObject (mkData false None None))
  /\ documentedOutcome 200 (classifyResponse sim (mkResponse 200 (Ok (startBody 5))))
     = Dispatch "start" (Some 5)
  /\ anomalies
       (console (snd (checkForCommands sim
                        (initialState (deviceReceiving (mkResponse 200 (Ok "not json")))))))
     = [(LError, "Command poll error: Failed to parse response (status 200)")]
  /\ anomalies
       (console (snd (checkForCommands sim
                        (initialState (deviceReceiving (mkResponse 404 (Ok "not json")))))))
     = []
  /\ timers (snd (checkForCommands sim
                    (initialState (deviceReceiving (mkResponse 200 (Ok (startBody 5)))))))
     = [mkTimer (AutoStop "dashboard" 5) 5000].
Proof. vm_compute. repeat split. Qed.

(** ** The identifier format *)

Lemma removeSpaces_skip k r :
  removeSpaces k r = removeSpaces 0 (dropBytes k r).
Proof.
  revert k. induction r as [| c r IH]; intros [| k]; try reflexivity.
  cbn [removeSpaces dropBytes]. apply IH.
Qed.

Lemma dropSpaces_skip k r :
  dropSpaces k r = dropSpaces 0 (dropBytes k r).
Proof.
  revert k. induction r as [| c r IH]; intros [| k]; try reflexivity.
  cbn [dropSpaces dropBytes]. apply IH.
Qed.

(** Inside a run, the rest of the run is skipped. *)
Lemma underscoreRuns_in_run k r :
  underscoreRuns true k r = underscoreRuns false 0 (dropSpaces k r).
Proof.
  revert k. induction r as [| c r IH]; intros k; [destruct k; reflexivity |].
  destruct k as [| k].
  - cbn [underscoreRuns dropSpaces].
    destruct (spaceWidth (String c r)) as [| j] eqn:Hw; [| apply IH].
    cbn [underscoreRuns]. rewrite Hw. reflexivity.
  - cbn [underscoreRuns dropSpaces]. apply IH.
Qed.

(** A character that is no white space is kept. *)
Lemma whitespace_kept c r :
  spaceWidth (String c r) = 0%nat ->
  removeWhitespace (String c r) = String c (removeWhitespace r)
  /\ underscoreWhitespace (String c r) = String c (underscoreWhitespace r)
  /\ trimStart (String c r) = String c r.
Proof.
  intros Hw. unfold removeWhitespace, underscoreWhitespace, trimStart.
  cbn [removeSpaces underscoreRuns dropSpaces]. rewrite Hw. auto.
Qed.

(** A white space character is deleted from the manufacturer; in the
    model the whole run that it starts becomes one underscore. *)
Lemma whitespace_replaced m :
  spaceWidth m <> 0%nat ->
  removeWhitespace m = removeWhitespace (dropBytes (spaceWidth m) m)
  /\ underscoreWhitespace m = String "_" (underscoreWhitespace (trimStart m))
  /\ trimStart m = trimStart (dropBytes (spaceWidth m) m).
Proof.
  intros Hw. destruct m as [| c r]; [exfalso; apply Hw; reflexivity |].
  unfold removeWhitespace, underscoreWhitespace, trimStart.
  cbn [removeSpaces underscoreRuns dropSpaces].
  destruct (spaceWidth (String c r)) as [| k]; [exfalso; apply Hw; reflexivity |].
  cbn [dropBytes]. rewrite <- removeSpaces_skip, <- dropSpaces_skip.
  rewrite underscoreRuns_in_run. auto.
Qed.

Section IdentifierFormat.
Context {W : Type} (P : Platform W).

(** C9, as amended. [generateDeviceId] returns
    "{manufacturer}_{model}_iOS", never its fallback: the manufacturer
    (default "Apple") with its white space characters deleted, the model
    (default "Unknown") with every run of white space replaced by one
    underscore and every other character kept, and the constant tag "iOS"
    whatever the running platform.  White space is that of the class
    [\s]: the characters for which [spaceWidth] is not 0. *)
Theorem generateDeviceId_format (deviceInfo : DeviceInfo) (s : State W) :
  fst (generateDeviceId P deviceInfo s)
    = Ok (removeWhitespace (orDefault (manufacturer deviceInfo) "Apple")
          ++ "_" ++ underscoreWhitespace (orDefault (modelName deviceInfo) "Unknown")
          ++ "_iOS")
  /\ removeWhitespace "" = ""
  /\ underscoreWhitespace "" = ""
  /\ (forall c r, spaceWidth (String c r) = 0%nat ->
        removeWhitespace (String c r) = String c (removeWhitespace r)
        /\ underscoreWhitespace (String c r) = String c (underscoreWhitespace r)
        /\ trimStart (String c r) = String c r)
  /\ (forall m, spaceWidth m <> 0%nat ->
        removeWhitespace m = removeWhitespace (dropBytes (spaceWidth m) m)
        /\ underscoreWhitespace m = String "_" (underscoreWhitespace (trimStart m))
        /\ trimStart m = trimStart (dropBytes (spaceWidth m) m))
  /\ (forall p,
        fst (generateDeviceId P
               (mkDeviceInfo (manufacturer deviceInfo) (modelName deviceInfo) p) s)
        = fst (generateDeviceId P deviceInfo s)).
Proof.
  split; [rewrite generateDeviceId_runs; reflexivity |].
  split; [reflexivity |].
  split; [reflexivity |].
  split; [exact whitespace_kept |].
  split; [exact whitespace_replaced |].
  intros p. rewrite !generateDeviceId_runs. reflexivity.
Qed.
End IdentifierFormat.

(** C9 as stated fails: for manufacturer "Acme Corp" and model
    "Model-1  X" on android the code gives "AcmeCorp_Model-1_X_iOS" where
    the stated format gives "Acme_Corp_Model_1_X_android"; and for "Acme",
    "Model1" on ios it gives the tag "iOS", not "ios". *)
Lemma device_id_format_differs :
  fst (generateDeviceId sim acmeCorpInfo (initialState idleDevice))
    = Ok "AcmeCorp_Model-1_X_iOS"
  /\ specDeviceId acmeCorpInfo = "Acme_Corp_Model_1_X_android"
  /\ fst (generateDeviceId sim acmeInfo (initialState idleDevice)) = Ok "Acme_Model1_iOS"
  /\ specDeviceId acmeInfo = "Acme_Model1_ios"
  /\ fst (generateDeviceId sim acmeCorpInfo (initialState idleDevice))
     <> Ok (specDeviceId acmeCorpInfo).
Proof.
  repeat split; try reflexivity. vm_compute. discriminate.
Qed.

(** White space beyond ASCII: a no-break space in the manufacturer is
    deleted, and an ideographic space followed by a space in the model is
    one run. *)
Lemma white_space_beyond_ascii :
  spaceWidth noBreakSpace = 2%nat
  /\ spaceWidth ideographicSpace = 3%nat
  /\ spaceWidth byteOrderMark = 3%nat
  /\ spaceWidth zeroWidthSpace = 0%nat
  /\ deviceIdOf (mkDeviceInfo (Some ("Acme" ++ noBreakSpace ++ "Corp"))
                   (Some ("Model" ++ ideographicSpace ++ " X")) "ios")
     = "AcmeCorp_Model_X_iOS"
  /\ trim (byteOrderMark ++ " <html> " ++ noBreakSpace) = "<html>"
  /\ trim (zeroWidthSpace ++ " ") = zeroWidthSpace.
Proof. vm_compute. repeat split. Qed.

(** ** The verification failure on any platform *)

Section VerificationFailure.
Context {W : Type} (P : Platform W).

(** Whenever the status re-query that follows [startAsync] reports not
    recording, [startRecording] returns the verification failure with the
    module variable null; the calls it made end with that status query, so
    the handle it allocated and prepared has not been released. *)
Lemma startRecording_unverified (s : State W) p w1 w2 h w3 w4 w5 st w6 :
  recording s = None ->
  Audio_requestPermissionsAsync P (world s) = (Ok p, w1) ->
  granted p = true ->
  Audio_setAudioModeAsync P w1 = (Ok tt, w2) ->
  Audio_Recording_new P w2 = (h, w3) ->
  prepareToRecordAsync P h w3 = (Ok tt, w4) ->
  startAsync P h w4 = (Ok tt, w5) ->
  getStatusAsync P h w5 = (Ok (Some st), w6) ->
  isRecording st = false ->
  exists s',
    startRecording P s
      = (Ok (mkResult false None None (Some verificationError)), s')
    /\ recording s' = None
    /\ calls s' = (calls s ++ startCalls h)%list
    /\ releases (calls s') = releases (calls s)
    /\ world s' = w6.
Proof.
  destruct s as [r pi ip cd dl tm co ca w]; cbn [recording world calls].
  intros -> E1 Eg E2 E3 E4 E5 E6 Er.
  unfold startRecording, inspectExisting, startFresh, onRecording, newRecording,
    readIsRecording, console_log, console_error.
  run. eexists. split; [reflexivity |].
  cbn [recording calls world]. unfold startCalls, releases.
  repeat split; tidy.
  repeat rewrite filter_app. cbn. rewrite app_nil_r. reflexivity.
Qed.
End VerificationFailure.

(** * Further properties of the recording engine *)

Section StopRecordingFacts.
Context {W : Type} (P : Platform W).

Lemma stopRecording_no_handle (s : State W) :
  recording s = None ->
  stopRecording P s
    = (Ok None, logged [(LLog, "No recording to stop (recording object is null)")] s).
Proof.
  destruct s as [r pi ip cd dl tm co ca w]; cbn [recording]; intros ->. reflexivity.
Qed.

(** X1. [stopRecording] is best effort: from every state and whatever the
    recorder, the upload and the status queries do (resolve, reject, report
    anything), it returns a value instead of throwing, leaves the module's
    handle null and registers no timer. *)
Theorem stopRecording_completes (s : State W) :
  exists uri s',
    stopRecording P s = (Ok uri, s')
    /\ recording s' = None
    /\ timers s' = timers s.
Proof.
  pose proof (stopRecording_clears P s) as H.
  destruct (stopRecording P s) as [[uri | e] s']; [| contradiction].
  exists uri, s'. destruct H. auto.
Qed.

(** X2. Stopping an active session: the handle is cleared, the recorder
    is stopped and released once, the final status is read, and the file
    is handed to the upload with the recorded duration; the URI is
    returned. *)
Theorem stopRecording_hands_off (s : State W) h st w1 w2 uri fin w3 w4 :
  recording s = Some h ->
  getStatusAsync P h (world s) = (Ok (Some st), w1) ->
  isRecording st = true ->
  stopAndUnloadAsync P h w1 = (Ok tt, w2) ->
  getURI P h w2 = Some uri ->
  String.eqb uri "" = false ->
  getStatusAsync P h w2 = (Ok (Some fin), w3) ->
  fetchLocationAndUploadAudio P uri (durationMillis fin) w3 = (Ok tt, w4) ->
  exists s',
    stopRecording P s = (Ok (Some uri), s')
    /\ recording s' = None
    /\ calls s'
       = (calls s ++ [CGetStatus h; CStopAndUnload h; CGetStatus h;
                      CUploadAudio uri (durationMillis fin)])%list
    /\ world s' = w4
    /\ anomalies (console s') = anomalies (console s).
Proof.
  destruct s as [r pi ip cd dl tm co ca w]; cbn [recording world calls console].
  intros -> E1 Er E2 Eu Ene E3 E4.
  unfold stopRecording, onRecording, readIsRecording, console_log, console_warn,
    console_error.
  run. unfold truthyStr. rewrite Ene. run.
  eexists. split; [reflexivity |]. cbn [recording calls world console].
  repeat split; tidy.
  unfold anomalies. repeat rewrite filter_app. cbn. rewrite ?app_nil_r. reflexivity.
Qed.

(** X3. Stopping when the handle reports not recording: a release is
    attempted (its rejection only logged), the handle is cleared, null is
    returned and nothing is uploaded. *)
Theorem stopRecording_stale_handle (s : State W) h st w1 :
  recording s = Some h ->
  getStatusAsync P h (world s) = (Ok (Some st), w1) ->
  isRecording st = false ->
  exists s',
    stopRecording P s = (Ok None, s')
    /\ recording s' = None
    /\ calls s' = (calls s ++ [CGetStatus h; CStopAndUnload h])%list
    /\ world s' = snd (stopAndUnloadAsync P h w1)
    /\ anomalies (console s') = anomalies (console s).
Proof.
  destruct s as [r pi ip cd dl tm co ca w]; cbn [recording world calls console].
  intros -> E1 Er.
  unfold stopRecording, onRecording, readIsRecording, console_log, console_warn,
    console_error.
  run.
  destruct (stopAndUnloadAsync P h w1) as [[[] | e] w2]; run;
    (eexists; split; [reflexivity |]); cbn [recording calls world console];
    repeat split; tidy;
    unfold anomalies; repeat rewrite filter_app; cbn; rewrite ?app_nil_r; reflexivity.
Qed.

(** X4. A second stop right after a stop does nothing: it makes no call
    to the platform, returns null and only writes one console line. *)
Theorem stopRecording_twice (s : State W) :
  stopRecording P (snd (stopRecording P s))
    = (Ok None,
       logged [(LLog, "No recording to stop (recording object is null)")]
         (snd (stopRecording P s))).
Proof.
  apply stopRecording_no_handle.
  pose proof (stopRecording_clears P s) as H.
  destruct (stopRecording P s) as [[uri | e] s']; [| contradiction].
  destruct H. assumption.
Qed.
End StopRecordingFacts.

Lemma stopRecording_hands_off_witness :
  recording recordingSession = Some 0%nat
  /\ exists s',
       stopRecording sim recordingSession = (Ok (Some "file:///recording.m4a"), s')
       /\ recording s' = None
       /\ calls s'
          = (calls recordingSession
             ++ [CGetStatus 0%nat; CStopAndUnload 0%nat; CGetStatus 0%nat;
                 CUploadAudio "file:///recording.m4a" 1700000000000])%list
       /\ world s' = mkSim true true 1 [] [] [] acmeInfo [] 1700000000000
       /\ anomalies (console s') = anomalies (console recordingSession).
Proof.
  split; [reflexivity |].
  apply (stopRecording_hands_off sim recordingSession 0%nat
           (mkStatus true 1700000000000) (world recordingSession)
           (mkSim true true 1 [] [] [] acmeInfo [] 1700000000000)
           "file:///recording.m4a" (mkStatus false 1700000000000)
           (mkSim true true 1 [] [] [] acmeInfo [] 1700000000000)
           (mkSim true true 1 [] [] [] acmeInfo [] 1700000000000));
    vm_compute; reflexivity.
Defined.

Lemma stopRecording_stale_handle_witness :
  recording staleState = Some 0%nat
  /\ exists s',
       stopRecording sim staleState = (Ok None, s')
       /\ recording s' = None
       /\ calls s' = (calls staleState ++ [CGetStatus 0%nat; CStopAndUnload 0%nat])%list
       /\ world s' = snd (stopAndUnloadAsync sim 0%nat staleDevice)
       /\ anomalies (console s') = anomalies (console staleState).
Proof.
  split; [reflexivity |].
  apply (stopRecording_stale_handle sim staleState 0%nat
           (mkStatus false 1700000000000) staleDevice);
    vm_compute; reflexivity.
Defined.

Section TriggerOutcomes.
Context {W : Type} (P : Platform W).

(** What a fresh start can return: the plain success with a handle in
    place, or a failure without one. *)
Lemma startFresh_outcomes (s : State W) :
  recording s = None ->
  match startFresh P s with
  | (Ok r, s') =>
      (r = startedResult /\ recording s' <> None)
      \/ (success r = false /\ alreadyRecording r = None /\ recording s' = None)
  | (Throw _, _) => True
  end.
Proof.
  destruct s as [r pi ip cd dl tm co ca w]. cbn [recording]. intros ->.
  unfold startFresh, onRecording, newRecording, readIsRecording, startedResult.
  repeat (ev; try inner_destruct); cbn; auto;
    try (left; split; [reflexivity | discriminate]).
Qed.

(** The three ways in which [startRecording] returns. *)
Lemma startRecording_outcomes (s : State W) :
  exists r s',
    startRecording P s = (Ok r, s')
    /\ timers s' = timers s
    /\ ((r = alreadyRecordingResult /\ recording s' = recording s /\ recording s <> None)
        \/ (r = startedResult /\ recording s' <> None)
        \/ (success r = false /\ alreadyRecording r = None /\ recording s' = None)).
Proof.
  pose proof (startRecording_timers P s) as HT.
  unfold startRecording, tryCatch, bind in *.
  destruct (inspectExisting_cases P s) as [s1 [[HI [Hk Hn]] | [HI Hn]]];
    rewrite HI in *; cbn [snd] in HT.
  - do 2 eexists. split; [reflexivity |]. split; [exact HT |]. left. auto.
  - pose proof (startFresh_outcomes s1 Hn) as HF.
    destruct (startFresh P s1) as [[r1 | e] s2]; cbn [snd] in HT.
    + do 2 eexists. split; [reflexivity |]. split; [exact HT |].
      destruct HF as [[-> H2] | H2]; auto.
    + destruct (startRecordingCatch_runs e s2) as [s3 [H3 H4]].
      rewrite H3 in *. cbn [snd] in HT.
      do 2 eexists. split; [reflexivity |]. split; [exact HT |].
      right. right. auto.
Qed.

(** The status event makes no call to the recorder. *)
Lemma notifyRecordingStatus_calls e t m (s : State W) :
  exists cs,
    calls (snd (notifyRecordingStatus P e t m s)) = (calls s ++ cs)%list
    /\ allocations cs = 0%nat /\ releases cs = 0%nat.
Proof.
  destruct s as [r pi ip cd dl tm co ca w].
  unfold notifyRecordingStatus, console_log. ev.
  destruct (fetchLocation P w) as [[loc | err] w1]; ev.
  - destruct (sendRecordingEvent P e loc w1) as [[[] | err] w2]; ev;
      eexists; (split; [rewrite <- app_assoc; reflexivity |]); split; reflexivity.
  - eexists; split; [reflexivity |]; split; reflexivity.
Qed.


(** X6. A trigger that arrives while the session is verified recording is
    absorbed: the result is [{success: true, alreadyRecording: true}], no
    handle is allocated, nothing is released, no auto-stop is registered
    and the handle stays. *)
Theorem triggerRecording_while_recording (t : string) (ds : option Z)
    (s : State W) h st w :
  recording s = Some h ->
  getStatusAsync P h (world s) = (Ok (Some st), w) ->
  isRecording st = true ->
  exists s',
    triggerRecording P t ds s = (Ok (mkResult true (Some true) None None), s')
    /\ recording s' = Some h
    /\ timers s' = timers s
    /\ allocations (calls s') = allocations (calls s)
    /\ releases (calls s') = releases (calls s).
Proof.
  destruct s as [r0 pi ip cd dl tm co ca w0]; cbn [recording world timers calls].
  intros -> Hq Hr. unfold triggerRecording.
  destruct (isContinuous ds) eqn:Hc; ev;
    match goal with
    | |- context [startRecording P ?s0] =>
        rewrite (startRecording_while_recording P s0 h st w eq_refl Hq Hr)
    end;
    cbn [success alreadyRecording alreadyRecordingResult negb]; ev;
    match goal with
    | |- context [notifyRecordingStatus P ?e ?tr ?m ?sx] =>
        destruct (notifyRecordingStatus_total P e tr m sx) as [[] [s2 E2]];
        pose proof (notifyRecordingStatus_timers P e tr m sx) as T2;
        pose proof (notifyRecordingStatus_recording P e tr m sx) as R2;
        destruct (notifyRecordingStatus_calls e tr m sx) as [cs [C2 [A2 L2]]];
        rewrite E2 in T2, R2, C2 |- *; cbn [snd] in T2, R2, C2
    end;
    destruct s2 as [r2 pi2 ip2 cd2 dl2 tm2 co2 ca2 w2];
    cbn [recording timers calls] in *; ev;
    eexists; (split; [reflexivity |]); cbn [recording timers calls]; subst;
    repeat split; auto;
    unfold allocations, releases in *;
    repeat rewrite filter_app; repeat rewrite length_app;
    cbn [filter isNewRecording isStopAndUnload length]; lia.
Qed.

(** X7. The auto-stop on a session that is still recording: the callback
    queries the status, logs, and runs [stopRecording]; the session ends
    with the handle null and nothing thrown. *)
Theorem autoStopCallback_stops (t : string) (d : Z) (s : State W) h st w :
  recording s = Some h ->
  getStatusAsync P h (world s) = (Ok (Some st), w) ->
  isRecording st = true ->
  autoStopCallback P t d s
    = (Ok tt,
       snd (stopRecording P
              (logged [(LLog, "Trigger recording auto-stopping: " ++ t)]
                 (called [CGetStatus h] w s))))
  /\ recording (snd (autoStopCallback P t d s)) = None
  /\ timers (snd (autoStopCallback P t d s)) = timers s.
Proof.
  intros Hr Hq Hs.
  assert (E : autoStopCallback P t d s
              = (Ok tt,
                 snd (stopRecording P
                        (logged [(LLog, "Trigger recording auto-stopping: " ++ t)]
                           (called [CGetStatus h] w s))))).
  { destruct s as [r0 pi ip cd dl tm co ca w0]; cbn [recording world] in *. subst r0.
    unfold autoStopCallback, readIsRecording, console_log. run.
    match goal with
    | |- context [stopRecording P ?s0] =>
        pose proof (stopRecording_clears P s0) as H;
        destruct (stopRecording P s0) as [[u | e] s1]; [reflexivity | contradiction]
    end. }
  rewrite E. split; [reflexivity |]. cbn [snd].
  match goal with
  | |- context [stopRecording P ?s0] =>
      pose proof (stopRecording_clears P s0) as H;
      destruct (stopRecording P s0) as [[u | e] s1]; [| contradiction]
  end.
  destruct H as [H1 H2]. cbn [snd]. split; [exact H1 |].
  rewrite H2. destruct s; reflexivity.
Qed.
End TriggerOutcomes.

Lemma triggerRecording_while_recording_witness :
  recording recordingSession = Some 0%nat
  /\ exists s',
       triggerRecording sim "dashboard" (Some 30) recordingSession
         = (Ok (mkResult true (Some true) None None), s')
       /\ recording s' = Some 0%nat
       /\ timers s' = timers recordingSession
       /\ allocations (calls s') = allocations (calls recordingSession)
       /\ releases (calls s') = releases (calls recordingSession).
Proof.
  split; [reflexivity |].
  apply (triggerRecording_while_recording sim "dashboard" (Some 30) recordingSession
           0%nat (mkStatus true 1700000000000) (world recordingSession));
    vm_compute; reflexivity.
Defined.

Lemma autoStopCallback_stops_witness :
  recording recordingSession = Some 0%nat
  /\ autoStopCallback sim "dashboard" 30 recordingSession
     = (Ok tt,
        snd (stopRecording sim
               (logged [(LLog, "Trigger recording auto-stopping: " ++ "dashboard")]
                  (called [CGetStatus 0%nat] (world recordingSession)
                     recordingSession))))
  /\ recording (snd (autoStopCallback sim "dashboard" 30 recordingSession)) = None
  /\ timers (snd (autoStopCallback sim "dashboard" 30 recordingSession))
     = timers recordingSession.
Proof.
  split; [reflexivity |].
  apply (autoStopCallback_stops sim "dashboard" 30 recordingSession
           0%nat (mkStatus true 1700000000000) (world recordingSession));
    vm_compute; reflexivity.
Defined.

(** * Further properties of the device identifier *)

Section IdentifierStore.
Context {W : Type} (P : Platform W).

(** X8. Store, then resolve: once [storeDeviceId] has written a non-empty
    identifier, [getDeviceId] returns exactly that identifier, from the
    cache, without another call to the platform. *)
Theorem storeDeviceId_then_getDeviceId (s : State W) (id : string) (w : W) :
  AsyncStorage_setItem P DEVICE_ID_KEY id (world s) = (Ok tt, w) ->
  String.eqb id "" = false ->
  exists s',
    (storeDeviceId P id ;; getDeviceId P) s = (Ok id, s')
    /\ cachedDeviceId s' = Some id
    /\ calls s' = (calls s ++ [CStorageSet DEVICE_ID_KEY id])%list
    /\ world s' = w.
Proof.
  destruct s as [r pi ip cd dl tm co ca w0]; cbn [world calls].
  intros Hs Hid.
  unfold storeDeviceId, getDeviceId, console_log, console_error. run.
  unfold truthyStr. rewrite Hid. run.
  eexists. repeat split.
Qed.

(** X9. A store whose write is rejected: [storeDeviceId] logs the error
    and returns; the cached identifier is not replaced, so [getDeviceId]
    keeps answering as before. *)
Theorem storeDeviceId_rejected (s : State W) (id : string) e (w : W) :
  AsyncStorage_setItem P DEVICE_ID_KEY id (world s) = (Throw e, w) ->
  exists s',
    storeDeviceId P id s = (Ok tt, s')
    /\ cachedDeviceId s' = cachedDeviceId s
    /\ deviceIdLogged s' = deviceIdLogged s
    /\ anomalies (console s')
       = (anomalies (console s) ++ [(LError, "Failed to store device ID:")])%list.
Proof.
  destruct s as [r pi ip cd dl tm co ca w0]; cbn [world cachedDeviceId console].
  intros Hs.
  unfold storeDeviceId, console_log, console_error. run.
  eexists. repeat split.
  cbn [console]. unfold anomalies. rewrite filter_app. reflexivity.
Qed.

(** X10. First derivation: with nothing cached and nothing stored,
    [getDeviceId] derives the identifier from the collected metadata,
    writes that same string under the key that it reads at start-up, caches
    it and returns it. *)
Theorem getDeviceId_first_derivation (s : State W) stored w1 info w2 w3 :
  truthyStr (cachedDeviceId s) = false ->
  AsyncStorage_getItem P DEVICE_ID_KEY (world s) = (Ok stored, w1) ->
  truthyStr stored = false ->
  collectDeviceInfo P w1 = (Ok info, w2) ->
  AsyncStorage_setItem P DEVICE_ID_KEY (deviceIdOf info) w2 = (Ok tt, w3) ->
  exists s',
    getDeviceId P s = (Ok (deviceIdOf info), s')
    /\ cachedDeviceId s' = Some (deviceIdOf info)
    /\ calls s'
       = (calls s ++ [CStorageGet DEVICE_ID_KEY; CCollectDeviceInfo;
                      CStorageSet DEVICE_ID_KEY (deviceIdOf info)])%list
    /\ world s' = w3.
Proof.
  destruct s as [r pi ip cd dl tm co ca w0]; cbn [world calls cachedDeviceId].
  intros Hc Hg Hs Hi Hw.
  unfold getDeviceId, console_log, console_warn. run.
  destruct dl; run; rewrite generateDeviceId_runs; run;
    eexists; (split; [reflexivity |]); cbn [cachedDeviceId calls world];
    repeat split; tidy.
Qed.

(** X11. When the write of a freshly derived identifier is rejected,
    [getDeviceId] does not return the derived identifier: it returns and
    caches the fallback "Fallback_{os}_{now}", which it does not write to
    storage. *)
Theorem getDeviceId_write_rejected (s : State W) stored w1 info w2 e w3 :
  truthyStr (cachedDeviceId s) = false ->
  AsyncStorage_getItem P DEVICE_ID_KEY (world s) = (Ok stored, w1) ->
  truthyStr stored = false ->
  collectDeviceInfo P w1 = (Ok info, w2) ->
  AsyncStorage_setItem P DEVICE_ID_KEY (deviceIdOf info) w2 = (Throw e, w3) ->
  exists s',
    getDeviceId P s
      = (Ok ("Fallback_" ++ Platform_OS P ++ "_" ++ showZ (fst (Date_now P w3))), s')
    /\ cachedDeviceId s'
       = Some ("Fallback_" ++ Platform_OS P ++ "_" ++ showZ (fst (Date_now P w3)))
    /\ calls s'
       = (calls s ++ [CStorageGet DEVICE_ID_KEY; CCollectDeviceInfo;
                      CStorageSet DEVICE_ID_KEY (deviceIdOf info); CDateNow])%list.
Proof.
  destruct s as [r pi ip cd dl tm co ca w0]; cbn [world calls cachedDeviceId].
  intros Hc Hg Hs Hi Hw.
  unfold getDeviceId, console_log, console_warn. run.
  destruct dl; run; rewrite generateDeviceId_runs; run;
    destruct (Date_now P w3) as [now w4]; run;
    eexists; (split; [reflexivity |]); cbn [cachedDeviceId calls world];
    repeat split; tidy.
Qed.

(** X12. When the storage read is rejected, [getDeviceId] makes no
    attempt to derive or to write: it returns and caches the fallback. *)
Theorem getDeviceId_read_rejected (s : State W) e w1 :
  truthyStr (cachedDeviceId s) = false ->
  AsyncStorage_getItem P DEVICE_ID_KEY (world s) = (Throw e, w1) ->
  exists s',
    getDeviceId P s
      = (Ok ("Fallback_" ++ Platform_OS P ++ "_" ++ showZ (fst (Date_now P w1))), s')
    /\ cachedDeviceId s'
       = Some ("Fallback_" ++ Platform_OS P ++ "_" ++ showZ (fst (Date_now P w1)))
    /\ calls s' = (calls s ++ [CStorageGet DEVICE_ID_KEY; CDateNow])%list.
Proof.
  destruct s as [r pi ip cd dl tm co ca w0]; cbn [world calls cachedDeviceId].
  intros Hc Hg.
  unfold getDeviceId, console_log, console_warn. run.
  destruct (Date_now P w1) as [now w4]; run.
  eexists; (split; [reflexivity |]); cbn [cachedDeviceId calls world];
    repeat split; tidy.
Qed.
End IdentifierStore.

(** ** The identifier store on the simulated device *)

Lemma storeDeviceId_then_getDeviceId_witness :
  exists s',
    (storeDeviceId sim "Acme_Model1_iOS" ;; getDeviceId sim) (initialState idleDevice)
      = (Ok "Acme_Model1_iOS", s')
    /\ cachedDeviceId s' = Some "Acme_Model1_iOS"
    /\ calls s'
       = (calls (initialState idleDevice)
          ++ [CStorageSet DEVICE_ID_KEY "Acme_Model1_iOS"])%list
    /\ world s'
       = mkSim true true 0 [] [] [(DEVICE_ID_KEY, "Acme_Model1_iOS")] acmeInfo []
               1700000000000.
Proof.
  apply (storeDeviceId_then_getDeviceId sim (initialState idleDevice)
           "Acme_Model1_iOS");
    vm_compute; reflexivity.
Defined.

Lemma storeDeviceId_rejected_witness :
  exists s',
    storeDeviceId fullStorage "Acme_Model1_iOS" resolvedOnce = (Ok tt, s')
    /\ cachedDeviceId s' = cachedDeviceId resolvedOnce
    /\ deviceIdLogged s' = deviceIdLogged resolvedOnce
    /\ anomalies (console s')
       = (anomalies (console resolvedOnce)
          ++ [(LError, "Failed to store device ID:")])%list.
Proof.
  apply (storeDeviceId_rejected fullStorage resolvedOnce "Acme_Model1_iOS"
           (mkError "Failed to write to storage") (world resolvedOnce)).
  vm_compute; reflexivity.
Defined.

Lemma getDeviceId_first_derivation_witness :
  exists s',
    getDeviceId sim (initialState idleDevice) = (Ok (deviceIdOf acmeInfo), s')
    /\ cachedDeviceId s' = Some (deviceIdOf acmeInfo)
    /\ calls s'
       = (calls (initialState idleDevice)
          ++ [CStorageGet DEVICE_ID_KEY; CCollectDeviceInfo;
              CStorageSet DEVICE_ID_KEY (deviceIdOf acmeInfo)])%list
    /\ world s'
       = mkSim true true 0 [] [] [(DEVICE_ID_KEY, "Acme_Model1_iOS")] acmeInfo []
               1700000000000.
Proof.
  apply (getDeviceId_first_derivation sim (initialState idleDevice) None idleDevice
           acmeInfo idleDevice);
    vm_compute; reflexivity.
Defined.

Lemma getDeviceId_write_rejected_witness :
  exists s',
    getDeviceId fullStorage (initialState idleDevice)
      = (Ok ("Fallback_" ++ Platform_OS fullStorage ++ "_"
             ++ showZ (fst (Date_now fullStorage idleDevice))), s')
    /\ cachedDeviceId s'
       = Some ("Fallback_" ++ Platform_OS fullStorage ++ "_"
               ++ showZ (fst (Date_now fullStorage idleDevice)))
    /\ calls s'
       = (calls (initialState idleDevice)
          ++ [CStorageGet DEVICE_ID_KEY; CCollectDeviceInfo;
              CStorageSet DEVICE_ID_KEY (deviceIdOf acmeInfo); CDateNow])%list.
Proof.
  apply (getDeviceId_write_rejected fullStorage (initialState idleDevice) None
           idleDevice acmeInfo idleDevice (mkError "Failed to write to storage")
           idleDevice);
    vm_compute; reflexivity.
Defined.

Lemma getDeviceId_read_rejected_witness :
  exists s',
    getDeviceId lockedStorage (initialState idleDevice)
      = (Ok ("Fallback_" ++ Platform_OS lockedStorage ++ "_"
             ++ showZ (fst (Date_now lockedStorage idleDevice))), s')
    /\ cachedDeviceId s'
       = Some ("Fallback_" ++ Platform_OS lockedStorage ++ "_"
               ++ showZ (fst (Date_now lockedStorage idleDevice)))
    /\ calls s'
       = (calls (initialState idleDevice) ++ [CStorageGet DEVICE_ID_KEY; CDateNow])%list.
Proof.
  apply (getDeviceId_read_rejected lockedStorage (initialState idleDevice)
           (mkError "Failed to read from storage") idleDevice);
    vm_compute; reflexivity.
Defined.

(** * The polling loop *)

Section GeneralFrames.
Context {W : Type} (P : Platform W).

Lemma await_ignored {A B} (f : State W -> B) c (op : W -> Completion A * W) :
  ignoresEngine f -> preserves f (await c op).
Proof.
  intros Hf [r pi ip cd dl tm co ca w]. unfold await. cbn [world].
  destruct (op w). cbn [snd afterCall]. apply Hf.
Qed.

Lemma perform_ignored {A B} (f : State W -> B) c (op : W -> A * W) :
  ignoresEngine f -> preserves f (perform c op).
Proof.
  intros Hf [r pi ip cd dl tm co ca w]. unfold perform. cbn [world].
  destruct (op w). cbn [snd afterCall]. apply Hf.
Qed.

Lemma consoleAt_ignored {B} (f : State W -> B) l t :
  ignoresEngine f -> preserves f (consoleAt l t).
Proof. intros Hf [r pi ip cd dl tm co ca w]. apply Hf. Qed.

Lemma setRecording_ignored {B} (f : State W -> B) x :
  ignoresEngine f -> preserves f (setRecording x).
Proof. intros Hf [r pi ip cd dl tm co ca w]. apply Hf. Qed.

Lemma setTimeout_ignored {B} (f : State W -> B) t d :
  ignoresEngine f -> preserves f (setTimeout t d).
Proof. intros Hf [r pi ip cd dl tm co ca w]. apply Hf. Qed.

Lemma newRecording_ignored {B} (f : State W -> B) :
  ignoresEngine f -> preserves f (newRecording P).
Proof.
  intros Hf [r pi ip cd dl tm co ca w]. unfold newRecording. cbn [world].
  destruct (Audio_Recording_new P w). cbn [snd afterCall]. apply Hf.
Qed.

Lemma setCachedDeviceId_ignored {B} (f : State W -> B) c :
  ignoresCache f -> preserves f (setCachedDeviceId c).
Proof. intros Hf [r pi ip cd dl tm co ca w]. apply Hf. Qed.

Lemma setDeviceIdLogged_ignored {B} (f : State W -> B) b :
  ignoresCache f -> preserves f (setDeviceIdLogged b).
Proof. intros Hf [r pi ip cd dl tm co ca w]. apply Hf. Qed.

Lemma settled_ignored {A B} (f : State W -> B) (x : Completion A) :
  preserves f (fun s => (x, s)).
Proof. intros s. reflexivity. Qed.

Lemma await_ownFetches {A} c (op : W -> Completion A * W) :
  isFetchCall c = false -> preserves ownFetches (await c op).
Proof.
  intros Hc [r pi ip cd dl tm co ca w]. unfold await, ownFetches. cbn [world].
  destruct (op w). cbn [snd afterCall calls].
  rewrite filter_app. cbn [filter]. rewrite Hc. apply app_nil_r.
Qed.

Lemma perform_ownFetches {A} c (op : W -> A * W) :
  isFetchCall c = false -> preserves ownFetches (perform c op).
Proof.
  intros Hc [r pi ip cd dl tm co ca w]. unfold perform, ownFetches. cbn [world].
  destruct (op w). cbn [snd afterCall calls].
  rewrite filter_app. cbn [filter]. rewrite Hc. apply app_nil_r.
Qed.

Lemma newRecording_ownFetches : preserves ownFetches (newRecording P).
Proof.
  intros [r pi ip cd dl tm co ca w]. unfold newRecording, ownFetches. cbn [world].
  destruct (Audio_Recording_new P w). cbn [snd afterCall calls].
  rewrite filter_app. apply app_nil_r.
Qed.

Lemma consoleAt_ownFetches l t : preserves ownFetches (@consoleAt W l t).
Proof. intros s. reflexivity. Qed.

Lemma setRecording_ownFetches x : preserves ownFetches (@setRecording W x).
Proof. intros s. reflexivity. Qed.

Lemma setTimeout_ownFetches t d : preserves ownFetches (@setTimeout W t d).
Proof. intros s. reflexivity. Qed.
End GeneralFrames.

Ltac ignores := solve [repeat intro; reflexivity].

(** Decomposes a frame goal of the command dispatch. *)
Ltac keeps_step :=
  lazymatch goal with
  | |- preserves _ (bind _ _) => apply preserves_bind; [| intros ?]
  | |- preserves _ (tryCatch _ _) => apply preserves_tryCatch; [| intros ?]
  | |- preserves _ (ret _) => apply preserves_ret
  | |- preserves _ (throw _) => apply preserves_throw
  | |- preserves _ getState => apply preserves_getState
  | |- preserves ownFetches (await _ _) => apply await_ownFetches; reflexivity
  | |- preserves ownFetches (perform _ _) => apply perform_ownFetches; reflexivity
  | |- preserves ownFetches (consoleAt _ _) => apply consoleAt_ownFetches
  | |- preserves ownFetches (setRecording _) => apply setRecording_ownFetches
  | |- preserves ownFetches (setTimeout _ _) => apply setTimeout_ownFetches
  | |- preserves ownFetches (newRecording _) => apply newRecording_ownFetches
  | |- preserves _ (await _ _) => apply await_ignored; ignores
  | |- preserves _ (perform _ _) => apply perform_ignored; ignores
  | |- preserves _ (consoleAt _ _) => apply consoleAt_ignored; ignores
  | |- preserves _ (setRecording _) => apply setRecording_ignored; ignores
  | |- preserves _ (setTimeout _ _) => apply setTimeout_ignored; ignores
  | |- preserves _ (newRecording _) => apply newRecording_ignored; ignores
  | |- preserves _ (setCachedDeviceId _) => apply setCachedDeviceId_ignored; ignores
  | |- preserves _ (setDeviceIdLogged _) => apply setDeviceIdLogged_ignored; ignores
  | |- preserves _ (match ?x with _ => _ end) => destruct x
  | |- preserves _ (fun s => (_, s)) => apply settled_ignored
  | |- preserves _ _ => progress cbv beta zeta
  end.

Ltac keeps := repeat keeps_step.

Ltac unfold_dispatch :=
  unfold handleResponse, readCommandData, processData, dispatchAction,
    triggerRecording, stopRecording, startRecording, startRecordingCatch,
    inspectExisting, startFresh, cleanupRecording, onRecording, readIsRecording,
    notifyRecordingStatus, typeError, when, fetchCatch, checkCatch,
    console_log, console_warn, console_error.

Section PollingLoop.
Context {W : Type} (P : Platform W).

Lemma handleResponse_cachedDeviceId response b :
  preserves cachedDeviceId (handleResponse P response b).
Proof. unfold_dispatch. keeps. Qed.

Lemma handleResponse_ownFetches response b :
  preserves ownFetches (handleResponse P response b).
Proof. unfold_dispatch. keeps. Qed.

Lemma checkForCommands_pollingFlags : preserves pollingFlags (checkForCommands P).
Proof.
  unfold checkForCommands, getDeviceId, generateDeviceId. unfold_dispatch. keeps.
Qed.

Lemma getDeviceId_pollingFlags : preserves pollingFlags (getDeviceId P).
Proof.
  unfold getDeviceId, generateDeviceId, console_log, console_warn, console_error.
  keeps.
Qed.
End PollingLoop.

Section PollingLifecycle.
Context {W : Type} (P : Platform W).

Lemma startCommandPolling_already (s : State W) :
  isPolling s = true ->
  startCommandPolling P s
    = (Ok tt, logged [(LLog, "Command polling already active")] s).
Proof.
  destruct s as [r pi ip cd dl tm co ca w]; cbn [isPolling]; intros ->. reflexivity.
Qed.

Lemma startCommandPolling_run (s : State W) :
  isPolling s = false ->
  exists s',
    startCommandPolling P s = (Ok tt, s')
    /\ isPolling s' = true
    /\ pollingInterval s' = Some 2000.
Proof.
  destruct s as [r pi ip cd dl tm co ca w]; cbn [isPolling]; intros ->.
  unfold startCommandPolling, startCommandPollingWith, console_log. ev.
  match goal with
  | |- context [getDeviceId P ?s0] =>
      destruct (getDeviceId_result P s0) as [id [s1 [E1 _]]]; rewrite E1
  end.
  destruct s1 as [r1 pi1 ip1 cd1 dl1 tm1 co1 ca1 w1]. ev.
  match goal with
  | |- context [checkForCommands P ?s2] =>
      destruct (checkForCommands_total P s2) as [[] [s3 E3]];
      pose proof (checkForCommands_pollingFlags P s2) as F3;
      rewrite E3 in F3 |- *; cbn [snd] in F3
  end.
  destruct s3 as [r3 pi3 ip3 cd3 dl3 tm3 co3 ca3 w3]. ev.
  unfold pollingFlags in F3. cbn [pollingInterval isPolling] in F3.
  inversion F3; subst.
  eexists. repeat split.
Qed.

(** X15. Activating the polling loop: from a state that is not polling,
    [startCommandPolling] completes normally whatever the first poll
    receives or dispatches, and leaves the loop marked active with the
    2000 ms interval installed. *)
Theorem startCommandPolling_activates (s : State W) :
  isPolling s = false ->
  exists s',
    startCommandPolling P s = (Ok tt, s')
    /\ isPolling s' = true
    /\ pollingInterval s' = Some pollPeriod.
Proof. exact (startCommandPolling_run s). Qed.

(** X16. Activating twice installs one interval: after any call of
    [startCommandPolling], a second call makes no call to the platform
    and changes nothing but the console. *)
Theorem startCommandPolling_twice (s : State W) :
  startCommandPolling P (snd (startCommandPolling P s))
    = (Ok tt,
       logged [(LLog, "Command polling already active")]
         (snd (startCommandPolling P s))).
Proof.
  apply startCommandPolling_already.
  destruct (isPolling s) eqn:Hp.
  - rewrite (startCommandPolling_already s Hp). destruct s; exact Hp.
  - destruct (startCommandPolling_run s Hp) as [s' [E [H _]]].
    rewrite E. exact H.
Qed.

(** X17. Stopping the loop clears the interval and the active flag, and
    leaves the recording handle, the pending auto-stop timers and the
    cached identifier as they are; the loop can then be activated again. *)
Theorem stopCommandPolling_then_restart (s : State W) :
  fst (stopCommandPolling s) = Ok tt
  /\ pollingFlags (snd (stopCommandPolling s)) = (None, false)
  /\ recording (snd (stopCommandPolling s)) = recording s
  /\ timers (snd (stopCommandPolling s)) = timers s
  /\ cachedDeviceId (snd (stopCommandPolling s)) = cachedDeviceId s
  /\ calls (snd (stopCommandPolling s)) = calls s
  /\ exists s',
       startCommandPolling P (snd (stopCommandPolling s)) = (Ok tt, s')
       /\ pollingFlags s' = (Some pollPeriod, true).
Proof.
  assert (H : fst (stopCommandPolling s) = Ok tt
              /\ pollingFlags (snd (stopCommandPolling s)) = (None, false)
              /\ recording (snd (stopCommandPolling s)) = recording s
              /\ timers (snd (stopCommandPolling s)) = timers s
              /\ cachedDeviceId (snd (stopCommandPolling s)) = cachedDeviceId s
              /\ calls (snd (stopCommandPolling s)) = calls s).
  { destruct s as [r [p |] ip cd dl tm co ca w];
      unfold stopCommandPolling, console_log; ev; repeat split. }
  destruct H as [H1 [H2 [H3 [H4 [H5 H6]]]]].
  repeat (split; [assumption |]).
  destruct (startCommandPolling_run (snd (stopCommandPolling s))) as [s' [E [A B]]].
  { unfold pollingFlags in H2. inversion H2. reflexivity. }
  exists s'. split; [exact E |]. unfold pollingFlags. rewrite A, B. reflexivity.
Qed.

(** A poll cycle with an identifier in the cache. *)
Lemma checkForCommands_cached (s : State W) (id : string) :
  cachedDeviceId s = Some id ->
  String.eqb id "" = false ->
  exists s',
    checkForCommands P s = (Ok tt, s')
    /\ cachedDeviceId s' = Some id
    /\ ownFetches s'
       = (ownFetches s
          ++ [CFetch (BASE_URL ++ "/api/command/" ++ encodeURIComponent P id)])%list.
Proof.
  intros Hc Hid. unfold checkForCommands.
  unfold tryCatch at 1. unfold bind at 1.
  rewrite (getDeviceId_cached P s id Hc Hid).
  destruct s as [r pi ip cd dl tm co ca w]; cbn [cachedDeviceId] in Hc; subst cd.
  unfold bind at 1, perform. cbn [world].
  destruct (Math_random P w) as [rnd w1]. cbn [afterCall].
  destruct (below rnd (5 # 100)); unfold when, console_log; ev;
    (match goal with
     | |- context [fetch P ?u w1] => destruct (fetch P u w1) as [[resp | e] w2]
     end; ev;
     [ match goal with
       | |- context [handleResponse P ?rs ?bb ?s0] =>
           pose proof (handleResponse_cachedDeviceId P rs bb s0) as C;
           pose proof (handleResponse_ownFetches P rs bb s0) as F;
           destruct (handleResponse P rs bb s0) as [[[] | e] s3];
           cbn [snd] in C, F;
           [ | rewrite fetchCatch_runs ]
       end;
       destruct s3 as [r3 pi3 ip3 cd3 dl3 tm3 co3 ca3 w3];
       unfold ownFetches in *; cbn [cachedDeviceId calls networkFailure logged] in *;
       eexists; (split; [reflexivity |]);
       cbn [cachedDeviceId calls networkFailure logged];
       (split; [exact C |]); rewrite F;
       repeat rewrite filter_app; cbn [filter isFetchCall];
       rewrite ?app_nil_r; reflexivity
     | unfold fetchCatch, console_error; ev;
       eexists; (split; [reflexivity |]); unfold ownFetches; cbn [cachedDeviceId calls];
       (split; [reflexivity |]);
       repeat rewrite filter_app; cbn [filter isFetchCall];
       rewrite ?app_nil_r; reflexivity ]).
Qed.

(** X18. With an identifier in the cache, a poll cycle completes
    normally and sends one request of its own, to the command endpoint
    of that identifier, whatever the response is and whatever is
    dispatched; the cached identifier is the same afterwards.  (What a
    dispatched start or stop sends through the event and upload services
    is not counted: see [ownFetches].) *)
Theorem checkForCommands_addresses_cached_id (s : State W) (id : string) :
  cachedDeviceId s = Some id ->
  String.eqb id "" = false ->
  exists s',
    checkForCommands P s = (Ok tt, s')
    /\ cachedDeviceId s' = Some id
    /\ ownFetches s'
       = (ownFetches s
          ++ [CFetch (BASE_URL ++ "/api/command/" ++ encodeURIComponent P id)])%list.
Proof. exact (checkForCommands_cached s id). Qed.
End PollingLifecycle.

Lemma startCommandPolling_activates_witness :
  exists s',
    startCommandPolling sim (initialState idleDevice) = (Ok tt, s')
    /\ isPolling s' = true
    /\ pollingInterval s' = Some pollPeriod.
Proof.
  apply (startCommandPolling_activates sim (initialState idleDevice)). reflexivity.
Defined.

Lemma checkForCommands_addresses_cached_id_witness :
  exists s',
    checkForCommands sim resolvedOnce = (Ok tt, s')
    /\ cachedDeviceId s' = Some "Acme_Model1_iOS"
    /\ ownFetches s'
       = (ownFetches resolvedOnce
          ++ [CFetch (BASE_URL ++ "/api/command/"
                      ++ encodeURIComponent sim "Acme_Model1_iOS")])%list.
Proof.
  apply (checkForCommands_addresses_cached_id sim resolvedOnce "Acme_Model1_iOS");
    vm_compute; reflexivity.
Defined.

(** * Upload identity and the connectivity diagnostic *)

Section UploadIdentity.
Context {W : Type} (P : Platform W).

(** X19. Uploads and polling resolve the same identifier: from a state
    with nothing cached, [resolvePhoneId] and [getDeviceId] make the same
    storage and metadata calls and leave the same world.  When none of
    these calls rejects, both return the same string: the stored
    identifier, or with nothing stored the one derived from the metadata
    and written.  When one rejects, and only then, they differ:
    [getDeviceId] returns "Fallback_{os}_{now}" and [resolvePhoneId]
    "Unknown_Device_{now}", for the same reading [now] of the clock. *)
Theorem resolvePhoneId_agrees_with_getDeviceId (s : State W) :
  truthyStr (cachedDeviceId s) = false ->
  fst (getDeviceId P s)
    = Ok match resolution P (world s) with
         | Resolved id => id
         | Rejected now => "Fallback_" ++ Platform_OS P ++ "_" ++ showZ now
         end
  /\ fst (resolvePhoneId P s)
     = Ok match resolution P (world s) with
          | Resolved id => id
          | Rejected now => "Unknown_Device_" ++ showZ now
          end
  /\ world (snd (getDeviceId P s)) = world (snd (resolvePhoneId P s))
  /\ calls (snd (getDeviceId P s)) = calls (snd (resolvePhoneId P s))
  /\ (fst (getDeviceId P s) = fst (resolvePhoneId P s)
      <-> exists id, resolution P (world s) = Resolved id).
Proof.
  intros Hc.
  assert (H : fst (getDeviceId P s)
              = Ok match resolution P (world s) with
                   | Resolved id => id
                   | Rejected now => "Fallback_" ++ Platform_OS P ++ "_" ++ showZ now
                   end
              /\ fst (resolvePhoneId P s)
                 = Ok match resolution P (world s) with
                      | Resolved id => id
                      | Rejected now => "Unknown_Device_" ++ showZ now
                      end
              /\ world (snd (getDeviceId P s)) = world (snd (resolvePhoneId P s))
              /\ calls (snd (getDeviceId P s)) = calls (snd (resolvePhoneId P s))).
  { destruct s as [r pi ip cd dl tm co ca w]; cbn [cachedDeviceId] in Hc.
    unfold getDeviceId, resolvePhoneId, resolution, console_log, console_warn,
      console_error.
    ev. rewrite Hc. ev.
    destruct (AsyncStorage_getItem P DEVICE_ID_KEY w) as [[stored | e] w1]; ev.
    - destruct (truthyStr stored) eqn:Hs; ev.
      + destruct dl; ev; repeat split.
      + destruct dl; ev;
          (destruct (collectDeviceInfo P w1) as [[info | e] w2]; ev;
           [ rewrite !generateDeviceId_runs; ev;
             match goal with
             | |- context [AsyncStorage_setItem P ?k ?v ?w] =>
                 destruct (AsyncStorage_setItem P k v w) as [[[] | e] w3]; ev
             end;
             [ repeat split | ]
           | ]);
          match goal with
          | |- context [Date_now P ?w] => destruct (Date_now P w) as [now w9]; ev
          end; repeat split.
    - destruct (Date_now P w1) as [now w9]; ev. repeat split. }
  destruct H as [Hg [Hr [Hw Hk]]].
  repeat (split; [assumption |]).
  rewrite Hg, Hr.
  destruct (resolution P (world s)) as [id | now]; split.
  - intros _. eauto.
  - reflexivity.
  - intros E. inversion E.
  - intros [id E]. discriminate E.
Qed.
End UploadIdentity.

Ltac verdict :=
  repeat split; auto; try discriminate;
  try (left; tidy; fail); try (right; tidy; fail).

Section ConnectivityFacts.
Context {W : Type} (P : Platform W).

(** X20. The connectivity diagnostic never throws; it reports success
    exactly when the health endpoint answers 2xx with a JSON body and the
    command endpoint answers 200 with a JSON body that is not an HTML
    page; it makes one or two [fetch] calls and no other call, and leaves
    the recording handle, the timers, the polling flags and the cached
    identifier alone. *)
Theorem testBackendConnectivity_verdict (s : State W) :
  exists r s',
    testBackendConnectivity P s = (Ok r, s')
    /\ connected r = backendAnswers P (world s)
    /\ (connected r = true -> connectivityError r = None)
    /\ (calls s' = (calls s ++ [CFetch healthUrl])%list
        \/ calls s' = (calls s ++ [CFetch healthUrl; CFetch (testUrl P)])%list)
    /\ recording s' = recording s
    /\ timers s' = timers s
    /\ pollingFlags s' = pollingFlags s
    /\ cachedDeviceId s' = cachedDeviceId s.
Proof.
  destruct s as [r pi ip cd dl tm co ca w].
  unfold testBackendConnectivity, testHealth, testCommandEndpoint, responseJson,
    backendAnswers, parses, console_log, console_warn, console_error.
  cbn [world].
  ev.
  destruct (fetch P healthUrl w) as [[health | e] w1]; ev.
  2: { do 2 eexists. split; [reflexivity |]. cbn.
       verdict. }
  destruct (respOk health); ev.
  2: { do 2 eexists. split; [reflexivity |]. cbn.
       verdict. }
  destruct (respText health) as [htext | e]; ev.
  2: { do 2 eexists. split; [reflexivity |]. cbn.
       verdict. }
  destruct (JSON_parse P htext) as [hdata |]; ev.
  2: { do 2 eexists. split; [reflexivity |]. cbn.
       verdict. }
  destruct (fetch P (testUrl P) w1) as [[command | e] w2]; ev.
  2: { do 2 eexists. split; [reflexivity |]. cbn.
       verdict. }
  destruct (respText command) as [ctext | e]; ev.
  2: { do 2 eexists. split; [reflexivity |]. cbn.
       verdict. }
  destruct (isHtml ctext); ev.
  { do 2 eexists. split; [reflexivity |]. cbn.
    verdict. }
  destruct (respStatus command =? 200); ev.
  2: { do 2 eexists. split; [reflexivity |]. cbn.
       verdict. }
  destruct (JSON_parse P ctext) as [cdata |]; ev;
    do 2 eexists; (split; [reflexivity |]); cbn;
    verdict.
Qed.
End ConnectivityFacts.

Lemma resolvePhoneId_agrees_with_getDeviceId_witness :
  resolution sim idleDevice = Resolved "Acme_Model1_iOS"
  /\ resolution fullStorage idleDevice = Rejected 1700000000000
  /\ fst (getDeviceId sim (initialState idleDevice)) = Ok "Acme_Model1_iOS"
  /\ fst (resolvePhoneId sim (initialState idleDevice)) = Ok "Acme_Model1_iOS"
  /\ fst (getDeviceId fullStorage (initialState idleDevice))
     = Ok "Fallback_ios_1700000000000"
  /\ fst (resolvePhoneId fullStorage (initialState idleDevice))
     = Ok "Unknown_Device_1700000000000".
Proof.
  split; [reflexivity |]. split; [reflexivity |].
  destruct (resolvePhoneId_agrees_with_getDeviceId sim (initialState idleDevice)
              eq_refl) as [Hg [Hr _]].
  destruct (resolvePhoneId_agrees_with_getDeviceId fullStorage (initialState idleDevice)
              eq_refl) as [Hg' [Hr' _]].
  split; [exact Hg |]. split; [exact Hr |]. split; [exact Hg' | exact Hr'].
Defined.

(** * Interval recording *)

Ltac evi :=
  cbv [bindI retI tryCatchI liftI getIntervalState setIsIntervalRecordingActive
       setIntervalRecordingTimer setStopTimeout intervalRecordingTimer
       isIntervalRecordingActive stopTimeouts engine nonNull negb andb
       consoleAt console_log console_warn console_error
       recording pollingInterval isPolling cachedDeviceId deviceIdLogged timers
       console calls world fst snd].

Section IntervalFacts.
Context {W : Type} (P : Platform W).

(** X21. [stopIntervalRecording] always completes, and afterwards the
    status object reads inactive, without timer and not recording,
    whatever the recorder and the upload did; the stop timeouts that were
    pending are not cancelled, and no auto-stop timer is added. *)
Theorem stopIntervalRecording_resets (v : IntervalState W) :
  exists v',
    stopIntervalRecording P v = (Ok tt, v')
    /\ getIntervalRecordingStatus v' = mkIntervalStatus false false false
    /\ stopTimeouts v' = stopTimeouts v
    /\ timers (engine v') = timers (engine v).
Proof.
  destruct v as [it ia st [r pi ip cd dl tm co ca w]].
  unfold stopIntervalRecording, getIntervalRecordingStatus.
  destruct it as [t |], r as [h |]; evi;
    try (eexists; repeat split; fail);
    match goal with
    | |- context [stopRecording P ?s0] =>
        pose proof (stopRecording_clears P s0) as H;
        destruct (stopRecording P s0) as [[u | e] s1]; [| contradiction]
    end;
    destruct H as [H1 H2]; destruct s1 as [r1 pi1 ip1 cd1 dl1 tm1 co1 ca1 w1];
    cbn [recording timers] in H1, H2; subst; evi; eexists; repeat split.
Qed.

(** X22. [stopIntervalRecording] leaves the module inactive, and while
    the module is inactive, that is until [startIntervalRecording] is
    called again, what is still scheduled is inert: a pending stop timeout
    and a tick of the interval callback both return without a call to the
    platform and without changing the state.  The timeouts are not
    cancelled: once the module is active again, a stop timeout left from
    before stops the recording that is then held. *)
Theorem stopIntervalRecording_disarms (v : IntervalState W) (d : Z) :
  isIntervalRecordingActive (snd (stopIntervalRecording P v)) = false
  /\ (forall v' : IntervalState W,
        isIntervalRecordingActive v' = false ->
        stopTimeoutCallback P v' = (Ok tt, v')
        /\ recordingFunction P d v' = (Ok tt, v'))
  /\ (forall v' : IntervalState W,
        isIntervalRecordingActive v' = true ->
        recording (engine v') <> None ->
        fst (stopTimeoutCallback P v') = Ok tt
        /\ recording (engine (snd (stopTimeoutCallback P v'))) = None).
Proof.
  split; [| split].
  - destruct v as [it ia st [r pi ip cd dl tm co ca w]].
    unfold stopIntervalRecording.
    destruct it as [t |], r as [h |]; evi; try reflexivity;
      match goal with
      | |- context [stopRecording P ?s0] =>
          destruct (stopRecording P s0) as [[u | e] s1]; reflexivity
      end.
  - intros [it ia st [r pi ip cd dl tm co ca w]].
    cbn [isIntervalRecordingActive]. intros ->.
    unfold stopTimeoutCallback, recordingFunction.
    destruct r; evi; split; reflexivity.
  - intros [it ia st [r pi ip cd dl tm co ca w]].
    cbn [isIntervalRecordingActive engine recording]. intros -> Hr.
    destruct r as [h |]; [| contradiction].
    unfold stopTimeoutCallback. evi.
    match goal with
    | |- context [stopRecording P ?s0] =>
        pose proof (stopRecording_clears P s0) as H;
        destruct (stopRecording P s0) as [[u | e] s1]; [| contradiction]
    end.
    destruct H as [H _]. destruct s1. evi. split; [reflexivity | exact H].
Qed.

(** X23. Activating interval recording: from the inactive state,
    [startIntervalRecording] completes, marks the module active and
    installs the interval with the given period.  When no handle is held
    it runs [startRecording] and registers the stop timeout after
    [durationSeconds] seconds, also when the start reports a failure; when
    a handle is held it skips the first recording: no call, no timeout. *)
Theorem startIntervalRecording_activates (intervalMinutes durationSeconds : Z)
    (v : IntervalState W) :
  isIntervalRecordingActive v = false ->
  exists v',
    startIntervalRecording P intervalMinutes durationSeconds v = (Ok tt, v')
    /\ isIntervalRecordingActive v' = true
    /\ intervalRecordingTimer v'
       = Some (mkIntervalTimer (intervalMinutes * 60 * 1000) durationSeconds)
    /\ (recording (engine v) = None ->
        stopTimeouts v' = (stopTimeouts v ++ [durationSeconds * 1000])%list
        /\ exists r s0,
             startRecording P
               (logged [(LLog, "Starting interval recording: every "
                               ++ showZ intervalMinutes ++ " minutes for "
                               ++ showZ durationSeconds ++ " seconds");
                        (LLog, "Starting automatic recording...")] (engine v))
               = (Ok r, s0)
             /\ engine v' = s0)
    /\ (recording (engine v) <> None ->
        stopTimeouts v' = stopTimeouts v
        /\ calls (engine v') = calls (engine v)
        /\ recording (engine v') = recording (engine v)).
Proof.
  destruct v as [it ia st [r pi ip cd dl tm co ca w]].
  cbn [isIntervalRecordingActive]. intros ->.
  unfold startIntervalRecording, recordingFunction.
  destruct r as [h |]; evi.
  - eexists. repeat split; congruence.
  - match goal with
    | |- context [startRecording P ?s0] =>
        destruct (startRecording_total P s0) as [res [s1 E]]
    end.
    unfold logged. cbn [console calls recording pollingInterval isPolling
                        cachedDeviceId deviceIdLogged timers world app].
    unfold LogEntry in *. rewrite <- app_assoc in *. cbn [app] in *.
    rewrite E. evi.
    eexists. (split; [reflexivity |]). cbn [isIntervalRecordingActive
      intervalRecordingTimer stopTimeouts engine recording].
    split; [reflexivity |]. split; [reflexivity |].
    split; [| congruence].
    intros _. split; [reflexivity |]. exists res, s1. split; reflexivity.
Qed.

(** X24. Activating while active does nothing: a second
    [startIntervalRecording] installs no second interval, starts nothing
    and only writes one console line. *)
Theorem startIntervalRecording_twice (m d m' d' : Z) (v : IntervalState W) :
  exists v1 v2,
    startIntervalRecording P m d v = (Ok tt, v1)
    /\ startIntervalRecording P m' d' v1 = (Ok tt, v2)
    /\ intervalRecordingTimer v2 = intervalRecordingTimer v1
    /\ stopTimeouts v2 = stopTimeouts v1
    /\ recording (engine v2) = recording (engine v1)
    /\ calls (engine v2) = calls (engine v1)
    /\ isIntervalRecordingActive v2 = true.
Proof.
  assert (A : forall v1 : IntervalState W,
             isIntervalRecordingActive v1 = true ->
             exists v2,
               startIntervalRecording P m' d' v1 = (Ok tt, v2)
               /\ intervalRecordingTimer v2 = intervalRecordingTimer v1
               /\ stopTimeouts v2 = stopTimeouts v1
               /\ recording (engine v2) = recording (engine v1)
               /\ calls (engine v2) = calls (engine v1)
               /\ isIntervalRecordingActive v2 = true).
  { intros [it1 ia1 st1 [r1 pi1 ip1 cd1 dl1 tm1 co1 ca1 w1]].
    cbn [isIntervalRecordingActive]. intros ->.
    unfold startIntervalRecording. evi. eexists. repeat split. }
  assert (B : exists v1, startIntervalRecording P m d v = (Ok tt, v1)
                         /\ isIntervalRecordingActive v1 = true).
  { destruct v as [it ia st [r pi ip cd dl tm co ca w]].
    unfold startIntervalRecording, recordingFunction.
    destruct ia; evi; [eexists; split; reflexivity |].
    destruct r as [h |]; evi; [eexists; split; reflexivity |].
    match goal with
    | |- context [startRecording P ?s0] =>
        destruct (startRecording_total P s0) as [res [s1 E]]; rewrite E
    end.
    evi. eexists; split; reflexivity. }
  destruct B as [v1 [E1 A1]]. destruct (A v1 A1) as [v2 H].
  exists v1, v2. split; [exact E1 | exact H].
Qed.
End IntervalFacts.

Lemma startIntervalRecording_activates_witness :
  exists v',
    startIntervalRecording sim 5 30 (initialIntervalState idleDevice) = (Ok tt, v')
    /\ isIntervalRecordingActive v' = true
    /\ intervalRecordingTimer v' = Some (mkIntervalTimer (5 * 60 * 1000) 30)
    /\ (recording (engine (initialIntervalState idleDevice)) = None ->
        stopTimeouts v'
        = (stopTimeouts (initialIntervalState idleDevice) ++ [30 * 1000])%list
        /\ exists r s0,
             startRecording sim
               (logged [(LLog, "Starting interval recording: every "
                               ++ showZ 5 ++ " minutes for "
                               ++ showZ 30 ++ " seconds");
                        (LLog, "Starting automatic recording...")]
                  (engine (initialIntervalState idleDevice)))
               = (Ok r, s0)
             /\ engine v' = s0)
    /\ (recording (engine (initialIntervalState idleDevice)) <> None ->
        stopTimeouts v' = stopTimeouts (initialIntervalState idleDevice)
        /\ calls (engine v') = calls (engine (initialIntervalState idleDevice))
        /\ recording (engine v') = recording (engine (initialIntervalState idleDevice))).
Proof.
  apply (startIntervalRecording_activates sim 5 30 (initialIntervalState idleDevice)).
  reflexivity.
Defined.

(** * The retry loop of the vendor identifier *)

Ltac evu :=
  cbv [bind ret throw tryCatch queryVendorId sleep withWorld waitBeforeRetry
       consoleAt console_log console_warn console_error
       recording pollingInterval isPolling cachedDeviceId deviceIdLogged timers
       console calls world vendorEvents vendorDevice fst snd].

Lemma validated_some (o : option string) (u : string) :
  validated o = Some u -> o = Some u.
Proof.
  destruct o as [x |]; cbn [validated]; [| discriminate].
  destruct (truthyStr (Some x) && (0 <? Z.of_nat (String.length (trim x)))
            && negb (String.eqb x "Unknown iOS UUID")); congruence.
Qed.

Section IosUuidFacts.
Context {W : Type} (getIosIdForVendorAsync : W -> Completion (option string) * W).

Lemma attemptsFrom_trace (maxRetries retryDelay : Z) (n : nat) :
  forall (attempt : Z) (lastError : option JsError) (s : State (Vendor W)),
    Z.of_nat n = maxRetries - attempt + 1 ->
    exists (k : nat) exit s',
      attemptsFrom getIosIdForVendorAsync n attempt maxRetries retryDelay lastError s
        = (Ok exit, s')
      /\ (k <= n)%nat
      /\ ((1 <= n)%nat -> (1 <= k)%nat)
      /\ vendorEvents (world s')
         = (vendorEvents (world s) ++ queriesAndWaits k retryDelay)%list
      /\ match exit with
         | Returned u => validated (Some u) = Some u
         | Continue e => k = n /\ (n = O -> e = lastError)
         end.
Proof.
  induction n as [| n IH]; intros attempt lastError s Hn.
  - exists O, (Continue lastError), s. cbn. rewrite app_nil_r.
    repeat split; auto.
  - destruct s as [r pi ip cd dl tm co ca [tr w]].
    cbn [attemptsFrom]. unfold attemptOnce. evu.
    assert (Hlast : (attempt <? maxRetries) = match n with O => false | S _ => true end).
    { destruct n; [apply Z.ltb_ge | apply Z.ltb_lt]; lia. }
    assert (Hnext : Z.of_nat n = maxRetries - (attempt + 1) + 1) by lia.
    destruct (getIosIdForVendorAsync w) as [[uuid | e] w1]; evu.
    + destruct (validated uuid) as [u |] eqn:Hv; evu.
      * apply validated_some in Hv as Hu. subst uuid.
        exists 1%nat, (Returned u). eexists. split; [reflexivity |].
        cbn [world vendorEvents queriesAndWaits]. repeat split; auto; lia.
      * rewrite Hlast. destruct n as [| n]; evu.
        -- exists 1%nat. do 2 eexists. split; [reflexivity |].
           cbn [world vendorEvents queriesAndWaits]. repeat split; auto. discriminate.
        -- match goal with
           | |- context [attemptsFrom _ _ _ _ _ ?le ?s0] =>
               destruct (IH (attempt + 1) le s0 Hnext)
                 as [k [exit [s' [E [Hk [H1 [Ht Hx]]]]]]]
           end.
           exists (S k), exit, s'. split; [exact E |].
           split; [lia |]. split; [lia |].
           split.
           { etransitivity; [exact Ht |]. cbn [world vendorEvents].
             rewrite <- !app_assoc. cbn [app queriesAndWaits].
             destruct k as [| k]; [specialize (H1 ltac:(lia)); lia | reflexivity]. }
           destruct exit; [exact Hx |]. destruct Hx as [-> _].
           split; [reflexivity | discriminate].
    + rewrite Hlast. destruct n as [| n]; evu.
      * exists 1%nat. do 2 eexists. split; [reflexivity |].
        cbn [world vendorEvents queriesAndWaits]. repeat split; auto. discriminate.
      * match goal with
        | |- context [attemptsFrom _ _ _ _ _ ?le ?s0] =>
            destruct (IH (attempt + 1) le s0 Hnext)
              as [k [exit [s' [E [Hk [H1 [Ht Hx]]]]]]]
        end.
        exists (S k), exit, s'. split; [exact E |].
        split; [lia |]. split; [lia |].
        split.
        { etransitivity; [exact Ht |]. cbn [world vendorEvents].
          rewrite <- !app_assoc. cbn [app queriesAndWaits].
          destruct k as [| k]; [specialize (H1 ltac:(lia)); lia | reflexivity]. }
        destruct exit; [exact Hx |]. destruct Hx as [-> _].
        split; [reflexivity | discriminate].
Qed.

End IosUuidFacts.

(** * The dispatch of a received command *)

Lemma stop_is_not_start (a : string) :
  isStopAction a = true -> isStartAction a = false.
Proof.
  unfold isStopAction, isStartAction. intros H.
  apply orb_prop in H. destruct H as [H | H]; apply String.eqb_eq in H; subst a;
    reflexivity.
Qed.

Section DispatchFacts.
Context {W : Type} (P : Platform W).

(** X26. A stop command ends the session: for the action "stop" or
    "stop recording", the dispatch completes normally and leaves the
    module without a recording handle, whatever the recorder, the status
    queries and the upload do; it registers and cancels no auto-stop
    timer. *)
Theorem dispatchAction_stop (a : string) (ds : option Z) (s : State W) :
  isStopAction a = true ->
  exists s',
    dispatchAction P a ds s = (Ok tt, s')
    /\ recording s' = None
    /\ timers s' = timers s.
Proof.
  intros Hstop. unfold dispatchAction.
  rewrite (stop_is_not_start a Hstop), Hstop.
  destruct s as [r pi ip cd dl tm co ca w]. unfold console_log, console_error. ev.
  match goal with
  | |- context [stopRecording P ?s0] =>
      pose proof (stopRecording_clears P s0) as H;
      destruct (stopRecording P s0) as [[u | e] s1]; [| contradiction]
  end.
  destruct H as [H1 H2]. destruct s1 as [r1 pi1 ip1 cd1 dl1 tm1 co1 ca1 w1].
  cbn [recording timers] in H1, H2. subst.
  destruct (truthyStr u); ev; eexists; repeat split.
Qed.
End DispatchFacts.

Lemma dispatchAction_stop_witness :
  exists s',
    dispatchAction sim "stop" None recordingSession = (Ok tt, s')
    /\ recording s' = None
    /\ timers s' = timers recordingSession.
Proof.
  apply (dispatchAction_stop sim "stop" None recordingSession). reflexivity.
Defined.

(** * The identifier across a process *)

Section ProcessIdentity.
Context {W : Type} (P : Platform W).

Lemma startRecording_cachedDeviceId : preserves cachedDeviceId (startRecording P).
Proof. unfold_dispatch. keeps. Qed.

Lemma stopRecording_cachedDeviceId : preserves cachedDeviceId (stopRecording P).
Proof. unfold_dispatch. keeps. Qed.

Lemma triggerRecording_cachedDeviceId t d :
  preserves cachedDeviceId (triggerRecording P t d).
Proof. unfold_dispatch. keeps. Qed.

Lemma fireTimer_cachedDeviceId n : preserves cachedDeviceId (fireTimer P n).
Proof.
  intros [r pi ip cd dl tm co ca w]. unfold fireTimer. ev.
  destruct (nth_error tm n) as [[[t d] ms] |]; [| reflexivity].
  ev. cbn [runTimer task].
  match goal with
  | |- context [autoStopCallback P ?t ?d ?sx] =>
      assert (H : preserves cachedDeviceId (autoStopCallback P t d))
        by (unfold autoStopCallback, promiseCatch; unfold_dispatch; keeps);
      exact (H sx)
  end.
Qed.

Lemma resolvePhoneId_cachedDeviceId : preserves cachedDeviceId (resolvePhoneId P).
Proof.
  unfold resolvePhoneId, generateDeviceId, console_log, console_warn, console_error.
  keeps.
Qed.

Lemma testBackendConnectivity_cachedDeviceId :
  preserves cachedDeviceId (testBackendConnectivity P).
Proof.
  unfold testBackendConnectivity, testHealth, testCommandEndpoint, responseJson,
    console_log, console_warn, console_error.
  keeps.
Qed.

Lemma startCommandPolling_cached (s : State W) id :
  cachedDeviceId s = Some id ->
  String.eqb id "" = false ->
  cachedDeviceId (snd (startCommandPolling P s)) = Some id.
Proof.
  intros Hc Hid.
  destruct s as [r pi ip cd dl tm co ca w]. cbn [cachedDeviceId] in Hc. subst cd.
  unfold startCommandPolling, startCommandPollingWith, console_log. ev.
  destruct ip; [reflexivity |].
  match goal with
  | |- context [getDeviceId P ?s0] =>
      rewrite (getDeviceId_cached P s0 id eq_refl Hid)
  end.
  ev.
  match goal with
  | |- context [checkForCommands P ?s0] =>
      destruct (checkForCommands_cached P s0 id eq_refl Hid) as [s1 [E [C _]]];
      rewrite E
  end.
  destruct s1. cbn [cachedDeviceId] in C. subst. reflexivity.
Qed.

(** Every call but [storeDeviceId] leaves a cached identifier in place. *)
Lemma runCall_cached (c : ModuleCall W) (s : State W) id :
  isStoreDeviceId c = false ->
  cachedDeviceId s = Some id ->
  String.eqb id "" = false ->
  cachedDeviceId (runCall P c s) = Some id.
Proof.
  intros Hn Hc Hid. destruct c; cbn [runCall]; try discriminate Hn.
  - rewrite (getDeviceId_cached P s id Hc Hid). exact Hc.
  - destruct (checkForCommands_cached P s id Hc Hid) as [s1 [E [C _]]].
    rewrite E. exact C.
  - apply startCommandPolling_cached; assumption.
  - destruct s as [r [p |] ip cd dl tm co ca w]; exact Hc.
  - rewrite startRecording_cachedDeviceId. exact Hc.
  - rewrite stopRecording_cachedDeviceId. exact Hc.
  - rewrite triggerRecording_cachedDeviceId. exact Hc.
  - rewrite fireTimer_cachedDeviceId. exact Hc.
  - rewrite resolvePhoneId_cachedDeviceId. exact Hc.
  - rewrite testBackendConnectivity_cachedDeviceId. exact Hc.
  - destruct s; exact Hc.
Qed.

Lemma runCalls_cached (cs : list (ModuleCall W)) :
  forall (s : State W) id,
    existsb isStoreDeviceId cs = false ->
    cachedDeviceId s = Some id ->
    String.eqb id "" = false ->
    cachedDeviceId (runCalls P cs s) = Some id.
Proof.
  induction cs as [| c cs IH]; intros s id Hn Hc Hid; [exact Hc |].
  cbn [existsb] in Hn. apply orb_false_elim in Hn. destruct Hn as [Hn1 Hn2].
  cbn [runCalls fold_left]. apply IH; [exact Hn2 | | exact Hid].
  apply runCall_cached; assumption.
Qed.

(** C7, as amended. Device identity stability.  Once [getDeviceId] has
    produced an identifier, a later call in the same process returns the
    identical string and does nothing else (no storage read, no metadata
    collection, no derivation), whatever the process has done in between
    (polling, recording, uploads, timers) and whatever has changed outside
    (the device metadata, the storage), as long as [storeDeviceId] has not
    been called in between.  After a restart (empty cache) with that value
    present in durable storage, [getDeviceId] returns the identical string
    after one storage read, again without collecting metadata or deriving
    anything. *)
Theorem device_identity_stable (s s1 s3 : State W) (id : string)
    (between : list (ModuleCall W)) (w : W) :
  getDeviceId P s = (Ok id, s1) ->
  existsb isStoreDeviceId between = false ->
  truthyStr (cachedDeviceId s3) = false ->
  AsyncStorage_getItem P DEVICE_ID_KEY (world s3) = (Ok (Some id), w) ->
  getDeviceId P (runCalls P between s1) = (Ok id, runCalls P between s1)
  /\ exists s4,
       getDeviceId P s3 = (Ok id, s4)
       /\ calls s4 = (calls s3 ++ [CStorageGet DEVICE_ID_KEY])%list
       /\ cachedDeviceId s4 = Some id.
Proof.
  intros H1 H2 H3 H4.
  destruct (getDeviceId_result P s) as [id' [s1' [E [Hc [Hne _]]]]].
  rewrite H1 in E. inversion E; subst id' s1'; clear E.
  split.
  - apply getDeviceId_cached; [| exact Hne].
    apply runCalls_cached; assumption.
  - destruct (getDeviceId_stored P s3 id w H3 H4 Hne) as [s4 [E4 [C4 [D4 _]]]].
    exists s4. auto.
Qed.
End ProcessIdentity.

Lemma device_identity_stable_witness :
  getDeviceId sim (initialState idleDevice) = (Ok "Acme_Model1_iOS", resolvedOnce)
  /\ deviceIdOf (simDeviceInfo (world (runCalls sim busyProcess resolvedOnce)))
     = "OtherCorp_Model_2_iOS"
  /\ getDeviceId sim (runCalls sim busyProcess resolvedOnce)
     = (Ok "Acme_Model1_iOS", runCalls sim busyProcess resolvedOnce)
  /\ exists s4,
       getDeviceId sim restarted = (Ok "Acme_Model1_iOS", s4)
       /\ calls s4 = (calls restarted ++ [CStorageGet DEVICE_ID_KEY])%list
       /\ cachedDeviceId s4 = Some "Acme_Model1_iOS".
Proof.
  split; [vm_compute; reflexivity |]. split; [vm_compute; reflexivity |].
  eapply (device_identity_stable sim (initialState idleDevice) resolvedOnce
            restarted "Acme_Model1_iOS" busyProcess);
    [vm_compute; reflexivity | reflexivity | reflexivity | vm_compute; reflexivity].
Defined.

(** C7 as stated fails: the process resolves "Acme_Model1_iOS"; the
    device then reports other metadata and the registration flow stores
    the identifier derived from it; the next call in the same process
    returns "OtherCorp_Model_2_iOS", and so does the call after a
    restart. *)
Lemma store_replaces_resolved_identity :
  fst (getDeviceId sim (initialState idleDevice)) = Ok "Acme_Model1_iOS"
  /\ resolvedOnce = snd (getDeviceId sim (initialState idleDevice))
  /\ fst (getDeviceId sim (runCalls sim registeredAgain resolvedOnce))
     = Ok "OtherCorp_Model_2_iOS"
  /\ fst (getDeviceId sim
            (initialState (world (runCalls sim registeredAgain resolvedOnce))))
     = Ok "OtherCorp_Model_2_iOS"
  /\ fst (getDeviceId sim (runCalls sim registeredAgain resolvedOnce))
     <> fst (getDeviceId sim (initialState idleDevice)).
Proof.
  repeat split; try (vm_compute; reflexivity). vm_compute. discriminate.
Qed.

(** * The polling cadence *)

Lemma at_most_one (l : list nat) :
  NoDup l ->
  (forall x y, In x l -> In y l -> x = y) ->
  (length l <= 1)%nat.
Proof.
  intros Hn He. destruct l as [| a [| b r]]; cbn; try lia.
  exfalso. inversion Hn as [| ? ? Ha _]; subst.
  apply Ha. rewrite (He a b); cbn; auto.
Qed.

Section Activation.
Context {W : Type} (P : Platform W).

Lemma getDeviceId_ownFetches : preserves ownFetches (getDeviceId P).
Proof.
  unfold getDeviceId, generateDeviceId, console_log, console_warn, console_error.
  keeps.
Qed.

(** The activation from a state that is not polling: the identifier, the
    immediate poll with its one request, and only then [setInterval]. *)
Lemma startCommandPollingWith_run (setInterval : Z -> M W unit) (s : State W) :
  isPolling s = false ->
  exists s3 url,
    startCommandPollingWith P setInterval s
      = (setInterval 2000 ;;
         console_log "Command polling started - checking for commands every 2 seconds")
          s3
    /\ ownFetches s3 = (ownFetches s ++ [CFetch url])%list
    /\ isPolling s3 = true.
Proof.
  destruct s as [r pi ip cd dl tm co ca w]; cbn [isPolling]; intros ->.
  unfold startCommandPollingWith, console_log. ev.
  match goal with
  | |- context [getDeviceId P ?s0] =>
      destruct (getDeviceId_result P s0) as [id [s1 [E1 [Hc [Hne _]]]]];
      pose proof (getDeviceId_ownFetches s0) as F1;
      rewrite E1 in F1 |- *; cbn [snd] in F1
  end.
  destruct s1 as [r1 pi1 ip1 cd1 dl1 tm1 co1 ca1 w1].
  cbn [cachedDeviceId] in Hc. subst cd1. ev.
  match goal with
  | |- context [checkForCommands P ?s2] =>
      destruct (checkForCommands_cached P s2 id eq_refl Hne) as [s3 [E3 [_ F3]]];
      pose proof (checkForCommands_pollingFlags P s2) as G3;
      rewrite E3 in G3 |- *; cbn [snd] in G3
  end.
  eexists s3, _. split; [reflexivity |]. split.
  - rewrite F3. unfold ownFetches in *. cbn [calls] in *. rewrite F1. reflexivity.
  - unfold pollingFlags in G3. cbn [pollingInterval isPolling] in G3.
    inversion G3. reflexivity.
Qed.
End Activation.

Section PollingCadence.
Context {W : Type} (P : Platform W) (cost : W -> Z).

(** The clocked activation: the request of the immediate poll has been
    sent, and the interval is installed at the time at which the
    activation returns, with the period of 2 s. *)
Lemma activation_run (s0 : State (Clocked W)) :
  isPolling s0 = false ->
  exists sA url,
    activation P cost s0 = (Ok tt, sA)
    /\ ownFetches sA = (ownFetches s0 ++ [CFetch url])%list
    /\ pollingInterval sA = Some pollPeriod
    /\ installedAt sA = clock (world sA).
Proof.
  intros Hp. unfold activation.
  destruct (startCommandPollingWith_run (clockedPlatform P cost) setIntervalClocked
              s0 Hp) as [s3 [url [E [F _]]]].
  rewrite E. destruct s3 as [r pi ip cd dl tm co ca [ck li w]].
  unfold console_log, setIntervalClocked. ev.
  eexists _, url. split; [reflexivity |].
  split; [exact F |]. split; [reflexivity |].
  unfold installedAt. cbn [world intervalInstalls clock]. apply last_last.
Qed.

(** The ticks follow the return of the activation by whole periods. *)
Lemma cycleStart_tick (s0 : State (Clocked W)) k :
  isPolling s0 = false ->
  cycleStart P cost s0 (S k)
  = cycleEnd P cost s0 0 + Z.of_nat (S k) * pollPeriod.
Proof.
  intros Hp. destruct (activation_run s0 Hp) as [sA [url [E [_ [Hi Ht]]]]].
  unfold cycleStart, cycleEnd, tickTime, periodOf. cbn [afterCycles].
  rewrite E. cbn [snd]. rewrite Hi, Ht. reflexivity.
Qed.

Lemma earlier_cycle_settled (s0 : State (Clocked W)) n j k :
  isPolling s0 = false ->
  (forall i, (1 <= i <= n)%nat ->
     cycleEnd P cost s0 i <= cycleStart P cost s0 i + pollPeriod) ->
  (j < k)%nat -> (j <= n)%nat ->
  cycleEnd P cost s0 j <= cycleStart P cost s0 k.
Proof.
  intros Hp Hd Hjk Hjn. destruct k as [| k]; [lia |].
  rewrite (cycleStart_tick s0 k Hp).
  destruct j as [| j]; [unfold pollPeriod; lia |].
  pose proof (Hd (S j) ltac:(lia)) as H.
  rewrite (cycleStart_tick s0 j Hp) in H. unfold pollPeriod in *. lia.
Qed.

(** C8, as amended. [startCommandPolling] is called at a time at which the
    module is not polling.  The immediate poll is awaited before the
    interval is installed: the request of the poll has been sent and has
    settled when [setInterval] is called, at the time at which the
    activation returns, so that the activation has ended when a
    timer-started cycle begins, however long the poll takes.  The ticks
    then follow every 2 s, whether or not the cycle before has settled;
    and when each of the first [n] timer-started cycles settles within
    the period, at most one cycle is in flight at any time. *)
Theorem cycles_within_period_never_overlap (s0 : State (Clocked W)) (n : nat) :
  isPolling s0 = false ->
  (forall k, (1 <= k <= n)%nat ->
     cycleEnd P cost s0 k <= cycleStart P cost s0 k + pollPeriod) ->
  (exists sA url,
     activation P cost s0 = (Ok tt, sA)
     /\ ownFetches sA = (ownFetches s0 ++ [CFetch url])%list
     /\ pollingInterval sA = Some pollPeriod
     /\ installedAt sA = clock (world sA))
  /\ (forall k, cycleEnd P cost s0 0 <= cycleStart P cost s0 (S k))
  /\ (forall k, cycleStart P cost s0 (S k)
                = cycleEnd P cost s0 0 + Z.of_nat (S k) * pollPeriod)
  /\ forall t, (length (inFlight P cost s0 (S n) t) <= 1)%nat.
Proof.
  intros Hp Hd.
  split; [exact (activation_run s0 Hp) |].
  split; [intros k; rewrite (cycleStart_tick s0 k Hp); unfold pollPeriod; lia |].
  split; [intros k; exact (cycleStart_tick s0 k Hp) |].
  intros t. unfold inFlight. apply at_most_one.
  - apply NoDup_filter, seq_NoDup.
  - intros x y Hx Hy. apply filter_In in Hx, Hy.
    destruct Hx as [Ix Hx], Hy as [Iy Hy].
    apply in_seq in Ix, Iy.
    unfold inFlightAt in Hx, Hy.
    apply andb_prop in Hx, Hy. destruct Hx as [Hx1 Hx2], Hy as [Hy1 Hy2].
    apply Z.leb_le in Hx1, Hy1. apply Z.ltb_lt in Hx2, Hy2.
    destruct (Nat.lt_trichotomy x y) as [H | [H | H]]; [| exact H |].
    + pose proof (earlier_cycle_settled s0 n x y Hp Hd H ltac:(lia)). lia.
    + pose proof (earlier_cycle_settled s0 n y x Hp Hd H ltac:(lia)). lia.
Qed.
End PollingCadence.

Lemma cycles_within_period_never_overlap_witness :
  isPolling pollingDevice = false
  /\ (forall k, (1 <= k <= 3)%nat ->
        cycleEnd sim quickCost pollingDevice k
        <= cycleStart sim quickCost pollingDevice k + pollPeriod)
  /\ (exists sA url,
        activation sim quickCost pollingDevice = (Ok tt, sA)
        /\ ownFetches sA = (ownFetches pollingDevice ++ [CFetch url])%list
        /\ pollingInterval sA = Some pollPeriod
        /\ installedAt sA = clock (world sA))
  /\ (forall k, cycleEnd sim quickCost pollingDevice 0
                <= cycleStart sim quickCost pollingDevice (S k))
  /\ (forall k, cycleStart sim quickCost pollingDevice (S k)
                = cycleEnd sim quickCost pollingDevice 0 + Z.of_nat (S k) * pollPeriod)
  /\ forall t, (length (inFlight sim quickCost pollingDevice 4 t) <= 1)%nat.
Proof.
  assert (H : forall k, (1 <= k <= 3)%nat ->
                cycleEnd sim quickCost pollingDevice k
                <= cycleStart sim quickCost pollingDevice k + pollPeriod).
  { intros k Hk.
    assert (Hc : k = 1%nat \/ k = 2%nat \/ k = 3%nat) by lia.
    destruct Hc as [-> | [-> | ->]]; apply Z.leb_le; vm_compute; reflexivity. }
  split; [reflexivity |]. split; [exact H |].
  exact (cycles_within_period_never_overlap sim quickCost pollingDevice 3 eq_refl H).
Defined.

(** C8 as stated fails: the activation returns at 400 ms; the cycle of the
    first tick, at 2400 ms, receives the answer to its request after 5 s;
    the second tick starts a cycle at 4400 ms, and at that moment two
    cycles are in flight. *)
Lemma slow_poll_overlaps :
  isPolling pollingDevice = false
  /\ cycleEnd sim slowCost pollingDevice 0 = 400
  /\ cycleStart sim slowCost pollingDevice 1 = 2400
  /\ cycleEnd sim slowCost pollingDevice 1 = 7400
  /\ cycleStart sim slowCost pollingDevice 2 = 4400
  /\ inFlight sim slowCost pollingDevice 4 4400 = [1%nat; 2%nat]
  /\ ~ (length (inFlight sim slowCost pollingDevice 4 4400) <= 1)%nat.
Proof.
  repeat split; try (vm_compute; reflexivity).
  vm_compute. lia.
Qed.

(** * White space in the identifier *)

(** What starts at a byte is decided by the character that the byte
    starts. *)
Lemma spaceWidth_lead c x :
  spaceWidth (String c x)
  = match charWidth c with
    | 1%nat => if isSpace1 c then 1%nat else 0%nat
    | 2%nat =>
        match x with
        | String b _ => if isSpace2 c b then 2%nat else 0%nat
        | EmptyString => 0%nat
        end
    | 3%nat =>
        match x with
        | String b (String b2 _) => if isSpace3 c b b2 then 3%nat else 0%nat
        | _ => 0%nat
        end
    | _ => 0%nat
    end.
Proof.
  destruct c as [[] [] [] [] [] [] [] []];
    destruct x as [| b [| b2 x]]; reflexivity.
Qed.

Lemma charWidth_continuation b : isContinuation b = true -> charWidth b = 0%nat.
Proof.
  destruct b as [[] [] [] [] [] [] [] []]; vm_compute; intros H;
    first [reflexivity | discriminate H].
Qed.

Lemma charWidth_bound c : (charWidth c <= 4)%nat.
Proof.
  unfold charWidth.
  repeat match goal with |- context [if ?b then _ else _] => destruct b end; lia.
Qed.

Lemma spaceWidth_continuation b x :
  isContinuation b = true -> spaceWidth (String b x) = 0%nat.
Proof.
  intros H. rewrite spaceWidth_lead, (charWidth_continuation b H). reflexivity.
Qed.

(** Reads the bytes that continue a character, in a hypothesis that the
    rest is well formed. *)
Ltac continuation Hw b r Hb :=
  destruct r as [| b r]; [discriminate Hw |];
  cbn [wellFormedFrom] in Hw; apply andb_prop in Hw; destruct Hw as [Hb Hw].

(** Deleting the white space of whole characters leaves no white space,
    also before a tail that has none. *)
Lemma removeSpaces_spaceFree n :
  forall m tail,
    (String.length m <= n)%nat ->
    wellFormed m = true ->
    spaceFree tail = true ->
    spaceFree (removeSpaces 0 m ++ tail) = true.
Proof.
  induction n as [| n IH]; intros m tail Hl Hw Ht.
  - destruct m; [exact Ht | cbn in Hl; lia].
  - destruct m as [| c r]; [exact Ht |].
    unfold wellFormed in Hw. cbn [wellFormedFrom] in Hw. cbn [String.length] in Hl.
    pose proof (charWidth_bound c) as Hb.
    cbn [removeSpaces]. rewrite spaceWidth_lead.
    destruct (charWidth c) as [| [| [| [| [| k]]]]] eqn:Hc;
      try discriminate Hw; try lia.
    + destruct (isSpace1 c) eqn:Hs.
      * apply IH; [lia | exact Hw | exact Ht].
      * cbn [append spaceFree]. rewrite spaceWidth_lead, Hc, Hs. cbn [Nat.eqb andb].
        apply IH; [lia | exact Hw | exact Ht].
    + continuation Hw b r Hb1. cbn [String.length] in Hl.
      destruct (isSpace2 c b) eqn:Hs; cbn [removeSpaces].
      * apply IH; [lia | exact Hw | exact Ht].
      * rewrite (spaceWidth_continuation b r Hb1).
        cbn [append spaceFree].
        rewrite spaceWidth_lead, Hc, Hs, (spaceWidth_continuation b _ Hb1).
        cbn [Nat.eqb andb]. apply IH; [lia | exact Hw | exact Ht].
    + continuation Hw b r Hb1. continuation Hw b2 r Hb2. cbn [String.length] in Hl.
      destruct (isSpace3 c b b2) eqn:Hs; cbn [removeSpaces].
      * apply IH; [lia | exact Hw | exact Ht].
      * rewrite (spaceWidth_continuation b _ Hb1). cbn [removeSpaces].
        rewrite (spaceWidth_continuation b2 _ Hb2).
        cbn [append spaceFree].
        rewrite spaceWidth_lead, Hc, Hs, (spaceWidth_continuation b _ Hb1),
          (spaceWidth_continuation b2 _ Hb2).
        cbn [Nat.eqb andb]. apply IH; [lia | exact Hw | exact Ht].
    + continuation Hw b r Hb1. continuation Hw b2 r Hb2. continuation Hw b3 r Hb3.
      cbn [String.length] in Hl. cbn [removeSpaces].
      rewrite (spaceWidth_continuation b _ Hb1). cbn [removeSpaces].
      rewrite (spaceWidth_continuation b2 _ Hb2). cbn [removeSpaces].
      rewrite (spaceWidth_continuation b3 _ Hb3).
      cbn [append spaceFree].
      rewrite spaceWidth_lead, Hc, (spaceWidth_continuation b _ Hb1),
        (spaceWidth_continuation b2 _ Hb2), (spaceWidth_continuation b3 _ Hb3).
      cbn [Nat.eqb andb]. apply IH; [lia | exact Hw | exact Ht].
Qed.

Lemma spaceFree_underscore x : spaceFree (String "_" x) = spaceFree x.
Proof. cbn [spaceFree]. rewrite spaceWidth_lead. reflexivity. Qed.

(** The same for the runs replaced by an underscore. *)
Lemma underscoreRuns_spaceFree n :
  forall m inRun tail,
    (String.length m <= n)%nat ->
    wellFormed m = true ->
    spaceFree tail = true ->
    spaceFree (underscoreRuns inRun 0 m ++ tail) = true.
Proof.
  induction n as [| n IH]; intros m inRun tail Hl Hw Ht.
  - destruct m; [exact Ht | cbn in Hl; lia].
  - destruct m as [| c r]; [exact Ht |].
    unfold wellFormed in Hw. cbn [wellFormedFrom] in Hw. cbn [String.length] in Hl.
    pose proof (charWidth_bound c) as Hb.
    cbn [underscoreRuns]. rewrite spaceWidth_lead.
    destruct (charWidth c) as [| [| [| [| [| k]]]]] eqn:Hc;
      try discriminate Hw; try lia.
    + destruct (isSpace1 c) eqn:Hs.
      * destruct inRun; cbn [append]; rewrite ?spaceFree_underscore;
          (apply IH; [lia | exact Hw | exact Ht]).
      * cbn [append spaceFree]. rewrite spaceWidth_lead, Hc, Hs. cbn [Nat.eqb andb].
        apply IH; [lia | exact Hw | exact Ht].
    + continuation Hw b r Hb1. cbn [String.length] in Hl.
      destruct (isSpace2 c b) eqn:Hs.
      * destruct inRun; cbn [underscoreRuns append]; rewrite ?spaceFree_underscore;
          (apply IH; [lia | exact Hw | exact Ht]).
      * cbn [underscoreRuns]. rewrite (spaceWidth_continuation b r Hb1).
        cbn [append spaceFree].
        rewrite spaceWidth_lead, Hc, Hs, (spaceWidth_continuation b _ Hb1).
        cbn [Nat.eqb andb]. apply IH; [lia | exact Hw | exact Ht].
    + continuation Hw b r Hb1. continuation Hw b2 r Hb2. cbn [String.length] in Hl.
      destruct (isSpace3 c b b2) eqn:Hs.
      * destruct inRun; cbn [underscoreRuns append]; rewrite ?spaceFree_underscore;
          (apply IH; [lia | exact Hw | exact Ht]).
      * cbn [underscoreRuns]. rewrite (spaceWidth_continuation b _ Hb1).
        cbn [underscoreRuns]. rewrite (spaceWidth_continuation b2 _ Hb2).
        cbn [append spaceFree].
        rewrite spaceWidth_lead, Hc, Hs, (spaceWidth_continuation b _ Hb1),
          (spaceWidth_continuation b2 _ Hb2).
        cbn [Nat.eqb andb]. apply IH; [lia | exact Hw | exact Ht].
    + continuation Hw b r Hb1. continuation Hw b2 r Hb2. continuation Hw b3 r Hb3.
      cbn [String.length] in Hl. cbn [underscoreRuns].
      rewrite (spaceWidth_continuation b _ Hb1). cbn [underscoreRuns].
      rewrite (spaceWidth_continuation b2 _ Hb2). cbn [underscoreRuns].
      rewrite (spaceWidth_continuation b3 _ Hb3).
      cbn [append spaceFree].
      rewrite spaceWidth_lead, Hc, (spaceWidth_continuation b _ Hb1),
        (spaceWidth_continuation b2 _ Hb2), (spaceWidth_continuation b3 _ Hb3).
      cbn [Nat.eqb andb]. apply IH; [lia | exact Hw | exact Ht].
Qed.

(** X13. For a manufacturer and a model made of whole characters, the
    identifier that [generateDeviceId] returns contains no white space
    character, at any position, and is not empty. *)
Theorem generateDeviceId_no_whitespace {W} (P : Platform W)
    (deviceInfo : DeviceInfo) (s : State W) :
  wellFormed (orDefault (manufacturer deviceInfo) "Apple") = true ->
  wellFormed (orDefault (modelName deviceInfo) "Unknown") = true ->
  exists id,
    fst (generateDeviceId P deviceInfo s) = Ok id
    /\ spaceFree id = true
    /\ id <> "".
Proof.
  intros Hm Hd.
  exists (deviceIdOf deviceInfo). rewrite generateDeviceId_runs.
  split; [reflexivity |]. split.
  - unfold deviceIdOf, removeWhitespace, underscoreWhitespace.
    eapply removeSpaces_spaceFree; [apply Nat.le_refl | exact Hm |].
    cbn [append]. rewrite spaceFree_underscore.
    eapply underscoreRuns_spaceFree; [apply Nat.le_refl | exact Hd | reflexivity].
  - intros H. pose proof (deviceIdOf_nonempty deviceInfo) as Hn.
    rewrite H in Hn. discriminate.
Qed.

Lemma generateDeviceId_no_whitespace_witness :
  exists id,
    fst (generateDeviceId sim
           (mkDeviceInfo (Some ("Acme" ++ noBreakSpace ++ "Corp"))
              (Some ("Model" ++ ideographicSpace ++ " X")) "ios")
           (initialState idleDevice)) = Ok id
    /\ spaceFree id = true
    /\ id <> "".
Proof.
  apply (generateDeviceId_no_whitespace sim
           (mkDeviceInfo (Some ("Acme" ++ noBreakSpace ++ "Corp"))
              (Some ("Model" ++ ideographicSpace ++ " X")) "ios")
           (initialState idleDevice));
    vm_compute; reflexivity.
Defined.
